(** * Conversational task-routing engine: chunking, vector index, intent
      classification, session memory and the per-message orchestrator.

    A shallow embedding of the Python sources
      - [app/rag/pipeline.py]            (chunking, retrieval)
      - [app/rag/vector_store.py]        (vector index over a flat L2 index)
      - [app/services/llm_service.py]    (model calls, keyword fallback)
      - [app/agents/intent_classifier.py](identifier extraction)
      - [app/agents/orchestrator.py]     (session log, routing, composition)
      - [app/tools/*.py], [app/db/data_store.py] (handlers and their store)
      - [app/schemas/models.py]          (the response object)
    followed by the properties stated about them.

    Conventions.  A Python [str] is a [string] whose characters are the
    code points below 256.  A Python [int] is a [Z].  A [dict] with string
    keys is a [gmap string _]; values of type [Any] are [PyVal].  A function
    that may raise returns a [Res]; mutation is explicit state passing, and
    a mutation made before an exception is raised stays made. *)

From Stdlib Require Import ZArith Ascii String List Bool Lia.
From Stdlib Require Floats.PrimFloat DecimalString DecimalZ.
From stdpp Require Import base option list gmap strings sorting.

Open Scope Z_scope.

(* ===================================================================== *)
(** * Python values, exceptions, sequences                                *)
(* ===================================================================== *)

Module Py.

(** Values of type [Any]: what JSON and the handlers put into dicts.
    A nested dict keeps its items as an association list. *)
#[warnings="-register-all"]
Inductive PyVal : Type :=
| VNone
| VBool (b : bool)
| VInt (z : Z)
| VFloat (f : PrimFloat.float)
| VStr (s : string)
| VList (l : list PyVal)
| VDict (d : list (string * PyVal)).

Inductive exn : Type :=
| ValueError | AssertionError | IndexError | KeyError | TypeError
| AttributeError
| ValidationError
| ExternalError (detail : string).

(** Outcome of a call: a value or a raised exception. *)
Inductive Res (A : Type) : Type :=
| Ok (a : A)
| Raise (e : exn).
Arguments Ok {A} a.
Arguments Raise {A} e.

Definition res_bind {A B} (r : Res A) (k : A -> Res B) : Res B :=
  match r with Ok a => k a | Raise e => Raise e end.

Definition is_ok {A} (r : Res A) : bool :=
  match r with Ok _ => true | Raise _ => false end.

(** ** Slices *)

(** How a slice bound is read against a sequence of length [len]:
    a negative bound counts from the end, and both are clamped. *)
Definition norm_index (len i : Z) : Z :=
  if i <? 0 then Z.max 0 (len + i) else Z.min i len.

(** [s[i:j]] on a [str]. *)
Definition str_slice (s : string) (i j : Z) : string :=
  let len := Z.of_nat (String.length s) in
  let a := norm_index len i in
  let b := norm_index len j in
  substring (Z.to_nat a) (Z.to_nat (b - a)) s.

(** [l[i:]] on a list. *)
Definition list_slice_from {A} (l : list A) (i : Z) : list A :=
  drop (Z.to_nat (norm_index (Z.of_nat (length l)) i)) l.

(** ** [range(start, stop, step)] as the [for] loop walks it *)

Fixpoint range_up (fuel : nat) (i stop step : Z) : list Z :=
  match fuel with
  | O => []
  | S fuel' =>
      if i <? stop then i :: range_up fuel' (i + step) stop step else []
  end.

Fixpoint range_down (fuel : nat) (i stop step : Z) : list Z :=
  match fuel with
  | O => []
  | S fuel' =>
      if stop <? i then i :: range_down fuel' (i + step) stop step else []
  end.

(** A zero step is a [ValueError].  A positive step of at least one
    leaves at most [stop - start] values, which bounds the walk. *)
Definition range (start stop step : Z) : Res (list Z) :=
  if step =? 0 then Raise ValueError
  else if 0 <? step
       then Ok (range_up (Z.to_nat (stop - start)) start stop step)
       else Ok (range_down (Z.to_nat (start - stop)) start stop step).

(** ** Characters and strings *)

Definition code (c : ascii) : N := N_of_ascii c.

(** [str.lower] on one code point below 256: A-Z, and the upper-case
    Latin-1 letters 0xC0-0xDE other than the multiplication sign. *)
Definition lower_char (c : ascii) : ascii :=
  let n := code c in
  if ((65 <=? n) && (n <=? 90))%N then ascii_of_N (n + 32)
  else if ((192 <=? n) && (n <=? 222) && negb (n =? 215))%N
       then ascii_of_N (n + 32)
  else c.

Fixpoint lower (s : string) : string :=
  match s with
  | EmptyString => EmptyString
  | String c s' => String (lower_char c) (lower s')
  end.

(** [str.isspace] on one code point below 256. *)
Definition is_space (c : ascii) : bool :=
  let n := code c in
  (((9 <=? n) && (n <=? 13)) || ((28 <=? n) && (n <=? 32))
   || (n =? 133) || (n =? 160))%N.

Fixpoint lstrip (s : string) : string :=
  match s with
  | EmptyString => EmptyString
  | String c s' => if is_space c then lstrip s' else s
  end.

Fixpoint rstrip (s : string) : string :=
  match s with
  | EmptyString => EmptyString
  | String c s' =>
      match rstrip s' with
      | EmptyString => if is_space c then EmptyString else String c EmptyString
      | r => String c r
      end
  end.

Definition strip (s : string) : string := rstrip (lstrip s).

(** [w in s] for two strings: [w] occurs in [s] as a contiguous run. *)
Fixpoint contains (w s : string) : bool :=
  String.prefix w s
  || match s with
     | EmptyString => false
     | String _ s' => contains w s'
     end.

(** [any(w in s for w in words)] *)
Definition any_in (words : list string) (s : string) : bool :=
  existsb (fun w => contains w s) words.

(** [sep.join(parts)] *)
Fixpoint join (sep : string) (parts : list string) : string :=
  match parts with
  | [] => ""
  | [p] => p
  | p :: rest => p +:+ sep +:+ join sep rest
  end.

Definition nl : string := String (ascii_of_nat 10) EmptyString.

(** Truth value of an object, as [if x:] and [not x] read it. *)
Definition truthy (v : PyVal) : bool :=
  match v with
  | VNone => false
  | VBool b => b
  | VInt z => negb (z =? 0)
  | VFloat f => negb (PrimFloat.eqb f PrimFloat.zero)
  | VStr s => negb (String.eqb s "")
  | VList l => match l with [] => false | _ => true end
  | VDict d => match d with [] => false | _ => true end
  end.

(** [d.get(k)] on a nested dict: the first item with that key. *)
Fixpoint assoc_get (d : list (string * PyVal)) (k : string) : option PyVal :=
  match d with
  | [] => None
  | (k', v) :: d' => if String.eqb k' k then Some v else assoc_get d' k
  end.

End Py.
Import Py.

Notation "'let!' x ':=' r 'in' k" := (res_bind r (fun x => k))
  (at level 10, x name, r at level 100, k at level 200).

(* ===================================================================== *)
(** * Retrieval pipeline: chunking ([app/rag/pipeline.py])                *)
(* ===================================================================== *)

Module Pipeline.

(** A document item, with the keys [_chunk_documents] reads. *)
Record Document : Type := mkDocument {
  content : option string;
  question : option string;
  answer : option string;
  title : option string;
  doc_type : option string;
  product_id : option PyVal;
  category : option PyVal
}.

Record Chunk : Type := mkChunk {
  text : string;
  metadata : gmap string PyVal
}.

Section Chunking.

(** [str(doc)], the text of an item with neither [content] nor
    [answer]. *)
Variable str_of_doc : Document -> string.

Definition doc_text (doc : Document) : string :=
  match content doc with
  | Some c => c
  | None =>
      match answer doc with
      | Some a => "Q: " +:+ default "" (question doc) +:+ nl +:+ "A: " +:+ a
      | None => str_of_doc doc
      end
  end.

Definition doc_metadata (doc : Document) : gmap string PyVal :=
  {[ "doc_type" := VStr (default "unknown" (doc_type doc));
     "title" := VStr (default (default "Untitled" (question doc)) (title doc));
     "product_id" := default VNone (product_id doc);
     "category" := default VNone (category doc) ]}.

(** The inner loop: one chunk per window start. *)
Definition chunks_of_doc (doc : Document) (chunk_size overlap : Z)
  : Res (list Chunk) :=
  let text := doc_text doc in
  let! starts := range 0 (Z.of_nat (String.length text))
                       (chunk_size - overlap) in
  Ok (map (fun i => mkChunk (str_slice text i (i + chunk_size))
                            (doc_metadata doc)) starts).

(** The outer loop appends each document's chunks in order; an
    exception in one document abandons the whole call. *)
Fixpoint _chunk_documents (documents : list Document)
         (chunk_size overlap : Z) : Res (list Chunk) :=
  match documents with
  | [] => Ok []
  | doc :: rest =>
      let! cs := chunks_of_doc doc chunk_size overlap in
      let! more := _chunk_documents rest chunk_size overlap in
      Ok (cs ++ more)
  end.

End Chunking.

(** Defaults of the signature: [chunk_size=500], [overlap=50]. *)
Definition default_chunk_size : Z := 500.
Definition default_overlap : Z := 50.

End Pipeline.

(* ===================================================================== *)
(** * Vector index ([app/rag/vector_store.py])                            *)
(* ===================================================================== *)

(** The [float32] entries of the arrays, the squared Euclidean distance
    the flat index computes on two rows, and the comparison of two
    distances.  The model keeps them abstract: every result below holds
    for any arithmetic, and the ordering results for any comparison that
    is total and transitive (as [<=] on [float32] is away from NaN). *)
Class Scalar : Type := {
  F32 : Type;
  sqdist : list F32 -> list F32 -> F32;
  f32_le : F32 -> F32 -> bool
}.

Class ScalarOrder `{Scalar} : Prop := {
  f32_le_total : forall x y, f32_le x y = true \/ f32_le y x = true;
  f32_le_trans : forall x y z,
      f32_le x y = true -> f32_le y z = true -> f32_le x z = true
}.

(** The flat L2 index of the search library, by what the store uses of
    it: rows of a fixed width [d], appended by [add], and an exhaustive
    [search] that returns the [k] smallest distances in ascending order
    with the positions of their rows.  The store only ever asks for
    [k <= ntotal], so the padding the library adds beyond [ntotal] never
    arises and is left out. *)
Module Faiss.
Section Index.
Context `{Scalar}.

Record IndexFlatL2 : Type := mkIndex {
  d : Z;
  xb : list (list F32)
}.

Definition ntotal (ix : IndexFlatL2) : Z := Z.of_nat (length (xb ix)).

(** [np.array(rows, dtype=np.float32)] for a non-empty list of rows:
    a rectangular array of shape [(n, width)], or a [ValueError] on
    ragged rows. *)
Definition np_array (rows : list (list F32)) : Res (Z * list (list F32)) :=
  match rows with
  | [] => Ok (0, [])
  | r :: _ =>
      if forallb (fun r' => Nat.eqb (length r') (length r)) rows
      then Ok (Z.of_nat (length r), rows)
      else Raise ValueError
  end.

(** [index.add(x)]: asserts the width, then appends the rows. *)
Definition add (ix : IndexFlatL2) (x : Z * list (list F32)) : Res IndexFlatL2 :=
  if fst x =? d ix then Ok (mkIndex (d ix) (xb ix ++ snd x))
  else Raise AssertionError.

Definition closer (a b : F32 * Z) : Prop := f32_le (fst a) (fst b) = true.

#[global] Instance closer_dec a b : Decision (closer a b).
Proof. unfold closer. apply _. Defined.

(** Every row's distance to the query, paired with its position. *)
Definition scored (ix : IndexFlatL2) (q : list F32) : list (F32 * Z) :=
  imap (fun i row => (sqdist q row, Z.of_nat i)) (xb ix).

(** [index.search(x, k)] for a one-row query: asserts the width and
    [k > 0]; distances and labels come back as two parallel rows. *)
Definition search (ix : IndexFlatL2) (q : list F32) (k : Z)
  : Res (list F32 * list Z) :=
  if negb (Z.of_nat (length q) =? d ix) then Raise AssertionError
  else if negb (0 <? k) then Raise AssertionError
  else
    let best := take (Z.to_nat k) (merge_sort closer (scored ix q)) in
    Ok (map fst best, map snd best).

End Index.
End Faiss.

Module VectorStore.

Abbreviation Metadata := (gmap string PyVal).

(** One search result: [(document_text, metadata, distance)]. *)
Abbreviation Result := (string * Metadata * F32)%type.

Section Store.
Context `{Scalar}.

Record t : Type := mkStore {
  dimension : Z;
  index : Faiss.IndexFlatL2;
  documents : list string;
  metadata : list Metadata;
  store_path : string
}.

(** [VectorStore(dimension)] with the path the environment gives. *)
Definition init (dimension : Z) (store_path : string) : t :=
  mkStore dimension (Faiss.mkIndex dimension []) [] [] store_path.

(** [add_documents]: returns at once when [embeddings] or [documents]
    is empty; otherwise converts, adds to the index, and extends both
    lists.  The conversion and the index raise before anything is
    stored, so an exception leaves the store as it was. *)
Definition add_documents (st : t) (embeddings : list (list F32))
           (docs : list string) (meta : list Metadata) : Res unit * t :=
  match embeddings, docs with
  | [], _ | _, [] => (Ok tt, st)
  | _, _ =>
      match Faiss.np_array embeddings with
      | Raise e => (Raise e, st)
      | Ok embeddings_array =>
          match Faiss.add (index st) embeddings_array with
          | Raise e => (Raise e, st)
          | Ok ix =>
              (Ok tt, mkStore (dimension st) ix
                              (documents st ++ docs) (metadata st ++ meta)
                              (store_path st))
          end
      end
  end.

(** [seq[i]] for an integer position: negative positions count from
    the end, anything outside is an [IndexError]. *)
Definition getitem {A} (l : list A) (i : Z) : Res A :=
  let j := if i <? 0 then Z.of_nat (length l) + i else i in
  if j <? 0 then Raise IndexError
  else match l !! Z.to_nat j with
       | Some x => Ok x
       | None => Raise IndexError
       end.

(** The loop over [zip(distances[0], indices[0])]. *)
Fixpoint collect (st : t) (hits : list (F32 * Z)) : Res (list Result) :=
  match hits with
  | [] => Ok []
  | (distance, idx) :: rest =>
      if idx <? Z.of_nat (length (documents st)) then
        let! doc := getitem (documents st) idx in
        let! meta := getitem (metadata st) idx in
        let! more := collect st rest in
        Ok ((doc, meta, distance) :: more)
      else collect st rest
  end.

Definition search (st : t) (query_embedding : list F32) (top_k : Z)
  : Res (list Result) :=
  if Faiss.ntotal (index st) =? 0 then Ok []
  else
    let! found := Faiss.search (index st) query_embedding
                               (Z.min top_k (Faiss.ntotal (index st))) in
    collect st (zip (fst found) (snd found)).

(** ** Persistence.  The disk is a map from paths to files; the two
    serialisers write a value and read the same value back, and a file
    of the other kind does not parse.  Failures of the disk itself are
    outside the model. *)
Inductive File : Type :=
| IndexFile (ix : Faiss.IndexFlatL2)
| PickleFile (docs : list string) (meta : list Metadata) (dim : Z).

(** [os.path.join(dir, name)] for a relative [name]. *)
Fixpoint ends_with_slash (s : string) : bool :=
  match s with
  | EmptyString => false
  | String c EmptyString => Ascii.eqb c "/"%char
  | String _ s' => ends_with_slash s'
  end.

Definition path_join (dir name : string) : string :=
  if String.eqb dir "" || ends_with_slash dir then dir +:+ name
  else dir +:+ "/" +:+ name.

Definition index_path (st : t) : string := path_join (store_path st) "index.faiss".
Definition data_path (st : t) : string := path_join (store_path st) "data.pkl".

Definition save (st : t) (disk : gmap string File) : gmap string File :=
  let disk1 := <[index_path st := IndexFile (index st)]> disk in
  <[data_path st := PickleFile (documents st) (metadata st) (dimension st)]> disk1.

(** [load]: [False] when a file is missing or does not parse.  The
    index is assigned before the pickle is read, so a pickle that does
    not parse leaves the new index in place. *)
Definition load (st : t) (disk : gmap string File) : bool * t :=
  match disk !! index_path st, disk !! data_path st with
  | Some fi, Some fd =>
      match fi with
      | IndexFile ix =>
          let st1 := mkStore (dimension st) ix (documents st) (metadata st)
                             (store_path st) in
          match fd with
          | PickleFile docs meta dim =>
              (true, mkStore dim ix docs meta (store_path st))
          | _ => (false, st1)
          end
      | _ => (false, st)
      end
  | _, _ => (false, st)
  end.

(** [clear]: a new empty index of the store's dimension, no texts, no
    metadata. *)
Definition clear (st : t) : t :=
  mkStore (dimension st) (Faiss.mkIndex (dimension st) []) [] [] (store_path st).

(** [get_stats] *)
Definition get_stats (st : t) : gmap string PyVal :=
  list_to_map [("total_documents", VInt (Z.of_nat (length (documents st))));
               ("index_size", VInt (Faiss.ntotal (index st)));
               ("dimension", VInt (dimension st))].

End Store.
End VectorStore.

(* ===================================================================== *)
(** * The world the agent acts on                                         *)
(* ===================================================================== *)

(** Built-ins of the runtime that the model does not spell out: [str()] /
    [repr()] of an object that is not a string, the [:.2f] format of a
    float, and [str(e)] of a caught exception.  And the two places where
    the major versions of the schema library differ on a value of
    another type than the field declares: the text a number given for a
    [str] field is turned into (the first version does that; [None]
    when it is refused, as the second does), and the dict a value that
    is no dict is turned into for a [Dict] field ([None] when
    refused). *)
Class PyRuntime : Type := {
  py_repr : PyVal -> string;
  format_2f : PrimFloat.float -> string;
  exn_str : exn -> string;
  str_of_number : PyVal -> option string;
  dict_of_value : PyVal -> option (list (string * PyVal))
}.

(** [f"{v}"] *)
Definition str_of `{PyRuntime} (v : PyVal) : string :=
  match v with
  | VStr s => s
  | _ => py_repr v
  end.

(** One entry of a conversation: [{"role": ..., "content": ...}]. *)
Record Message : Type := mkMessage {
  role : string;
  content : PyVal
}.

(** One request to the chat-completions endpoint (model name and
    temperature are fixed at construction). *)
Record Request : Type := mkRequest {
  req_messages : list Message;
  req_max_tokens : Z
}.

Module DataStore.

Record Order : Type := mkOrder {
  order_id : string;
  customer_name : string;
  customer_email : string;
  items : PyVal;
  total : PrimFloat.float;
  status : string;
  order_date : string;
  expected_delivery : option string;
  tracking_number : option string
}.

Record Complaint : Type := mkComplaint {
  complaint_id : string;
  c_order_id : string;
  issue : string;
  description : string;
  c_status : string;
  created_at : string;
  updated_at : string
}.

Record Refund : Type := mkRefund {
  refund_id : string;
  r_order_id : string;
  amount : PrimFloat.float;
  r_status : string;
  reason : string;
  requested_date : string;
  expected_completion : option string
}.

Record TrackingEvent : Type := mkEvent {
  timestamp : string;
  e_status : string;
  location : string
}.

Record Delivery : Type := mkDelivery {
  d_order_id : string;
  d_tracking_number : string;
  carrier : string;
  current_status : string;
  estimated_delivery : string;
  tracking_history : list TrackingEvent
}.

Record t : Type := mkStore {
  orders : list Order;
  complaints : list Complaint;
  refunds : list Refund;
  deliveries : list Delivery;
  complaint_counter : Z;
  refund_counter : Z
}.

(** The four lookups: the first record with that order identifier. *)
Definition get_order (ds : t) (oid : string) : option Order :=
  find (fun o => String.eqb (order_id o) oid) (orders ds).

Definition get_refund (ds : t) (oid : string) : option Refund :=
  find (fun r => String.eqb (r_order_id r) oid) (refunds ds).

Definition get_delivery_status (ds : t) (oid : string) : option Delivery :=
  find (fun dl => String.eqb (d_order_id dl) oid) (deliveries ds).

(** [get_complaint]: the first complaint with that identifier. *)
Definition get_complaint (ds : t) (cid : string) : option Complaint :=
  find (fun c => String.eqb (complaint_id c) cid) (complaints ds).

End DataStore.

(** What the agent has asked of its collaborators, oldest first. *)
Inductive Call : Type :=
| ChatCompletion (req : Request)
| GenerateWithHistory (messages : list Message)
| EmbedText (query : string)
| CompareProducts (ids : list Z).

(** The mutable state a turn can touch. *)
Record World : Type := mkWorld {
  conversations : gmap string (list Message);
  data_store : DataStore.t;
  calls : list Call
}.

(** A step of the agent: it may change the world and may raise, and what
    it changed before raising stays changed. *)
Definition M (A : Type) : Type := World -> Res A * World.

Definition ret {A} (a : A) : M A := fun w => (Ok a, w).
Definition raise {A} (e : exn) : M A := fun w => (Raise e, w).
Definition bind {A B} (m : M A) (k : A -> M B) : M B :=
  fun w => match m w with
           | (Ok a, w') => k a w'
           | (Raise e, w') => (Raise e, w')
           end.
Definition lift {A} (r : Res A) : M A := fun w => (r, w).

(** [try: m  except Exception as e: h e] *)
Definition try_except {A} (m : M A) (h : exn -> M A) : M A :=
  fun w => match m w with
           | (Ok a, w') => (Ok a, w')
           | (Raise e, w') => h e w'
           end.

Definition log_call (c : Call) : M unit :=
  fun w => (Ok tt, mkWorld (conversations w) (data_store w) (calls w ++ [c])).

Notation "'let*' x ':=' m 'in' k" := (bind m (fun x => k))
  (at level 10, x name, m at level 100, k at level 200).
Notation "m1 ';;;' m2" := (bind m1 (fun _ => m2))
  (at level 100, m2 at level 200, right associativity).

(* ===================================================================== *)
(** * Model service ([app/services/llm_service.py])                       *)
(* ===================================================================== *)

Module LLMService.

(** The remote model, by what comes back from one request: the
    [content] of the first choice (possibly [None]), or an exception. *)
Definition Client : Type := Request -> Res (option string).

(** [client] is [None] when no API key is configured. *)
Record t : Type := mkService {
  client : option Client
}.

Definition _fallback_response (prompt : PyVal) : string :=
  "I'm currently operating in limited mode. "
  +:+ "I can help you with product information, orders, and more. "
  +:+ "Please provide your order ID or ask about specific products.".

(** [self.client.chat.completions.create(...)] followed by
    [response.choices[0].message.content.strip()]. *)
Definition create_and_strip (c : Client) (req : Request) : M string :=
  log_call (ChatCompletion req) ;;;
  let* content := lift (c req) in
  match content with
  | Some s => ret (strip s)
  | None => raise AttributeError
  end.

Definition default_system_message : string :=
  "You are a helpful AI assistant for an electronics e-commerce platform. "
  +:+ "Provide accurate, concise, and friendly responses.".

Definition generate_response (svc : t) (prompt : string)
           (context system_message : option string) (max_tokens : Z) : M string :=
  match client svc with
  | None => ret (_fallback_response (VStr prompt))
  | Some c =>
      try_except
        (let sys := match system_message with
                    | Some s => if String.eqb s "" then default_system_message else s
                    | None => default_system_message
                    end in
         let messages := [mkMessage "system" (VStr sys)] in
         let messages :=
           match context with
           | Some ctx =>
               if String.eqb ctx "" then messages
               else messages ++ [mkMessage "system"
                                   (VStr ("Context information:" +:+ nl +:+ ctx))]
           | None => messages
           end in
         let messages := messages ++ [mkMessage "user" (VStr prompt)] in
         create_and_strip c (mkRequest messages max_tokens))
        (fun _ => ret (_fallback_response (VStr prompt)))
  end.

(** [messages[-1]["content"] if messages else ""] *)
Definition last_content (messages : list Message) : PyVal :=
  match last messages with
  | Some m => content m
  | None => VStr ""
  end.

Definition generate_with_history (svc : t) (messages : list Message)
           (max_tokens : Z) : M string :=
  log_call (GenerateWithHistory messages) ;;;
  match client svc with
  | None => ret (_fallback_response (last_content messages))
  | Some c =>
      try_except
        (create_and_strip c (mkRequest messages max_tokens))
        (fun _ => ret (_fallback_response (last_content messages)))
  end.

(** The keyword tables of the fallback, in the order they are tested. *)
Definition order_words : list string := ["order"; "track"; "ord-"].
Definition complaint_words : list string :=
  ["problem"; "issue"; "complaint"; "broken"; "damaged"; "not working"].
Definition refund_words : list string := ["refund"; "return"; "money back"].
Definition delivery_words : list string :=
  ["delivery"; "shipping"; "deliver"; "when will"].
Definition comparison_words : list string :=
  ["compare"; "vs"; "versus"; "difference between"].
Definition product_words : list string :=
  ["laptop"; "phone"; "tv"; "product"; "specs"; "features"; "price"].

Definition _simple_intent_classification (message : string) : string :=
  let message_lower := lower message in
  if any_in order_words message_lower then "order_status"
  else if any_in complaint_words message_lower then "complaint"
  else if any_in refund_words message_lower then "refund"
  else if any_in delivery_words message_lower then "delivery"
  else if any_in comparison_words message_lower then "comparison"
  else if any_in product_words message_lower then "product_info"
  else "general".

Definition classifier_system_message : string :=
  "You are an intent classifier for an e-commerce chatbot." +:+ nl
  +:+ "Classify the user's message into one of these intents:" +:+ nl
  +:+ "- product_info: Questions about products, features, specifications" +:+ nl
  +:+ "- order_status: Tracking orders, order information" +:+ nl
  +:+ "- complaint: Issues, problems, complaints about products or service" +:+ nl
  +:+ "- refund: Return requests, refund inquiries" +:+ nl
  +:+ "- delivery: Shipping, delivery tracking, delivery issues" +:+ nl
  +:+ "- comparison: Comparing multiple products" +:+ nl
  +:+ "- general: General questions, greetings, other" +:+ nl
  +:+ nl
  +:+ "Respond with ONLY the intent name, nothing else.".

Definition valid_intents : list string :=
  ["product_info"; "order_status"; "complaint";
   "refund"; "delivery"; "comparison"; "general"].

Definition classify_intent (svc : t) (message : string) : M string :=
  match client svc with
  | None => ret (_simple_intent_classification message)
  | Some _ =>
      try_except
        (let* response := generate_response svc message None
                            (Some classifier_system_message) 50 in
         let intent := lower (strip response) in
         if existsb (String.eqb intent) valid_intents then ret intent
         else ret "general")
        (fun _ => ret (_simple_intent_classification message))
  end.

End LLMService.

(* ===================================================================== *)
(** * Intent classifier ([app/agents/intent_classifier.py])               *)
(* ===================================================================== *)

Module IntentClassifier.

Record t : Type := mkClassifier {
  llm_service : LLMService.t
}.

Definition classify (ic : t) (message : string) : M string :=
  LLMService.classify_intent (llm_service ic) message.

(** [\d] on a code point below 256. *)
Definition is_digit (c : ascii) : bool :=
  ((48 <=? code c) && (code c <=? 57))%N.

(** [\w] on a code point below 256: letters, digits, the underscore, and
    the alphanumeric characters of the upper half. *)
Definition is_word (c : ascii) : bool :=
  let n := code c in
  (((48 <=? n) && (n <=? 57)) || ((65 <=? n) && (n <=? 90)) || (n =? 95)
   || ((97 <=? n) && (n <=? 122))
   || (n =? 170) || (n =? 178) || (n =? 179) || (n =? 181) || (n =? 185)
   || (n =? 186) || ((188 <=? n) && (n <=? 190))
   || ((192 <=? n) && (n <=? 214)) || ((216 <=? n) && (n <=? 246))
   || (248 <=? n))%N.

(** [\d{4}] against a whole string: four characters, each a digit. *)
Definition digits4 (s : string) : bool :=
  Nat.eqb (String.length s) 4 && forallb is_digit (list_ascii_of_string s).

(** The pattern [ORD-\d{4}] matched at the head of [s]: the literal
    prefix, then four digits. *)
Definition order_at (s : string) : bool :=
  String.prefix "ORD-" s && digits4 (substring 4 4 s).

(** [re.findall(r"ORD-\d{4}", s)]: left to right, a match consumes its
    eight characters ([skip] counts those still to pass over). *)
Fixpoint findall_order (skip : nat) (s : string) : list string :=
  match s with
  | EmptyString => []
  | String _ s' =>
      match skip with
      | S k => findall_order k s'
      | O => if order_at s then substring 0 8 s :: findall_order 7 s'
             else findall_order 0 s'
      end
  end.

Definition extract_order_id (message : string) : string :=
  match findall_order 0 message with
  | m :: _ => m
  | [] => ""
  end.

(** [int(m)] for a run of decimal digits. *)
Definition int_of_digits (ds : list ascii) : Z :=
  fold_left (fun acc c => 10 * acc + (Z.of_N (code c) - 48)) ds 0.

(** [re.findall(r"\b\d+\b", s)]: the maximal runs of digits that have no
    word character on either side.  [prev_word] tells whether the last
    character read was a word character, [run] holds the digits of a
    candidate that started at a boundary. *)
Fixpoint findall_numbers (prev_word : bool) (run : option (list ascii))
         (s : string) : list (list ascii) :=
  match s with
  | EmptyString =>
      match run with
      | Some ds => [ds]
      | None => []
      end
  | String c s' =>
      match run with
      | Some ds =>
          if is_digit c then findall_numbers true (Some (ds ++ [c])) s'
          else if is_word c then findall_numbers true None s'
          else ds :: findall_numbers false None s'
      | None =>
          if is_digit c && negb prev_word then findall_numbers true (Some [c]) s'
          else findall_numbers (is_word c) None s'
      end
  end.

Definition extract_product_ids (message : string) : list Z :=
  filter (fun n => 1 <= n <= 100)
         (map int_of_digits (findall_numbers false None message)).

End IntentClassifier.

(* ===================================================================== *)
(** * Handlers ([app/tools/*.py]) and their store                         *)
(* ===================================================================== *)

(** A handler's result: a dict with string keys. *)
Abbreviation Bag := (gmap string PyVal).

Definition dict (items : list (string * PyVal)) : Bag := list_to_map items.

(** The wall clock as one turn reads it: [now] in the two formats used,
    the date seven days on, and what the next reading within the same
    call gives ([create_complaint] reads the clock once for each of its
    two stamps). *)
Record Clock : Type := mkClock {
  now_datetime : string;
  now_date : string;
  date_in_7_days : string;
  now_datetime_again : string
}.

(** [if x:] on an optional string field read with [.get]. *)
Definition given (o : option string) : bool :=
  match o with
  | Some s => negb (String.eqb s "")
  | None => false
  end.

Definition opt_str (o : option string) : PyVal :=
  match o with
  | Some s => VStr s
  | None => VNone
  end.

(** [f"{n}"] for an integer. *)
Definition string_of_Z (n : Z) : string :=
  DecimalString.NilZero.string_of_int (Z.to_int n).

Definition set_data_store (ds : DataStore.t) : M unit :=
  fun w => (Ok tt, mkWorld (conversations w) ds (calls w)).

Definition get_data_store : M DataStore.t :=
  fun w => (Ok (data_store w), w).

Module Tools.
Import DataStore.

Definition refund_to_py (r : Refund) : PyVal :=
  VDict [("refund_id", VStr (refund_id r)); ("order_id", VStr (r_order_id r));
         ("amount", VFloat (amount r)); ("status", VStr (r_status r));
         ("reason", VStr (reason r));
         ("requested_date", VStr (requested_date r));
         ("expected_completion", opt_str (expected_completion r))].

Definition event_to_py (e : TrackingEvent) : PyVal :=
  VDict [("timestamp", VStr (timestamp e)); ("status", VStr (e_status e));
         ("location", VStr (location e))].

Definition delivery_to_py (dl : Delivery) : PyVal :=
  VDict [("order_id", VStr (d_order_id dl));
         ("tracking_number", VStr (d_tracking_number dl));
         ("carrier", VStr (carrier dl));
         ("current_status", VStr (current_status dl));
         ("estimated_delivery", VStr (estimated_delivery dl));
         ("tracking_history", VList (map event_to_py (tracking_history dl)))].

(** [OrderTool.get_order_status] *)
Definition get_order_status (oid : string) : M Bag :=
  let* ds := get_data_store in
  match get_order ds oid with
  | None =>
      ret (dict [("success", VBool false);
                 ("message", VStr ("Order " +:+ oid
                                   +:+ " not found. Please check the order ID."))])
  | Some order =>
      let response :=
        dict [("success", VBool true);
              ("order_id", VStr (order_id order));
              ("status", VStr (status order));
              ("order_date", VStr (order_date order));
              ("total", VFloat (total order));
              ("items", items order);
              ("customer_name", VStr (customer_name order));
              ("message", VStr ("Order " +:+ oid +:+ " is currently "
                                +:+ status order +:+ "."))] in
      let response :=
        if given (expected_delivery order) then
          let ed := default "" (expected_delivery order) in
          <["message" := VStr ("Order " +:+ oid +:+ " is currently "
                               +:+ status order +:+ "."
                               +:+ " Expected delivery: " +:+ ed)]>
            (<["expected_delivery" := VStr ed]> response)
        else response in
      let response :=
        if given (tracking_number order) then
          <["tracking_number" := VStr (default "" (tracking_number order))]> response
        else response in
      ret response
  end.

(** [DataStore.create_complaint]: bumps the counter, appends the record.
    The two stamps are two readings of the clock. *)
Definition store_create_complaint (clock : Clock) (oid issue description : string)
  : M Complaint :=
  let* ds := get_data_store in
  let counter := complaint_counter ds + 1 in
  let complaint :=
    mkComplaint ("CMP-" +:+ string_of_Z counter) oid issue description "open"
                (now_datetime clock) (now_datetime_again clock) in
  set_data_store (mkStore (orders ds) (complaints ds ++ [complaint])
                          (refunds ds) (deliveries ds)
                          counter (refund_counter ds)) ;;;
  ret complaint.

(** [ComplaintTool.create_complaint] *)
Definition create_complaint (clock : Clock) (oid issue description : string)
  : M Bag :=
  let* ds := get_data_store in
  match get_order ds oid with
  | None =>
      ret (dict [("success", VBool false);
                 ("message", VStr ("Order " +:+ oid
                                   +:+ " not found. Cannot create complaint."))])
  | Some _ =>
      let* complaint := store_create_complaint clock oid issue description in
      ret (dict [("success", VBool true);
                 ("complaint_id", VStr (complaint_id complaint));
                 ("order_id", VStr oid);
                 ("status", VStr (c_status complaint));
                 ("message",
                  VStr ("I'm sorry to hear about the issue with your order. "
                        +:+ "I've created complaint " +:+ complaint_id complaint
                        +:+ ". "
                        +:+ "Our support team will contact you within 24 hours to resolve this."))])
  end.

(** [RefundTool.get_refund_status] *)
Definition get_refund_status `{PyRuntime} (oid : string) : M Bag :=
  let* ds := get_data_store in
  match get_refund ds oid with
  | None =>
      match get_order ds oid with
      | None =>
          ret (dict [("success", VBool false);
                     ("message", VStr ("Order " +:+ oid +:+ " not found."))])
      | Some _ =>
          ret (dict [("success", VBool true);
                     ("has_refund", VBool false);
                     ("message",
                      VStr ("No refund request found for order " +:+ oid +:+ ". "
                            +:+ "Would you like to initiate a return?"))])
      end
  | Some refund =>
      let st := r_status refund in
      let message :=
        if String.eqb st "pending" then "Your refund request is being processed."
        else if String.eqb st "approved"
             then "Your refund has been approved and is being processed."
        else if String.eqb st "processed"
             then "Your refund of $" +:+ format_2f (amount refund)
                  +:+ " has been processed."
        else if String.eqb st "completed"
             then "Your refund of $" +:+ format_2f (amount refund)
                  +:+ " has been completed."
        else "Refund status: " +:+ st in
      let message :=
        if given (expected_completion refund)
        then message +:+ " Expected completion: "
                     +:+ default "" (expected_completion refund)
        else message in
      ret (dict [("success", VBool true);
                 ("has_refund", VBool true);
                 ("refund", refund_to_py refund);
                 ("message", VStr message)])
  end.

(** [DataStore.create_refund] *)
Definition store_create_refund (clock : Clock) (oid : string)
           (amt : PrimFloat.float) (why : string) : M Refund :=
  let* ds := get_data_store in
  let counter := refund_counter ds + 1 in
  let refund :=
    mkRefund ("REF-" +:+ string_of_Z counter) oid amt "pending" why
             (now_date clock) (Some (date_in_7_days clock)) in
  set_data_store (mkStore (orders ds) (complaints ds)
                          (refunds ds ++ [refund]) (deliveries ds)
                          (complaint_counter ds) counter) ;;;
  ret refund.

(** [RefundTool.initiate_refund] *)
Definition initiate_refund `{PyRuntime} (clock : Clock) (oid why : string) : M Bag :=
  let* ds := get_data_store in
  match get_order ds oid with
  | None =>
      ret (dict [("success", VBool false);
                 ("message", VStr ("Order " +:+ oid +:+ " not found."))])
  | Some order =>
      match get_refund ds oid with
      | Some existing =>
          ret (dict [("success", VBool false);
                     ("message",
                      VStr ("A refund request already exists for order " +:+ oid
                            +:+ " (Status: " +:+ r_status existing +:+ ")"))])
      | None =>
          let* refund := store_create_refund clock oid (total order) why in
          ret (dict [("success", VBool true);
                     ("refund_id", VStr (refund_id refund));
                     ("amount", VFloat (amount refund));
                     ("message",
                      VStr ("Refund request " +:+ refund_id refund
                            +:+ " has been initiated. "
                            +:+ "Your refund of $" +:+ format_2f (amount refund)
                            +:+ " will be processed within 5-7 business days."))])
      end
  end.

(** The bullet that starts a line of the tracking summary (U+2022, here
    as its UTF-8 bytes). *)
Definition bullet : string := "•".

(** [DeliveryTool.get_delivery_status] *)
Definition get_delivery_status (oid : string) : M Bag :=
  let* ds := get_data_store in
  match DataStore.get_delivery_status ds oid with
  | None =>
      match get_order ds oid with
      | None =>
          ret (dict [("success", VBool false);
                     ("message", VStr ("Order " +:+ oid +:+ " not found."))])
      | Some _ =>
          ret (dict [("success", VBool true);
                     ("message",
                      VStr ("Delivery information not yet available for order "
                            +:+ oid +:+ "."))])
      end
  | Some dl =>
      let tracking_summary :=
        map (fun e => bullet +:+ " " +:+ timestamp e +:+ ": " +:+ e_status e
                      +:+ " at " +:+ location e)
            (tracking_history dl) in
      let message :=
        "Order " +:+ oid +:+ " is currently " +:+ current_status dl +:+ ". "
        +:+ "Estimated delivery: " +:+ estimated_delivery dl +:+ ". "
        +:+ "Tracking number: " +:+ d_tracking_number dl
        +:+ " (" +:+ carrier dl +:+ ")" in
      ret (dict [("success", VBool true);
                 ("delivery", delivery_to_py dl);
                 ("tracking_summary", VStr (join nl tracking_summary));
                 ("message", VStr message)])
  end.

Definition complaint_to_py (c : Complaint) : PyVal :=
  VDict [("complaint_id", VStr (complaint_id c)); ("order_id", VStr (c_order_id c));
         ("issue", VStr (issue c)); ("description", VStr (description c));
         ("status", VStr (c_status c)); ("created_at", VStr (created_at c));
         ("updated_at", VStr (updated_at c))].

(** [ComplaintTool.get_complaint_status] *)
Definition get_complaint_status (cid : string) : M Bag :=
  let* ds := get_data_store in
  match get_complaint ds cid with
  | None =>
      ret (dict [("success", VBool false);
                 ("message", VStr ("Complaint " +:+ cid +:+ " not found."))])
  | Some complaint =>
      ret (dict [("success", VBool true);
                 ("complaint", complaint_to_py complaint);
                 ("message", VStr ("Complaint " +:+ cid +:+ " is currently "
                                   +:+ c_status complaint +:+ "."))])
  end.

(** [ComplaintTool.list_order_complaints] *)
Definition list_order_complaints (oid : string) : M Bag :=
  let* ds := get_data_store in
  let order_complaints := filter (fun c => c_order_id c = oid) (complaints ds) in
  ret (dict [("success", VBool true);
             ("complaints", VList (map complaint_to_py order_complaints));
             ("count", VInt (Z.of_nat (length order_complaints)))]).

(** [DeliveryTool.estimate_delivery] *)
Definition estimate_delivery (oid : string) : M Bag :=
  let* ds := get_data_store in
  match get_order ds oid with
  | None =>
      ret (dict [("success", VBool false);
                 ("message", VStr ("Order " +:+ oid +:+ " not found."))])
  | Some order =>
      if given (expected_delivery order) then
        let ed := default "" (expected_delivery order) in
        ret (dict [("success", VBool true);
                   ("estimated_delivery", VStr ed);
                   ("message", VStr ("Your order is expected to arrive by "
                                     +:+ ed +:+ "."))])
      else
        ret (dict [("success", VBool true);
                   ("message",
                    VStr "Delivery estimate is being calculated. Please check back soon.")])
  end.

End Tools.

(* ===================================================================== *)
(** * Retrieval ([RAGPipeline.retrieve])                                  *)
(* ===================================================================== *)

Module RAGPipeline.
Section Retrieve.
Context `{Scalar}.

(** The pipeline object after construction; both services are [None]
    until [initialize] has run.  The embedding service is the remote or
    the local model: a text goes in, a vector or an exception comes out. *)
Record t : Type := mkPipeline {
  embedding_service : option (string -> Res (list F32));
  vector_store : option VectorStore.t;
  top_k : Z
}.

Definition retrieve (p : t) (query : string) (k : option Z)
  : M (list VectorStore.Result) :=
  let k := default (top_k p) k in
  match embedding_service p with
  | None => raise AttributeError
  | Some embed_text =>
      log_call (EmbedText query) ;;;
      let* query_embedding := lift (embed_text query) in
      match vector_store p with
      | None => raise AttributeError
      | Some vs => lift (VectorStore.search vs query_embedding k)
      end
  end.

End Retrieve.
End RAGPipeline.

(* ===================================================================== *)
(** * Building the index ([RAGPipeline.initialize])                       *)
(* ===================================================================== *)

Module Build.
Section Build.
Context `{Scalar}.

(** [str(doc)] for the chunker, the items [_load_documents] returns, and
    [embed_batch] of the embedding service. *)
Variable str_of_doc : Pipeline.Document -> string.
Variable embed_batch : list string -> Res (list (list F32)).

(** What a build leaves behind: its outcome, the store, the disk, and the
    batches of texts it sent to the embedding service. *)
Record Outcome : Type := mkOutcome {
  outcome : Res unit;
  store_after : VectorStore.t;
  disk_after : gmap string VectorStore.File;
  batches : list (list string)
}.

(** [_build_vector_store]: returns at once without documents; otherwise
    chunks with the default window, embeds all chunk texts in one batch,
    adds them and saves.  An exception leaves the method where it is. *)
Definition _build_vector_store (documents : list Pipeline.Document)
           (st : VectorStore.t) (disk : gmap string VectorStore.File) : Outcome :=
  match documents with
  | [] => mkOutcome (Ok tt) st disk []
  | _ =>
      match Pipeline._chunk_documents str_of_doc documents
              Pipeline.default_chunk_size Pipeline.default_overlap with
      | Raise e => mkOutcome (Raise e) st disk []
      | Ok chunks =>
          let texts := map Pipeline.text chunks in
          let metadata := map Pipeline.metadata chunks in
          match embed_batch texts with
          | Raise e => mkOutcome (Raise e) st disk [texts]
          | Ok embeddings =>
              match VectorStore.add_documents st embeddings texts metadata with
              | (Raise e, st') => mkOutcome (Raise e) st' disk [texts]
              | (Ok _, st') =>
                  mkOutcome (Ok tt) st' (VectorStore.save st' disk) [texts]
              end
          end
      end
  end.

(** [initialize]: a new store of the service's dimension; the persisted
    snapshot when it loads, a build otherwise. *)
Definition initialize (dimension : Z) (store_path : string)
           (documents : list Pipeline.Document)
           (disk : gmap string VectorStore.File) : Outcome :=
  match VectorStore.load (VectorStore.init dimension store_path) disk with
  | (true, st) => mkOutcome (Ok tt) st disk []
  | (false, st) => _build_vector_store documents st disk
  end.

End Build.
End Build.

(* ===================================================================== *)
(** * Agent orchestrator ([app/agents/orchestrator.py])                   *)
(* ===================================================================== *)

Record ChatResponse : Type := mkChatResponse {
  response : PyVal;
  intent : string;
  sources : PyVal;
  metadata : PyVal
}.

(** ** The response schema ([app/schemas/models.py])

    [ChatResponse(...)] validates its arguments and raises when one does
    not fit the declared type. *)
Section Schema.
Context `{PyRuntime}.

(** A field declared [str]: a string is kept, a number is for the
    library's version to decide, everything else is refused. *)
Definition validate_str (v : PyVal) : Res PyVal :=
  match v with
  | VStr s => Ok (VStr s)
  | VBool _ | VInt _ | VFloat _ =>
      match str_of_number v with
      | Some s => Ok (VStr s)
      | None => Raise ValidationError
      end
  | VNone | VList _ | VDict _ => Raise ValidationError
  end.

Fixpoint validate_strs (vs : list PyVal) : Res (list PyVal) :=
  match vs with
  | [] => Ok []
  | v :: rest =>
      let! s := validate_str v in
      let! more := validate_strs rest in
      Ok (s :: more)
  end.

(** [sources: Optional[List[str]]] *)
Definition validate_sources (v : PyVal) : Res PyVal :=
  match v with
  | VNone => Ok VNone
  | VList vs => let! ss := validate_strs vs in Ok (VList ss)
  | _ => Raise ValidationError
  end.

(** [metadata: Optional[Dict[str, Any]]] *)
Definition validate_metadata (v : PyVal) : Res PyVal :=
  match v with
  | VNone => Ok VNone
  | VDict d => Ok (VDict d)
  | _ =>
      match dict_of_value v with
      | Some d => Ok (VDict d)
      | None => Raise ValidationError
      end
  end.

(** [ChatResponse(response=..., intent=..., sources=..., metadata=...)];
    [intent] is a string wherever the constructor is called. *)
Definition new_ChatResponse (response : PyVal) (intent : string)
           (sources metadata : PyVal) : Res ChatResponse :=
  let! response := validate_str response in
  let! sources := validate_sources sources in
  let! metadata := validate_metadata metadata in
  Ok (mkChatResponse response intent sources metadata).

End Schema.

Module Orchestrator.
Section Agent.
Context `{Scalar} `{PyRuntime}.

(** The orchestrator object: its collaborators and [max_history].  The
    graph store is seen through [compare_products] alone. *)
Record t : Type := mkAgent {
  intent_classifier : IntentClassifier.t;
  llm_service : LLMService.t;
  rag_pipeline : RAGPipeline.t;
  compare_products : list Z -> Res PyVal;
  clock : Clock;
  max_history : Z
}.

(** [__init__] sets [max_history = 10]. *)
Definition init (ic : IntentClassifier.t) (llm : LLMService.t)
           (rag : RAGPipeline.t) (cmp : list Z -> Res PyVal) (clk : Clock) : t :=
  mkAgent ic llm rag cmp clk 10.

(** [self.conversations[session_id]] on the [defaultdict(list)]. *)
Definition history_of (w : World) (session_id : string) : list Message :=
  default [] (conversations w !! session_id).

(** The session log after one append: the new entry goes last, and a log
    longer than [max_history * 2] keeps [log[-max_history * 2:]]. *)
Definition appended (limit : Z) (log : list Message) (m : Message) : list Message :=
  let log' := log ++ [m] in
  if limit * 2 <? Z.of_nat (length log')
  then list_slice_from log' (- limit * 2)
  else log'.

Definition _add_to_history (ag : t) (session_id role : string) (content : PyVal)
  : M unit :=
  fun w =>
    let log := appended (max_history ag) (history_of w session_id)
                        (mkMessage role content) in
    (Ok tt, mkWorld (<[session_id := log]> (conversations w))
                    (data_store w) (calls w)).

(** [history[-max_messages:] if len(history) > max_messages else history],
    read with [.get(session_id, [])]. *)
Definition _get_recent_history (session_id : string) (max_messages : Z)
  : M (list Message) :=
  fun w =>
    let history := history_of w session_id in
    (Ok (if max_messages <? Z.of_nat (length history)
         then list_slice_from history (- max_messages)
         else history), w).

Definition title_of (meta : gmap string PyVal) (fallback : string) : PyVal :=
  default (VStr fallback) (meta !! "title").

Definition _handle_product_info (ag : t) (message : string) : M Bag :=
  let* results := RAGPipeline.retrieve (rag_pipeline ag) message (Some 3) in
  let context_parts := map (fun r => fst (fst r)) results in
  let sources := map (fun r => title_of (snd (fst r)) "Product Information") results in
  let context :=
    match context_parts with
    | [] => "No specific information found."
    | _ => join (nl +:+ nl) context_parts
    end in
  ret (dict [("context", VStr context);
             ("sources", VList sources);
             ("metadata", VDict [("num_results", VInt (Z.of_nat (length results)))])]).

Definition clarification (what_for : string) : Bag :=
  dict [("success", VBool false);
        ("message", VStr ("Please provide your order ID (format: ORD-XXXX) "
                          +:+ what_for))].

Definition _handle_order_status (ag : t) (message : string) : M Bag :=
  let order_id := IntentClassifier.extract_order_id message in
  if String.eqb order_id "" then ret (clarification "to check status.")
  else Tools.get_order_status order_id.

Definition _handle_complaint (ag : t) (message : string) : M Bag :=
  let order_id := IntentClassifier.extract_order_id message in
  if String.eqb order_id "" then ret (clarification "to file a complaint.")
  else Tools.create_complaint (clock ag) order_id "Product issue" message.

Definition _handle_refund (ag : t) (message : string) : M Bag :=
  let order_id := IntentClassifier.extract_order_id message in
  if String.eqb order_id "" then ret (clarification "to check refund status.")
  else if any_in ["want"; "request"; "initiate"; "return"] (lower message)
       then Tools.initiate_refund (clock ag) order_id "Customer request"
       else Tools.get_refund_status order_id.

Definition _handle_delivery (ag : t) (message : string) : M Bag :=
  let order_id := IntentClassifier.extract_order_id message in
  if String.eqb order_id "" then ret (clarification "to track delivery.")
  else Tools.get_delivery_status order_id.

Definition _handle_comparison (ag : t) (message : string) : M Bag :=
  let product_ids := IntentClassifier.extract_product_ids message in
  if Z.of_nat (length product_ids) <? 2 then _handle_product_info ag message
  else
    log_call (CompareProducts product_ids) ;;;
    let* comparison := lift (compare_products ag product_ids) in
    ret (dict [("comparison", comparison);
               ("metadata", VDict [("product_ids", VList (map VInt product_ids))])]).

Definition _handle_general (ag : t) (message : string) : M Bag :=
  let* results := RAGPipeline.retrieve (rag_pipeline ag) message (Some 2) in
  let context :=
    fold_left (fun acc r => acc +:+ fst (fst r) +:+ nl +:+ nl) results "" in
  let sources := map (fun r => title_of (snd (fst r)) "Information") results in
  ret (dict [("context", VStr context);
             ("sources", match sources with [] => VNone | _ => VList sources end);
             ("metadata", VDict [])]).

Definition _route_to_handler (ag : t) (intent message session_id : string) : M Bag :=
  if String.eqb intent "product_info" then _handle_product_info ag message
  else if String.eqb intent "order_status" then _handle_order_status ag message
  else if String.eqb intent "complaint" then _handle_complaint ag message
  else if String.eqb intent "refund" then _handle_refund ag message
  else if String.eqb intent "delivery" then _handle_delivery ag message
  else if String.eqb intent "comparison" then _handle_comparison ag message
  else _handle_general ag message.

(** [comp.get(key)]: only a dict has [get]. *)
Definition comp_get (comp : PyVal) (key : string) : Res (option PyVal) :=
  match comp with
  | VDict d => Ok (assoc_get d key)
  | _ => Raise AttributeError
  end.

(** [[p['name'] for p in products]] for a truthy [products]. *)
Fixpoint names_of (ps : list PyVal) : Res (list PyVal) :=
  match ps with
  | [] => Ok []
  | VDict d :: rest =>
      match assoc_get d "name" with
      | Some n => let! more := names_of rest in Ok (n :: more)
      | None => Raise KeyError
      end
  | _ :: _ => Raise TypeError
  end.

Definition product_names (products : PyVal) : Res (list PyVal) :=
  match products with
  | VList ps => names_of ps
  | _ => Raise TypeError
  end.

Definition persona : string :=
  "You are a helpful AI assistant for TechPro Electronics, "
  +:+ "an electronics e-commerce company. Provide accurate, friendly, "
  +:+ "and concise responses. Use the provided context to answer questions. "
  +:+ "If you don't have enough information, ask for clarification.".

(** The two lines a comparison adds to the context. *)
Definition comparison_parts (comp : PyVal) : Res (list string) :=
  let! products := comp_get comp "products" in
  if truthy (default VNone products) then
    let! names := product_names (default VNone products) in
    let! recommendation := comp_get comp "recommendation" in
    Ok ["Comparing products: " +:+ py_repr (VList names);
        "Recommendation: " +:+ str_of (default (VStr "") recommendation)]
  else Ok [].

Definition _generate_response (ag : t) (intent message : string) (data : Bag)
           (session_id : string) : M PyVal :=
  match data !! "message" with
  | Some (VStr m) => ret (VStr m)
  | _ =>
      let context_parts :=
        match data !! "context" with
        | Some c => ["Relevant Information:" +:+ nl +:+ str_of c]
        | None => []
        end in
      let* context_parts :=
        match data !! "comparison" with
        | Some comp =>
            let* added := lift (comparison_parts comp) in
            ret (context_parts ++ added)
        | None => ret context_parts
        end in
      match data !! "success" with
      | Some (VBool false) =>
          ret (default (VStr "I couldn't process that request.")
                       (data !! "message"))
      | _ =>
          let context_parts :=
            match data !! "order_id" with
            | Some v => context_parts ++ ["Order ID: " +:+ str_of v]
            | None => context_parts
            end in
          let context_parts :=
            match data !! "status" with
            | Some v => context_parts ++ ["Status: " +:+ str_of v]
            | None => context_parts
            end in
          let context :=
            match context_parts with
            | [] => None
            | _ => Some (join (nl +:+ nl) context_parts)
            end in
          let* history := _get_recent_history session_id 6 in
          let messages := [mkMessage "system" (VStr persona)] ++ history in
          let messages :=
            if given context
            then messages ++ [mkMessage "system"
                                (VStr ("Context for answering:" +:+ nl
                                       +:+ default "" context))]
            else messages in
          let messages := messages ++ [mkMessage "user" (VStr message)] in
          let* response := LLMService.generate_with_history
                             (llm_service ag) messages 500 in
          ret (VStr response)
      end
  end.

Definition apology : string :=
  "I apologize, but I encountered an error processing your request. "
  +:+ "Please try again or rephrase your question.".

(** Routing and composition for a classified message. *)
Definition route_and_compose (ag : t) (intent message session_id : string)
  : M (string * Bag * PyVal) :=
  let* response_data := _route_to_handler ag intent message session_id in
  let* response_text :=
    _generate_response ag intent message response_data session_id in
  ret (intent, response_data, response_text).

(** What lies between the two appends to the session log: classify,
    route, compose. *)
Definition answer_turn (ag : t) (message session_id : string)
  : M (string * Bag * PyVal) :=
  let* intent := IntentClassifier.classify (intent_classifier ag) message in
  route_and_compose ag intent message session_id.

(** [process_message].  The response object is built inside the [try],
    after the assistant turn was appended: when its validation raises,
    the [except] branch answers. *)
Definition process_message (ag : t) (message session_id : string) : M ChatResponse :=
  try_except
    (_add_to_history ag session_id "user" (VStr message) ;;;
     let* turn := answer_turn ag message session_id in
     let '(intent, response_data, response_text) := turn in
     _add_to_history ag session_id "assistant" response_text ;;;
     lift (new_ChatResponse response_text intent
             (default (VList []) (response_data !! "sources"))
             (default (VDict []) (response_data !! "metadata"))))
    (fun e =>
       lift (new_ChatResponse (VStr apology) "error" (VList [])
               (VDict [("error", VStr (exn_str e))]))).

End Agent.
End Orchestrator.

(* ===================================================================== *)
(** * Notions used to state the properties                                *)
(* ===================================================================== *)

(** The ceiling of [a / b] for a positive [b]. *)
Definition ceil_div (a b : Z) : Z := (a + b - 1) / b.

(** The characters of [s] at positions [a <= i < b]. *)
Definition char_range (s : string) (a b : nat) : string := substring a (b - a) s.

Section StoreNotions.
Context `{Scalar}.

(** The distances of a result list, in the order returned. *)
Definition distances (rs : list VectorStore.Result) : list F32 := map snd rs.

Definition f32_leP (x y : F32) : Prop := f32_le x y = true.

(** The three parallel sequences of the store have one length. *)
Definition well_formed (st : VectorStore.t) : Prop :=
  length (VectorStore.documents st) = length (Faiss.xb (VectorStore.index st))
  /\ length (VectorStore.metadata st) = length (Faiss.xb (VectorStore.index st)).

(** Appending a run of messages to one session, one call each. *)
Fixpoint append_each (ag : Orchestrator.t) (session_id : string)
         (ms : list Message) : M unit :=
  match ms with
  | [] => ret tt
  | m :: rest =>
      Orchestrator._add_to_history ag session_id (role m) (content m) ;;;
      append_each ag session_id rest
  end.

End StoreNotions.

(** The fallback's priority order as a table, and "the first matching
    category wins" over such a table. *)
Definition priority_table : list (string * list string) :=
  [("order_status", LLMService.order_words);
   ("complaint", LLMService.complaint_words);
   ("refund", LLMService.refund_words);
   ("delivery", LLMService.delivery_words);
   ("comparison", LLMService.comparison_words);
   ("product_info", LLMService.product_words)].

Definition first_match (table : list (string * list string)) (text : string)
  : string :=
  match find (fun row => any_in (snd row) text) table with
  | Some row => fst row
  | None => "general"
  end.

(** The extractor's own test applied to a whole string of eight
    characters. *)
Definition is_order_id (r : string) : bool :=
  IntentClassifier.order_at r && Nat.eqb (String.length r) 8.

(** The ten decimal digits, one by one. *)
Definition decimal_digit (c : ascii) : Prop :=
  c ∈ ["0"; "1"; "2"; "3"; "4"; "5"; "6"; "7"; "8"; "9"]%char.

(** An order identifier as the property words it: the four characters
    [ORD-] in upper case, then exactly four decimal digits, and nothing
    else. *)
Definition order_identifier (r : string) : Prop :=
  exists d1 d2 d3 d4 : ascii,
    decimal_digit d1 /\ decimal_digit d2 /\ decimal_digit d3 /\ decimal_digit d4
    /\ r = String "O" (String "R" (String "D" (String "-"
            (String d1 (String d2 (String d3 (String d4 EmptyString))))))).

(** The last [n] entries of a log. *)
Definition keep_last {A} (n : nat) (l : list A) : list A := drop (length l - n) l.

(** A step after which the world is related to the one before by [P],
    whether the step returns or raises. *)
Definition preserves {A} (P : World -> World -> Prop) (m : M A) : Prop :=
  forall w, P w (snd (m w)).

(** Every session log is as it was. *)
Definition same_logs (w w' : World) : Prop := conversations w' = conversations w.

(** Only the record of calls may have grown. *)
Definition only_calls (w w' : World) : Prop :=
  conversations w' = conversations w /\ data_store w' = data_store w
  /\ exists cs, calls w' = calls w ++ cs.

(** The response of the [except] branch of [process_message]. *)
Definition apology_response `{PyRuntime} (e : exn) : ChatResponse :=
  mkChatResponse (VStr Orchestrator.apology) "error" (VList [])
                 (VDict [("error", VStr (exn_str e))]).

(** What [process_message] returns once the turn was composed: the
    response object when it validates, the apology otherwise. *)
Definition answered `{PyRuntime} (response_text : PyVal) (intent : string)
           (response_data : Bag) : ChatResponse :=
  match new_ChatResponse response_text intent
          (default (VList []) (response_data !! "sources"))
          (default (VDict []) (response_data !! "metadata")) with
  | Ok r => r
  | Raise e => apology_response e
  end.

(** The request [classify_intent] sends for a message. *)
Definition classification_request (message : string) : Request :=
  mkRequest [mkMessage "system" (VStr LLMService.classifier_system_message);
             mkMessage "user" (VStr message)] 50.

(** A step that cannot raise. *)
Definition never_raises {A} (m : M A) : Prop :=
  forall w, exists a, fst (m w) = Ok a.

(** The world with more calls on record. *)
Definition logged (w : World) (cs : list Call) : World :=
  mkWorld (conversations w) (data_store w) (calls w ++ cs).

(** The result bag of a lookup that finds no order. *)
Definition not_found_bag (oid : string) : Bag :=
  dict [("success", VBool false);
        ("message", VStr ("Order " +:+ oid +:+ " not found. Please check the order ID."))].

(** The result bag of the general handler for the retrieved results. *)
Definition general_bag `{Scalar} (rs : list VectorStore.Result) : Bag :=
  dict [("context",
         VStr (fold_left (fun acc r => acc +:+ fst (fst r) +:+ nl +:+ nl) rs ""));
        ("sources",
         let sources :=
           map (fun r => Orchestrator.title_of (snd (fst r)) "Information") rs in
         match sources with
         | [] => VNone
         | _ => VList sources
         end);
        ("metadata", VDict [])].

(** The message of the first end-to-end scenario. *)
Definition where_is_my_order : string := "Where is my order ORD-1234?".

(** The response that asks for the order identifier. *)
Definition ask_for_order_id : PyVal :=
  VStr "Please provide your order ID (format: ORD-XXXX) to check status.".

(** The strings of a list, one after the other. *)
Definition concat_strings (l : list string) : string := foldr String.append "" l.

(** The sum of the chunk counts of a list of texts. *)
Definition total_windows (lengths : list Z) (step : Z) : Z :=
  foldr (fun L acc => ceil_div L step + acc) 0 lengths.

Section IndexNotions.
Context `{Scalar}.

(** Every row of the index has the index's width. *)
Definition rows_fit (st : VectorStore.t) : Prop :=
  Forall (fun row => Z.of_nat (length row) = Faiss.d (VectorStore.index st))
         (Faiss.xb (VectorStore.index st)).

(** The result a hit stands for: the text and metadata at its position. *)
Definition entry_of (st : VectorStore.t) (h : F32 * Z) (r : VectorStore.Result)
  : Prop :=
  exists (i : nat),
    snd h = Z.of_nat i
    /\ VectorStore.documents st !! i = Some (fst (fst r))
    /\ VectorStore.metadata st !! i = Some (snd (fst r))
    /\ snd r = fst h.

End IndexNotions.

(** The log of one session is as it was. *)
Definition same_log_of (session_id : string) (w w' : World) : Prop :=
  conversations w' !! session_id = conversations w !! session_id.

(** A handler that returns a bag with a ready message and neither calls
    a collaborator nor writes to a session log. *)
Definition answers_directly (h : M Bag) : Prop :=
  forall w, exists bag s w',
    h w = (Ok bag, w')
    /\ bag !! "message" = Some (VStr s)
    /\ calls w' = calls w
    /\ conversations w' = conversations w.

(** Records are only ever added: orders and deliveries stay as they are,
    complaints and refunds keep what they had in front, and the two
    counters do not go down. *)
Definition store_grows (w w' : World) : Prop :=
  DataStore.orders (data_store w') = DataStore.orders (data_store w)
  /\ DataStore.deliveries (data_store w') = DataStore.deliveries (data_store w)
  /\ DataStore.complaints (data_store w) `prefix_of` DataStore.complaints (data_store w')
  /\ DataStore.refunds (data_store w) `prefix_of` DataStore.refunds (data_store w')
  /\ DataStore.complaint_counter (data_store w)
     <= DataStore.complaint_counter (data_store w')
  /\ DataStore.refund_counter (data_store w) <= DataStore.refund_counter (data_store w').

(** The prompt of the composition step for a message and the session log
    it finds: the persona, the last six entries of the log, at most one
    context message, and the message itself. *)
Definition prompt_of (message : string) (log ms : list Message) : Prop :=
  exists context : list Message,
    ms = mkMessage "system" (VStr Orchestrator.persona)
         :: keep_last 6 log ++ context ++ [mkMessage "user" (VStr message)]
    /\ (context = []
        \/ exists c, context = [mkMessage "system"
                                  (VStr ("Context for answering:" +:+ nl +:+ c))]).

(** What one turn may ask of its collaborators, for the message of the
    turn and the session log as it is after the user's entry. *)
Definition turn_call (message : string) (log : list Message) (c : Call) : Prop :=
  match c with
  | ChatCompletion req =>
      req = classification_request message
      \/ exists ms, req = mkRequest ms 500 /\ prompt_of message log ms
  | GenerateWithHistory ms => prompt_of message log ms
  | EmbedText query => query = message
  | CompareProducts ids =>
      ids = IntentClassifier.extract_product_ids message
      /\ 2 <= Z.of_nat (length ids)
      /\ Forall (fun n => 1 <= n <= 100) ids
  end.

(** A step that leaves every session log alone and records only such
    calls. *)
Definition asks_only (message session_id : string) (w w' : World) : Prop :=
  conversations w' = conversations w
  /\ exists cs,
       calls w' = calls w ++ cs
       /\ Forall (turn_call message (Orchestrator.history_of w session_id)) cs.

(* ===================================================================== *)
(** * Sample instances                                                    *)
(* ===================================================================== *)

(** Integer entries with the exact squared distance. *)
#[local] Instance ZScalar : Scalar := {|
  F32 := Z;
  sqdist := fun x y => fold_left Z.add (zip_with (fun a b => (a - b) * (a - b)) x y) 0;
  f32_le := Z.leb
|}.

#[local] Instance plain_runtime : PyRuntime := {|
  py_repr := fun _ => "<object>";
  format_2f := fun _ => "0.00";
  exn_str := fun _ => "error";
  str_of_number := fun _ => None;
  dict_of_value := fun _ => None
|}.

Fixpoint repeat_char (c : ascii) (n : nat) : string :=
  match n with
  | O => EmptyString
  | S n' => String c (repeat_char c n')
  end.

Definition doc_of_text (s : string) : Pipeline.Document :=
  Pipeline.mkDocument (Some s) None None None None None None.

(** [n] numbered user messages. *)
Definition numbered_messages (n : nat) : list Message :=
  map (fun i => mkMessage "user" (VInt (Z.of_nat i))) (seq 0 n).

Definition sample_clock : Clock :=
  mkClock "2024-01-01 00:00:00" "2024-01-01" "2024-01-08" "2024-01-01 00:00:01".

Definition empty_store : DataStore.t := DataStore.mkStore [] [] [] [] 100 100.

Definition fresh_world : World := mkWorld ∅ empty_store [].

(** A two-entry index of width one. *)
Definition small_index : VectorStore.t :=
  VectorStore.mkStore 1 (Faiss.mkIndex 1 [[5]; [2]])
    ["far"; "near"]
    [dict [("title", VStr "Far")]; dict [("title", VStr "Near")]]
    "./data/vector_store".

(** An agent with no API key: both model services have no client. *)
Definition offline_agent (rag : RAGPipeline.t) : Orchestrator.t :=
  Orchestrator.init (IntentClassifier.mkClassifier (LLMService.mkService None))
                    (LLMService.mkService None) rag
                    (fun _ => Raise (ExternalError "graph store unavailable"))
                    sample_clock.

(** An agent whose remote model fails on every request. *)
Definition failing_client : LLMService.Client :=
  fun _ => Raise (ExternalError "model unavailable").

Definition flaky_agent (rag : RAGPipeline.t) : Orchestrator.t :=
  Orchestrator.init
    (IntentClassifier.mkClassifier (LLMService.mkService (Some failing_client)))
    (LLMService.mkService (Some failing_client)) rag
    (fun _ => Raise (ExternalError "graph store unavailable"))
    sample_clock.

Definition working_rag : RAGPipeline.t :=
  RAGPipeline.mkPipeline (Some (fun _ => Ok [3])) (Some small_index) 3.

Definition broken_rag : RAGPipeline.t :=
  RAGPipeline.mkPipeline
    (Some (fun _ => Raise (ExternalError "embedding failed")))
    (Some small_index) 3.

#[local] Instance ZScalarOrder : @ScalarOrder ZScalar.
Proof.
  split; simpl.
  - intros x y. destruct (Z.leb_spec x y); [by left|right]. apply Z.leb_le. lia.
  - intros x y z Hxy%Z.leb_le Hyz%Z.leb_le. apply Z.leb_le. lia.
Qed.

(** An embedding service that answers every text with the vector [[1]]. *)
Definition unit_embedder (texts : list string) : Res (list (list (@F32 ZScalar))) :=
  Ok (map (fun _ => [1]) texts).

(** A store that knows one order, and a world around it. *)
Definition sample_order : DataStore.Order :=
  DataStore.mkOrder "ORD-1234" "Ada" "ada@example.com" (VList []) PrimFloat.one
                    "shipped" "2024-01-01" (Some "2024-01-05") None.

Definition one_order_store : DataStore.t :=
  DataStore.mkStore [sample_order] [] [] [] 100 100.

Definition one_order_world : World := mkWorld ∅ one_order_store [].

(** The empty store after one complaint and one refund were issued. *)
Definition later_world : World :=
  mkWorld ∅ (DataStore.mkStore [] [] [] [] 101 101) [].

(** A one-entry index whose entry has a null title, as a document with
    ["title": null] leaves it, and a pipeline over it. *)
Definition untitled_index : VectorStore.t :=
  VectorStore.mkStore 1 (Faiss.mkIndex 1 [[5]]) ["text"]
    [dict [("title", VNone)]] "./data/vector_store".

Definition untitled_rag : RAGPipeline.t :=
  RAGPipeline.mkPipeline (Some (fun _ => Ok [3])) (Some untitled_index) 3.

(* ===================================================================== *)
(** * Properties of chunking                                              *)
(* ===================================================================== *)

Lemma ceil_div_nonpos a b : 0 < b -> a <= 0 -> ceil_div a b <= 0.
Proof.
  intros Hb Ha. unfold ceil_div.
  assert ((a + b - 1) / b < 1); [|lia].
  apply Z.div_lt_upper_bound; lia.
Qed.

Lemma ceil_div_pos a b : 0 < b -> 0 < a -> 1 <= ceil_div a b.
Proof.
  intros Hb Ha. unfold ceil_div.
  apply Z.div_le_lower_bound; lia.
Qed.

Lemma ceil_div_step a b : 0 < b -> ceil_div (a - b) b = ceil_div a b - 1.
Proof.
  intros Hb. unfold ceil_div.
  replace (a + b - 1) with ((a - b + b - 1) + 1 * b) by lia.
  rewrite Z.div_add by lia. lia.
Qed.

(** The walk of [range] with a positive step makes [ceil((stop - i) / step)]
    steps when given fuel for [stop - i] of them. *)
Lemma range_up_length fuel : forall i stop step,
  0 < step -> (Z.to_nat (stop - i) <= fuel)%nat ->
  Z.of_nat (length (range_up fuel i stop step)) = Z.max 0 (ceil_div (stop - i) step).
Proof.
  induction fuel as [|fuel IH]; intros i stop step Hs Hf; simpl.
  - pose proof (ceil_div_nonpos (stop - i) step Hs). lia.
  - destruct (Z.ltb_spec i stop) as [Hlt|Hge].
    + simpl length. rewrite Nat2Z.inj_succ, IH by lia.
      replace (stop - (i + step)) with ((stop - i) - step) by lia.
      rewrite ceil_div_step by lia.
      pose proof (ceil_div_pos (stop - i) step Hs). lia.
    + pose proof (ceil_div_nonpos (stop - i) step Hs). simpl. lia.
Qed.

Lemma range_up_lookup fuel : forall i stop step k x,
  range_up fuel i stop step !! k = Some x ->
  x = i + Z.of_nat k * step /\ x < stop.
Proof.
  induction fuel as [|fuel IH]; intros i stop step k x; simpl; [done|].
  destruct (Z.ltb_spec i stop) as [Hlt|Hge]; [|done].
  destruct k as [|k]; simpl.
  - intros [= <-]. lia.
  - intros Hk. apply IH in Hk. lia.
Qed.

Lemma length_substring s : forall n m,
  String.length (substring n m s) = Nat.min m (String.length s - n).
Proof.
  induction s as [|c s IH]; intros [|n] [|m]; cbn [substring String.length];
    rewrite ?IH; lia.
Qed.

(** A window that starts inside the text is the run of characters from
    its start to its end or the end of the text, whichever comes first. *)
Lemma str_slice_window s i w :
  0 <= i < Z.of_nat (String.length s) -> 0 < w ->
  str_slice s i (i + w)
  = char_range s (Z.to_nat i) (Z.to_nat (Z.min (i + w) (Z.of_nat (String.length s)))).
Proof.
  intros Hi Hw. unfold str_slice, char_range, norm_index.
  destruct (Z.ltb_spec i 0); [lia|].
  destruct (Z.ltb_spec (i + w) 0); [lia|].
  rewrite (Z.min_l i) by lia.
  f_equal. lia.
Qed.

Section ChunkingFacts.
Import Pipeline.
Variable str_of_doc : Document -> string.

Lemma chunks_of_doc_ok doc W O :
  0 <= O < W ->
  chunks_of_doc str_of_doc doc W O
  = Ok (map (fun i => mkChunk (str_slice (doc_text str_of_doc doc) i (i + W))
                              (doc_metadata doc))
            (range_up (String.length (doc_text str_of_doc doc)) 0
                      (Z.of_nat (String.length (doc_text str_of_doc doc))) (W - O))).
Proof.
  intros HO. unfold chunks_of_doc, range.
  destruct (Z.eqb_spec (W - O) 0); [lia|].
  destruct (Z.ltb_spec 0 (W - O)); [|lia].
  simpl. by rewrite Z.sub_0_r, Nat2Z.id.
Qed.

(** C1 (as amended).  For a width [W] and an overlap [O] with
    [0 <= O < W], chunking one document whose text has length [L > 0]
    returns exactly [ceil(L / (W - O))] chunks; chunk [k] holds the
    characters from [k * (W - O)] up to [k * (W - O) + W] or [L],
    whichever is smaller, so no chunk is longer than [W], and it carries
    the document's metadata.  For [L = 520], [W = 500], [O = 50] these are
    the two chunks of characters [0, 500) and [450, 520). *)
Theorem chunk_documents_windows (doc : Document) (W O : Z) :
  let text := doc_text str_of_doc doc in
  let L := Z.of_nat (String.length text) in
  0 <= O < W -> 0 < L ->
  exists cs,
    _chunk_documents str_of_doc [doc] W O = Ok cs
    /\ Z.of_nat (length cs) = ceil_div L (W - O)
    /\ (forall (k : nat) c, cs !! k = Some c ->
          let a := Z.of_nat k * (W - O) in
          a < L
          /\ Pipeline.text c
             = char_range text (Z.to_nat a) (Z.to_nat (Z.min (a + W) L))
          /\ Z.of_nat (String.length (Pipeline.text c)) <= W
          /\ metadata c = doc_metadata doc)
    /\ (L = 520 -> W = 500 -> O = 50 ->
        map Pipeline.text cs = [char_range text 0 500; char_range text 450 520]).
Proof.
  intros text L HO HL.
  eexists. split.
  { simpl. rewrite chunks_of_doc_ok by done. simpl. by rewrite app_nil_r. }
  fold text. fold L.
  assert (Hlen : Z.of_nat (length (range_up (String.length text) 0 L (W - O)))
                 = ceil_div L (W - O)).
  { rewrite range_up_length by lia. rewrite Z.sub_0_r.
    pose proof (ceil_div_pos L (W - O)). lia. }
  split; [by rewrite length_map|].
  split.
  - intros k c Hk a.
    rewrite list_lookup_fmap in Hk.
    destruct (range_up _ _ _ _ !! k) as [i|] eqn:Hi; [|done].
    injection Hk as <-. apply range_up_lookup in Hi as [-> Hi]. simpl.
    assert (Ha : 0 <= a < L) by (unfold a in *; nia).
    replace (0 + Z.of_nat k * (W - O)) with a by (unfold a; lia).
    rewrite str_slice_window by (fold text; fold L; lia).
    fold text; fold L. split; [lia|]. split; [done|]. split; [|done].
    unfold char_range. rewrite length_substring. lia.
  - intros HL5 -> ->. unfold L in HL5.
    assert (Hn : String.length text = 520%nat) by lia.
    rewrite Hn. unfold L. rewrite Hn.
    vm_compute range_up. simpl map.
    unfold str_slice, norm_index. rewrite Hn. reflexivity.
Qed.

End ChunkingFacts.

(** A text of 520 characters, width 500, overlap 50: two chunks. *)
Lemma chunk_documents_windows_witness :
  exists cs,
    Pipeline._chunk_documents (fun _ => "") [doc_of_text (repeat_char "a" 520)] 500 50
    = Ok cs
    /\ Z.of_nat (length cs) = 2
    /\ map Pipeline.text cs
       = [repeat_char "a" 500; repeat_char "a" 70].
Proof.
  destruct (chunk_documents_windows (fun _ => "")
              (doc_of_text (repeat_char "a" 520)) 500 50)
    as (cs & Hcs & Hlen & _ & Htwo); [lia | vm_compute; reflexivity |].
  exists cs. split; [exact Hcs|]. split; [exact Hlen|].
  rewrite Htwo by reflexivity. vm_compute. reflexivity.
Defined.

(** C1 as stated fails: the five characters "abcde" with width 5 and
    overlap 1 give two chunks, "abcde" and "e", where
    [ceil((5 - 1) / (5 - 1))] is one. *)
Lemma chunk_count_minus_overlap_fails :
  exists cs,
    Pipeline._chunk_documents (fun _ => "") [doc_of_text "abcde"] 5 1 = Ok cs
    /\ map Pipeline.text cs = ["abcde"; "e"]
    /\ Z.of_nat (length cs) <> ceil_div (5 - 1) (5 - 1).
Proof.
  eexists. split; [vm_compute; reflexivity|]. split; [reflexivity|].
  vm_compute. discriminate.
Qed.

(* ===================================================================== *)
(** * Properties of the vector index                                      *)
(* ===================================================================== *)

Lemma Forall_of_sublist {A} (P : A -> Prop) (l1 l2 : list A) :
  l1 `sublist_of` l2 -> Forall P l2 -> Forall P l1.
Proof.
  induction 1; inversion 1; subst; auto.
Qed.

Lemma StronglySorted_sublist {A} (R : relation A) (l1 l2 : list A) :
  l1 `sublist_of` l2 -> StronglySorted R l2 -> StronglySorted R l1.
Proof.
  induction 1 as [|x l1 l2 Hsub IH|x l1 l2 Hsub IH]; intros Hs.
  - constructor.
  - apply StronglySorted_inv in Hs as [Hs Hx]. constructor; [by apply IH|].
    by eapply Forall_of_sublist.
  - apply StronglySorted_inv in Hs as [Hs _]. by apply IH.
Qed.

Lemma string_app_inj_l (p a b : string) : p +:+ a = p +:+ b -> a = b.
Proof. induction p as [|c p IH]; simpl; [done|]. intros [= Heq]. auto. Qed.

Section StoreFacts.
Context `{Scalar}.
Import VectorStore.

(** The loop over the hits keeps their order and may only drop some. *)
Lemma collect_sublist (st : t) (hits : list (F32 * Z)) : forall rs,
  collect st hits = Ok rs -> distances rs `sublist_of` map fst hits.
Proof.
  induction hits as [|[dist idx] hits IH]; intros rs; simpl.
  - intros [= <-]. constructor.
  - destruct (idx <? _).
    + destruct (getitem (documents st) idx) as [doc|]; simpl; [|done].
      destruct (getitem (metadata st) idx) as [meta|]; simpl; [|done].
      destruct (collect st hits) as [more|]; simpl; [|done].
      intros [= <-]. simpl. constructor. by apply IH.
    + intros Hc. constructor. by apply IH.
Qed.

Lemma getitem_in_range {A} (l : list A) (i : Z) :
  0 <= i < Z.of_nat (length l) -> exists x, getitem l i = Ok x.
Proof.
  intros Hi. unfold getitem.
  destruct (Z.ltb_spec i 0); [lia|].
  destruct (Z.ltb_spec i 0); [lia|].
  destruct (lookup_lt_is_Some_2 l (Z.to_nat i)) as [x Hx]; [lia|].
  rewrite Hx. by exists x.
Qed.

Lemma collect_total (st : t) (hits : list (F32 * Z)) :
  Forall (fun h => 0 <= snd h < Z.of_nat (length (documents st))
                   /\ snd h < Z.of_nat (length (metadata st))) hits ->
  exists rs, collect st hits = Ok rs /\ length rs = length hits.
Proof.
  induction 1 as [|[dist idx] hits [Hd Hm] _ (more & Hmore & Hlen)]; simpl in *.
  - by exists [].
  - destruct (Z.ltb_spec idx (Z.of_nat (length (documents st)))); [|lia].
    destruct (getitem_in_range (documents st) idx) as [doc ->]; [lia|].
    destruct (getitem_in_range (metadata st) idx) as [meta ->]; [lia|].
    rewrite Hmore. simpl. eexists. split; [done|]. simpl. by rewrite Hlen.
Qed.

Lemma scored_labels (ix : Faiss.IndexFlatL2) q :
  Forall (fun h => 0 <= snd h < Faiss.ntotal ix) (Faiss.scored ix q).
Proof.
  apply Forall_forall. intros h Hh.
  apply elem_of_lookup_imap in Hh as (i & row & -> & Hrow).
  apply lookup_lt_Some in Hrow. unfold Faiss.ntotal. simpl. lia.
Qed.

Lemma best_length (ix : Faiss.IndexFlatL2) q (n : nat) :
  length (take n (merge_sort Faiss.closer (Faiss.scored ix q)))
  = Nat.min n (length (Faiss.xb ix)).
Proof.
  rewrite length_take, (Permutation_length (merge_sort_Permutation _ _)).
  unfold Faiss.scored. by rewrite length_imap.
Qed.

Lemma index_data_paths_differ (st : t) : index_path st <> data_path st.
Proof.
  unfold index_path, data_path, path_join.
  destruct (_ || _); intros Heq; apply string_app_inj_l in Heq; discriminate.
Qed.

(** C2 (as amended).  [add_documents] stores nothing and returns when the
    embeddings or the texts are empty; it stores nothing when it raises;
    and when both are non-empty and every embedding has the width of the
    index, it appends all the embeddings, all the texts and all the
    metadata it was given.  The three lengths are not compared, and the
    metadata may be empty. *)
Theorem add_documents_guard (st : t) (embeddings : list (list F32))
        (docs : list string) (meta : list Metadata) :
  (embeddings = [] \/ docs = [] -> add_documents st embeddings docs meta = (Ok tt, st))
  /\ (forall e st', add_documents st embeddings docs meta = (Raise e, st') -> st' = st)
  /\ (embeddings <> [] -> docs <> [] ->
      Forall (fun row => Z.of_nat (length row) = Faiss.d (index st)) embeddings ->
      add_documents st embeddings docs meta
      = (Ok tt, mkStore (dimension st)
                        (Faiss.mkIndex (Faiss.d (index st))
                                       (Faiss.xb (index st) ++ embeddings))
                        (documents st ++ docs) (metadata st ++ meta)
                        (store_path st))).
Proof.
  split; [|split].
  - intros [-> | ->]; [done|]. by destruct embeddings.
  - intros e st'. unfold add_documents.
    destruct embeddings as [|r rows]; [done|]. destruct docs as [|x xs]; [done|].
    destruct (Faiss.np_array _) as [arr|]; [|by intros [= _ <-]].
    destruct (Faiss.add _ _); [done|by intros [= _ <-]].
  - intros He Hd Hrows. unfold add_documents.
    destruct embeddings as [|r rows]; [done|]. destruct docs as [|x xs]; [done|].
    apply Forall_cons in Hrows as Hrows'. destruct Hrows' as [Hr Hrest].
    unfold Faiss.np_array.
    assert (Hall : forallb (fun r' => Nat.eqb (length r') (length r)) (r :: rows) = true).
    { apply forallb_forall. intros r' Hr'%list_elem_of_In.
      rewrite Forall_forall in Hrows. apply Hrows in Hr'.
      apply Nat.eqb_eq. lia. }
    rewrite Hall. unfold Faiss.add. simpl fst. simpl snd.
    destruct (Z.eqb_spec (Z.of_nat (length r)) (Faiss.d (index st))); [done|lia].
Qed.

(** C6.  Saving a store and loading from the same path puts back the
    index, the texts, the metadata and the dimension, so every search on
    the restored store returns what it returned before: the same texts,
    metadata and distances in the same order. *)
Theorem save_then_load_restores (st st0 : t) (disk : gmap string File) :
  store_path st0 = store_path st ->
  load st0 (save st disk) = (true, st)
  /\ forall q k, search (snd (load st0 (save st disk))) q k = search st q k.
Proof.
  intros Hp.
  assert (Hload : load st0 (save st disk) = (true, st)).
  { unfold load, save.
    replace (index_path st0) with (index_path st) by (unfold index_path; by rewrite Hp).
    replace (data_path st0) with (data_path st) by (unfold data_path; by rewrite Hp).
    rewrite lookup_insert_ne by (apply not_eq_sym, index_data_paths_differ).
    rewrite !lookup_insert_eq. rewrite Hp. by destruct st. }
  rewrite Hload. done.
Qed.

Context `{!ScalarOrder}.

#[local] Instance closer_total : Total Faiss.closer.
Proof. intros a b. apply f32_le_total. Qed.

#[local] Instance closer_trans : Transitive Faiss.closer.
Proof. intros a b c. apply f32_le_trans. Qed.

Lemma best_sorted (ix : Faiss.IndexFlatL2) q (n : nat) :
  StronglySorted f32_leP
    (map fst (take n (merge_sort Faiss.closer (Faiss.scored ix q)))).
Proof.
  apply (StronglySorted_fmap _ Faiss.closer f32_leP); [by intros ??|].
  eapply StronglySorted_sublist; [apply sublist_take|].
  apply StronglySorted_merge_sort; apply _.
Qed.

(** C5.  For a count [k >= 0]: a search on an index with no entries
    returns the empty list; whatever a search returns has at most
    [min(k, ntotal)] results, and their distances never decrease along
    the list; and on a store whose three sequences agree in length, with a
    query of the index's width and [k > 0], the search does return, with
    exactly [min(k, ntotal)] results. *)
Theorem search_bounded_sorted (st : t) (q : list F32) (k : Z) :
  0 <= k ->
  (Faiss.ntotal (index st) = 0 -> search st q k = Ok [])
  /\ (forall rs, search st q k = Ok rs ->
        Z.of_nat (length rs) <= Z.min k (Faiss.ntotal (index st))
        /\ StronglySorted f32_leP (distances rs))
  /\ (well_formed st -> Z.of_nat (length q) = Faiss.d (index st) -> 0 < k ->
        exists rs, search st q k = Ok rs
                   /\ Z.of_nat (length rs) = Z.min k (Faiss.ntotal (index st))).
Proof.
  intros Hk. unfold search. set (n := Faiss.ntotal (index st)).
  split; [by intros ->|].
  destruct (Z.eqb_spec n 0) as [Hn|Hn].
  { split.
    - intros rs [= <-]. split; [simpl; lia|constructor].
    - intros _ _ _. exists []. split; [done|]. simpl. lia. }
  assert (Hpos : 0 < n) by (unfold n, Faiss.ntotal in *; lia).
  unfold Faiss.search. split.
  - intros rs. destruct (negb _); [done|]. destruct (negb _); [done|].
    simpl. rewrite zip_fst_snd. intros Hc.
    pose proof (collect_sublist _ _ _ Hc) as Hsub. split.
    + apply sublist_length in Hsub. unfold distances in Hsub.
      rewrite !length_map, best_length in Hsub.
      unfold n, Faiss.ntotal in *. lia.
    + eapply StronglySorted_sublist; [done|]. apply best_sorted.
  - intros [Hdocs Hmeta] Hq Hk0.
    destruct (Z.eqb_spec (Z.of_nat (length q)) (Faiss.d (index st))); [|done].
    destruct (Z.ltb_spec 0 (Z.min k n)); [|lia].
    simpl. rewrite zip_fst_snd.
    edestruct (collect_total st) as (rs & -> & Hlen).
    2:{ exists rs. split; [done|]. rewrite Hlen, best_length.
        unfold n, Faiss.ntotal in *. lia. }
    eapply Forall_of_sublist; [apply sublist_take|].
    rewrite merge_sort_Permutation.
    eapply Forall_impl; [apply scored_labels|].
    intros h Hh. simpl in Hh. unfold Faiss.ntotal in Hh. lia.
Qed.

End StoreFacts.

(** Two texts with two embeddings are stored after the two already there. *)
Lemma add_documents_guard_witness :
  VectorStore.add_documents small_index [[7]; [8]] ["x"; "y"] [∅; ∅]
  = (Ok tt,
     VectorStore.mkStore 1 (Faiss.mkIndex 1 [[5]; [2]; [7]; [8]])
       ["far"; "near"; "x"; "y"]
       [dict [("title", VStr "Far")]; dict [("title", VStr "Near")]; ∅; ∅]
       "./data/vector_store").
Proof.
  apply (add_documents_guard small_index [[7]; [8]] ["x"; "y"] [∅; ∅]).
  - discriminate.
  - discriminate.
  - repeat constructor.
Defined.

(** C2 as stated fails: two embeddings, one text and no metadata are
    neither of equal length nor all non-empty, and yet the call returns
    normally with the index grown to four rows and the texts to three. *)
Lemma add_documents_unequal_lengths_stored :
  let r := VectorStore.add_documents small_index [[1]; [2]] ["a"] [] in
  fst r = Ok tt
  /\ Faiss.ntotal (VectorStore.index (snd r)) = 4
  /\ VectorStore.documents (snd r) = ["far"; "near"; "a"]
  /\ length (VectorStore.metadata (snd r)) = 2%nat.
Proof. vm_compute. repeat split; reflexivity. Qed.

(** Saving the two-entry store to an empty disk and loading it into a
    fresh store of the same path. *)
Lemma save_then_load_restores_witness :
  VectorStore.load (VectorStore.init 1 "./data/vector_store")
                   (VectorStore.save small_index ∅)
  = (true, small_index)
  /\ forall q k,
       VectorStore.search
         (snd (VectorStore.load (VectorStore.init 1 "./data/vector_store")
                                (VectorStore.save small_index ∅))) q k
       = VectorStore.search small_index q k.
Proof.
  apply (save_then_load_restores small_index
           (VectorStore.init 1 "./data/vector_store") ∅).
  reflexivity.
Defined.

(** Asking the two-entry store for five neighbours of [[3]] returns two. *)
Lemma search_bounded_sorted_witness :
  exists rs, VectorStore.search small_index [3] 5 = Ok rs
             /\ Z.of_nat (length rs) = 2.
Proof.
  destruct (search_bounded_sorted small_index [3] 5) as (_ & _ & Htotal); [lia|].
  destruct Htotal as (rs & Hrs & Hlen).
  - split; reflexivity.
  - reflexivity.
  - lia.
  - exists rs. split; [exact Hrs|]. rewrite Hlen. reflexivity.
Defined.

(* ===================================================================== *)
(** * Session memory                                                      *)
(* ===================================================================== *)

Section HistoryFacts.
Context `{Scalar}.
Import Orchestrator.

Lemma appended_keep_last (limit : Z) (log : list Message) (m : Message) :
  0 < limit ->
  appended limit log m = keep_last (Z.to_nat (2 * limit)) (log ++ [m]).
Proof.
  intros Hl. unfold appended, keep_last, list_slice_from, norm_index.
  destruct (Z.ltb_spec (limit * 2) (Z.of_nat (length (log ++ [m])))) as [Hlt|Hge].
  - destruct (Z.ltb_spec (- limit * 2) 0); [|lia]. f_equal. lia.
  - replace (length (log ++ [m]) - Z.to_nat (2 * limit))%nat with 0%nat by lia. done.
Qed.

Lemma keep_last_snoc {A} (n : nat) (l : list A) (x : A) :
  (0 < n)%nat ->
  keep_last n (keep_last n l ++ [x]) = keep_last n (l ++ [x]).
Proof.
  intros Hn. unfold keep_last. rewrite !length_app, length_drop. simpl.
  destruct (decide (length l <= n)%nat) as [Hle|Hgt].
  - replace (length l - n)%nat with 0%nat by lia.
    rewrite drop_0. f_equal. lia.
  - rewrite (drop_app_le l) by lia.
    rewrite (drop_app_le (drop _ l)) by (rewrite length_drop; lia).
    rewrite drop_drop. do 2 f_equal. lia.
Qed.

Lemma fold_appended (limit : Z) (ms log : list Message) :
  0 < limit ->
  fold_left (appended limit) ms (keep_last (Z.to_nat (2 * limit)) log)
  = keep_last (Z.to_nat (2 * limit)) (log ++ ms).
Proof.
  intros Hl. revert log. induction ms as [|m ms IH]; intros log; simpl.
  - by rewrite app_nil_r.
  - rewrite appended_keep_last, keep_last_snoc by (done || lia).
    rewrite IH. by rewrite <- app_assoc.
Qed.

Lemma history_after_add (ag : t) sid r c (w : World) :
  history_of (snd (_add_to_history ag sid r c w)) sid
  = appended (max_history ag) (history_of w sid) (mkMessage r c).
Proof. unfold history_of, _add_to_history. simpl. by rewrite lookup_insert_eq. Qed.

Lemma history_after_append_each (ag : t) sid (ms : list Message) : forall w,
  history_of (snd (append_each ag sid ms w)) sid
  = fold_left (appended (max_history ag)) ms (history_of w sid).
Proof.
  induction ms as [|[r c] ms IH]; intros w; [done|].
  simpl. unfold bind. simpl. rewrite IH. f_equal. apply history_after_add.
Qed.

(** C7.  With a positive [max_history], after [2 * max_history + 3]
    appends to one session the stored log is exactly the last
    [2 * max_history] of the appended messages, in the order they were
    appended; and after any single append, from any world, the log is no
    longer than [2 * max_history]. *)
Theorem trimming_keeps_most_recent (ag : t) (sid : string) (ms : list Message)
        (w : World) :
  0 < max_history ag ->
  Z.of_nat (length ms) = 2 * max_history ag + 3 ->
  let w' := snd (append_each ag sid ms w) in
  history_of w' sid = drop 3 ms
  /\ Z.of_nat (length (history_of w' sid)) = 2 * max_history ag
  /\ (forall w0 r c,
        Z.of_nat (length (history_of (snd (_add_to_history ag sid r c w0)) sid))
        <= 2 * max_history ag).
Proof.
  intros Hmax Hlen w'.
  assert (Hlog : history_of w' sid = drop 3 ms).
  { unfold w'. rewrite history_after_append_each.
    destruct ms as [|m ms']; [simpl in Hlen; lia|].
    simpl fold_left. rewrite appended_keep_last by done.
    rewrite fold_appended by done. rewrite <- app_assoc. simpl app.
    unfold keep_last. rewrite length_app.
    rewrite drop_app_ge by lia. f_equal. lia. }
  split; [done|]. split.
  - rewrite Hlog, length_drop. lia.
  - intros w0 r c. rewrite history_after_add, appended_keep_last by done.
    unfold keep_last. rewrite length_drop. lia.
Qed.
End HistoryFacts.

(** Twenty-three messages into a fresh session of the agent
    ([max_history = 10]): the last twenty stay. *)
Lemma trimming_keeps_most_recent_witness :
  let w' := snd (append_each (offline_agent working_rag) "s1"
                             (numbered_messages 23) fresh_world) in
  Orchestrator.history_of w' "s1" = drop 3 (numbered_messages 23)
  /\ Z.of_nat (length (Orchestrator.history_of w' "s1")) = 2 * 10.
Proof.
  destruct (trimming_keeps_most_recent (offline_agent working_rag) "s1"
              (numbered_messages 23) fresh_world) as (Hlog & Hlen & _).
  - reflexivity.
  - reflexivity.
  - split; [exact Hlog|exact Hlen].
Defined.

(* ===================================================================== *)
(** * What a step of the agent can change                                 *)
(* ===================================================================== *)

Section Frames.
Variable P : World -> World -> Prop.
Hypothesis P_refl : forall w, P w w.
Hypothesis P_trans : forall w1 w2 w3, P w1 w2 -> P w2 w3 -> P w1 w3.

Lemma preserves_ret {A} (a : A) : preserves P (ret a).
Proof. intros w. apply P_refl. Qed.

Lemma preserves_raise {A} e : preserves P (@raise A e).
Proof. intros w. apply P_refl. Qed.

Lemma preserves_lift {A} (r : Res A) : preserves P (lift r).
Proof. intros w. apply P_refl. Qed.

Lemma preserves_bind {A B} (m : M A) (k : A -> M B) :
  preserves P m -> (forall a, preserves P (k a)) -> preserves P (bind m k).
Proof.
  intros Hm Hk w. unfold bind. specialize (Hm w).
  destruct (m w) as [[a|e] w1]; simpl in *; [|done].
  eapply P_trans; [exact Hm|apply Hk].
Qed.

Lemma preserves_try {A} (m : M A) (h : exn -> M A) :
  preserves P m -> (forall e, preserves P (h e)) -> preserves P (try_except m h).
Proof.
  intros Hm Hh w. unfold try_except. specialize (Hm w).
  destruct (m w) as [[a|e] w1]; simpl in *; [done|].
  eapply P_trans; [exact Hm|apply Hh].
Qed.

Lemma preserves_get_data_store : preserves P get_data_store.
Proof. intros w. apply P_refl. Qed.
End Frames.

Lemma same_logs_refl w : same_logs w w.
Proof. done. Qed.
Lemma same_logs_trans w1 w2 w3 : same_logs w1 w2 -> same_logs w2 w3 -> same_logs w1 w3.
Proof. unfold same_logs. congruence. Qed.
Lemma only_calls_refl w : only_calls w w.
Proof. repeat split. exists []. by rewrite app_nil_r. Qed.
Lemma only_calls_trans w1 w2 w3 : only_calls w1 w2 -> only_calls w2 w3 -> only_calls w1 w3.
Proof.
  intros (? & ? & cs1 & ?) (? & ? & cs2 & ?). repeat split; [congruence..|].
  exists (cs1 ++ cs2). rewrite app_assoc. congruence.
Qed.
Lemma only_calls_same_logs {A} (m : M A) : preserves only_calls m -> preserves same_logs m.
Proof. intros Hm w. apply Hm. Qed.

Lemma log_call_only_calls c : preserves only_calls (log_call c).
Proof. intros w. repeat split. by exists [c]. Qed.
Lemma set_data_store_same_logs ds : preserves same_logs (set_data_store ds).
Proof. by intros w. Qed.

Ltac frame_step P_refl P_trans :=
  first
    [ apply (preserves_ret _ P_refl)
    | apply (preserves_raise _ P_refl)
    | apply (preserves_lift _ P_refl)
    | apply (preserves_get_data_store _ P_refl)
    | apply log_call_only_calls
    | apply only_calls_same_logs, log_call_only_calls
    | apply set_data_store_same_logs
    | apply (preserves_bind _ P_trans); [|intros ?]
    | apply (preserves_try _ P_trans); [|intros ?]
    | match goal with
      | |- preserves _ (match ?x with _ => _ end) => destruct x
      | |- preserves _ (if ?b then _ else _) => destruct b
      | |- preserves _ (let '(_, _) := ?x in _) => destruct x
      end ].

Ltac frame_calls := cbv zeta; repeat frame_step only_calls_refl only_calls_trans.
Ltac frame_logs := cbv zeta; repeat frame_step same_logs_refl same_logs_trans.

Lemma create_and_strip_only_calls c req :
  preserves only_calls (LLMService.create_and_strip c req).
Proof. unfold LLMService.create_and_strip. frame_calls. Qed.

Lemma generate_response_only_calls svc p ctx sys mt :
  preserves only_calls (LLMService.generate_response svc p ctx sys mt).
Proof.
  unfold LLMService.generate_response. frame_calls.
  all: apply create_and_strip_only_calls.
Qed.

Lemma generate_with_history_only_calls svc ms mt :
  preserves only_calls (LLMService.generate_with_history svc ms mt).
Proof.
  unfold LLMService.generate_with_history. frame_calls.
  all: apply create_and_strip_only_calls.
Qed.

Lemma classify_only_calls ic m : preserves only_calls (IntentClassifier.classify ic m).
Proof.
  unfold IntentClassifier.classify, LLMService.classify_intent. frame_calls.
  all: apply generate_response_only_calls.
Qed.

Section AgentFrames.
Context `{Scalar} `{PyRuntime}.
Import Orchestrator.

Lemma retrieve_only_calls p q k : preserves only_calls (RAGPipeline.retrieve p q k).
Proof. unfold RAGPipeline.retrieve. frame_calls. Qed.

Lemma get_recent_history_only_calls sid n :
  preserves only_calls (_get_recent_history sid n).
Proof. intros w. apply only_calls_refl. Qed.

Lemma get_order_status_same_logs oid : preserves same_logs (Tools.get_order_status oid).
Proof. unfold Tools.get_order_status. frame_logs. Qed.

Lemma create_complaint_same_logs clk oid i dsc :
  preserves same_logs (Tools.create_complaint clk oid i dsc).
Proof. unfold Tools.create_complaint, Tools.store_create_complaint. frame_logs. Qed.

Lemma get_refund_status_same_logs oid : preserves same_logs (Tools.get_refund_status oid).
Proof. unfold Tools.get_refund_status. frame_logs. Qed.

Lemma initiate_refund_same_logs clk oid why :
  preserves same_logs (Tools.initiate_refund clk oid why).
Proof. unfold Tools.initiate_refund, Tools.store_create_refund. frame_logs. Qed.

Lemma get_delivery_status_same_logs oid :
  preserves same_logs (Tools.get_delivery_status oid).
Proof. unfold Tools.get_delivery_status. frame_logs. Qed.

Lemma handle_product_info_same_logs ag m : preserves same_logs (_handle_product_info ag m).
Proof.
  unfold _handle_product_info. frame_logs.
  apply only_calls_same_logs, retrieve_only_calls.
Qed.

Lemma route_same_logs ag i m sid : preserves same_logs (_route_to_handler ag i m sid).
Proof.
  unfold _route_to_handler, _handle_order_status, _handle_complaint,
    _handle_refund, _handle_delivery, _handle_comparison, _handle_general.
  frame_logs;
    first [ apply handle_product_info_same_logs
          | apply get_order_status_same_logs
          | apply create_complaint_same_logs
          | apply initiate_refund_same_logs
          | apply get_refund_status_same_logs
          | apply get_delivery_status_same_logs
          | apply only_calls_same_logs, retrieve_only_calls ].
Qed.

Lemma generate_same_logs ag i m d sid : preserves same_logs (_generate_response ag i m d sid).
Proof.
  unfold _generate_response. frame_logs;
    first [ apply only_calls_same_logs, get_recent_history_only_calls
          | apply only_calls_same_logs, generate_with_history_only_calls ].
Qed.

Lemma answer_turn_same_logs ag m sid : preserves same_logs (answer_turn ag m sid).
Proof.
  unfold answer_turn, route_and_compose. frame_logs;
    first [ apply only_calls_same_logs, classify_only_calls
          | apply route_same_logs
          | apply generate_same_logs ].
Qed.

Lemma last_drop_snoc {A} (l : list A) (x : A) (n : nat) :
  (n <= length l)%nat -> last (drop n (l ++ [x])) = Some x.
Proof. intros Hn. rewrite drop_app_le by done. apply last_snoc. Qed.

Lemma last_appended (limit : Z) (log : list Message) (m : Message) :
  0 <= limit -> last (appended limit log m) = Some m.
Proof.
  intros Hl. unfold appended, list_slice_from, norm_index.
  destruct (Z.ltb_spec (limit * 2) (Z.of_nat (length (log ++ [m])))) as [Hlt|Hge];
    [|apply last_snoc].
  rewrite length_app in *. simpl in *.
  apply last_drop_snoc. destruct (Z.ltb_spec (- limit * 2) 0); lia.
Qed.

End AgentFrames.

(* ===================================================================== *)
(** * Keyword fallback                                                    *)
(* ===================================================================== *)

Lemma first_match_at (pre post : list (string * list string)) name words text :
  Forall (fun row => any_in (snd row) text = false) pre ->
  any_in words text = true ->
  first_match (pre ++ (name, words) :: post) text = name.
Proof.
  unfold first_match. induction 1 as [|row pre Hrow _ IH]; intros Hw; simpl.
  - by rewrite Hw.
  - rewrite Hrow. by apply IH.
Qed.

Lemma first_match_none (table : list (string * list string)) text :
  Forall (fun row => any_in (snd row) text = false) table ->
  first_match table text = "general".
Proof.
  unfold first_match. induction 1 as [|row table Hrow _ IH]; simpl; [done|].
  by rewrite Hrow.
Qed.

Lemma simple_is_first_match (m : string) :
  LLMService._simple_intent_classification m = first_match priority_table (lower m).
Proof.
  unfold LLMService._simple_intent_classification, first_match, priority_table.
  cbn [find snd fst].
  repeat (destruct (any_in _ (lower m)); [reflexivity|]). reflexivity.
Qed.

Lemma first_match_in_prefix (pre post : list (string * list string)) row text :
  any_in (snd row) text = true ->
  first_match (pre ++ row :: post) text ∈ map fst (pre ++ [row]).
Proof.
  intros Hrow. unfold first_match. induction pre as [|r pre IH]; simpl.
  - rewrite Hrow. apply list_elem_of_here.
  - destruct (any_in (snd r) text);
      [apply list_elem_of_here | apply list_elem_of_further, IH].
Qed.

Lemma priority_names_distinct : NoDup (map fst priority_table).
Proof. apply (bool_decide_unpack _). by vm_compute. Qed.

(** C8.  The keyword fallback is a function of the message text alone:
    it is "first match wins" over the table order_status, complaint,
    refund, delivery, comparison, product_info, with general when no row
    matches; with no client configured [classify_intent] returns it
    without touching the world.  A row that matches while no earlier row
    does is the answer; of two rows that both match, the later one is
    never the answer; and the answer is always one of the seven intents. *)
Theorem keyword_fallback_first_match (m : string) :
  LLMService._simple_intent_classification m = first_match priority_table (lower m)
  /\ (forall w, LLMService.classify_intent (LLMService.mkService None) m w
                = (Ok (LLMService._simple_intent_classification m), w))
  /\ (forall pre name words post,
        priority_table = pre ++ (name, words) :: post ->
        any_in words (lower m) = true ->
        Forall (fun row => any_in (snd row) (lower m) = false) pre ->
        LLMService._simple_intent_classification m = name)
  /\ (Forall (fun row => any_in (snd row) (lower m) = false) priority_table ->
      LLMService._simple_intent_classification m = "general")
  /\ (forall pre name words mid name' words' post,
        priority_table = pre ++ (name, words) :: mid ++ (name', words') :: post ->
        any_in words (lower m) = true ->
        any_in words' (lower m) = true ->
        LLMService._simple_intent_classification m <> name')
  /\ LLMService._simple_intent_classification m ∈ LLMService.valid_intents.
Proof.
  split; [apply simple_is_first_match|].
  split; [done|].
  split.
  { intros pre name words post Ht Hw Hpre.
    rewrite simple_is_first_match, Ht. by apply first_match_at. }
  split.
  { intros Hnone. rewrite simple_is_first_match. by apply first_match_none. }
  split.
  - intros pre name words mid name' words' post Ht Hw _ Heq.
    pose proof priority_names_distinct as Hnd.
    pose proof (first_match_in_prefix pre (mid ++ (name', words') :: post)
                  (name, words) (lower m) Hw) as Hin.
    rewrite <- Ht, <- simple_is_first_match, Heq in Hin.
    rewrite Ht in Hnd.
    replace (pre ++ (name, words) :: mid ++ (name', words') :: post)
      with ((pre ++ [(name, words)]) ++ (mid ++ (name', words') :: post)) in Hnd
      by (by rewrite <- app_assoc).
    rewrite map_app in Hnd. apply NoDup_app in Hnd as (_ & Hdisj & _).
    apply (Hdisj name' Hin). rewrite map_app.
    apply elem_of_app. right. apply list_elem_of_here.
  - unfold LLMService._simple_intent_classification, LLMService.valid_intents.
    repeat (destruct (any_in _ (lower m));
            [apply list_elem_of_In; simpl; tauto|]).
    apply list_elem_of_In; simpl; tauto.
Qed.

(** A message that matches the order, complaint and refund rows. *)
Example several_sets_match :
  let m := "I want a refund for my broken order" in
  any_in LLMService.order_words (lower m) = true
  /\ any_in LLMService.complaint_words (lower m) = true
  /\ any_in LLMService.refund_words (lower m) = true
  /\ LLMService._simple_intent_classification m = "order_status".
Proof. vm_compute. repeat split; reflexivity. Qed.

(* ===================================================================== *)
(** * Order identifiers                                                   *)
(* ===================================================================== *)

Lemma prefix_split (w s : string) :
  String.prefix w s = true <-> exists b, s = w +:+ b.
Proof.
  revert s. induction w as [|c w IH]; intros [|c' s]; simpl.
  - split; [intros _; by exists ""|done].
  - split; [intros _; by exists (String c' s)|done].
  - split; [done|by intros [b ?]].
  - destruct (Ascii.ascii_dec c c') as [->|Hne].
    + rewrite IH. split; intros [b Hb]; exists b; [by rewrite Hb|by injection Hb].
    + split; [done|]. intros [b [= ? _]]. done.
Qed.

Lemma contains_split (w s : string) :
  contains w s = true <-> exists a b, s = a +:+ w +:+ b.
Proof.
  induction s as [|c s IH]; cbn [contains].
  - rewrite orb_false_r, prefix_split. split.
    + intros [b Hb]. by exists "", b.
    + intros (a & b & Hab). destruct a; [by exists b|done].
  - rewrite orb_true_iff, prefix_split, IH. split.
    + intros [[b Hb] | (a & b & Hab)].
      * by exists "", b.
      * exists (String c a), b. simpl. by rewrite Hab.
    + intros (a & b & Hab). destruct a as [|c' a]; simpl in Hab.
      * left. by exists b.
      * right. injection Hab as _ Hab. by exists a, b.
Qed.

Section ExtractionFacts.
Import IntentClassifier.

Lemma substring_0_app (a b : string) :
  substring 0 (String.length a) (a +:+ b) = a.
Proof.
  induction a as [|c a IH]; simpl; [by destruct b|]. by rewrite IH.
Qed.

Lemma substring_0_split (n : nat) (s : string) :
  exists b, s = substring 0 n s +:+ b.
Proof.
  revert s. induction n as [|n IH]; intros [|c s]; simpl.
  - by exists "".
  - by exists (String c s).
  - by exists "".
  - destruct (IH s) as [b Hb]. exists b.
    change (String c s = String c (substring 0 n s +:+ b)). by f_equal.
Qed.

Lemma substring_0_all (s : string) : substring 0 (String.length s) s = s.
Proof. induction s as [|c s IH]; simpl; [done|]. by rewrite IH. Qed.

Lemma order_at_split (u : string) :
  order_at u = true ->
  exists b, u = substring 0 8 u +:+ b /\ is_order_id (substring 0 8 u) = true.
Proof.
  unfold is_order_id, order_at.
  intros [[v ->]%prefix_split Hd]%andb_true_iff.
  change (substring 4 4 ("ORD-" +:+ v)) with (substring 0 4 v) in Hd.
  change (substring 0 8 ("ORD-" +:+ v)) with ("ORD-" +:+ substring 0 4 v).
  destruct (substring_0_split 4 v) as [b Hb]. exists b. split.
  { change ("ORD-" +:+ v = "ORD-" +:+ (substring 0 4 v +:+ b)). by f_equal. }
  change (substring 4 4 ("ORD-" +:+ substring 0 4 v)) with (substring 0 4 (substring 0 4 v)).
  apply andb_true_iff in Hd as Hd'. destruct Hd' as [Hlen%Nat.eqb_eq _].
  pose proof (substring_0_all (substring 0 4 v)) as Hidem.
  rewrite Hlen in Hidem. rewrite Hidem, Hd.
  rewrite (proj2 (prefix_split "ORD-" _)) by eauto.
  change (String.length ("ORD-" +:+ substring 0 4 v))
    with (4 + String.length (substring 0 4 v))%nat.
  by rewrite Hlen.
Qed.

Lemma order_at_app (r b : string) : is_order_id r = true -> order_at (r +:+ b) = true.
Proof.
  unfold is_order_id, order_at.
  intros [[[v ->]%prefix_split Hd]%andb_true_iff Hlen%Nat.eqb_eq]%andb_true_iff.
  change (substring 4 4 ("ORD-" +:+ v)) with (substring 0 4 v) in Hd.
  change (String.length ("ORD-" +:+ v)) with (4 + String.length v)%nat in Hlen.
  assert (Hv : String.length v = 4%nat) by lia.
  pose proof (substring_0_all v) as Hall. rewrite Hv in Hall.
  rewrite Hall in Hd.
  change (substring 4 4 (("ORD-" +:+ v) +:+ b)) with (substring 0 4 (v +:+ b)).
  pose proof (substring_0_app v b) as Happ. rewrite Hv in Happ.
  rewrite Happ, Hd.
  rewrite (proj2 (prefix_split "ORD-" _)); [done|].
  exists (v +:+ b). reflexivity.
Qed.

Lemma length_order_match (t : string) :
  order_at t = true -> String.length (substring 0 8 t) = 8%nat.
Proof.
  intros (b & _ & [_ Hl%Nat.eqb_eq]%andb_true_iff)%order_at_split. done.
Qed.

(** The head of [findall]: the leftmost place where the pattern matches. *)
Lemma str_app_nil (u : string) : "" +:+ u = u.
Proof. reflexivity. Qed.

Lemma str_app_cons (c : ascii) (a u : string) : String c a +:+ u = String c (a +:+ u).
Proof. reflexivity. Qed.

Lemma findall_order_head (s : string) :
  match findall_order 0 s with
  | [] => forall a u, s = a +:+ u -> order_at u = false
  | r :: _ =>
      exists a u, s = a +:+ u /\ order_at u = true /\ r = substring 0 8 u
                  /\ forall a' u', s = a' +:+ u' -> order_at u' = true ->
                                   (String.length a <= String.length a')%nat
  end.
Proof.
  induction s as [|c s IH].
  - simpl. intros [|c a] u Hau; [|done]. rewrite str_app_nil in Hau. by subst u.
  - cbn [findall_order]. destruct (order_at (String c s)) eqn:Hhere.
    + exists "", (String c s).
      split; [done|]. split; [done|]. split; [done|]. intros; simpl; lia.
    + destruct (findall_order 0 s) as [|r rest].
      * intros [|c' a] u Hau; rewrite ?str_app_nil, ?str_app_cons in Hau.
        -- by subst u.
        -- injection Hau as _ Hau. by apply (IH a).
      * destruct IH as (a & u & -> & Hu & -> & Hmin).
        exists (String c a), u.
        split; [done|]. split; [done|]. split; [done|].
        intros [|c' a'] u' Hau Hu'; rewrite ?str_app_nil, ?str_app_cons in Hau.
        -- subst u'. congruence.
        -- injection Hau as _ Hau. simpl. apply le_n_S. by apply (Hmin a' u').
Qed.

End ExtractionFacts.

(* ===================================================================== *)
(** * One turn of the agent                                               *)
(* ===================================================================== *)

Section TurnFacts.
Context `{Scalar} `{PyRuntime}.
Import Orchestrator.

Lemma classify_offline (ic : IntentClassifier.t) (m : string) (w : World) :
  LLMService.client (IntentClassifier.llm_service ic) = None ->
  IntentClassifier.classify ic m w
  = (Ok (LLMService._simple_intent_classification m), w).
Proof.
  intros Hc. unfold IntentClassifier.classify, LLMService.classify_intent.
  by rewrite Hc.
Qed.

Lemma fallback_is_no_intent (p : PyVal) :
  existsb (String.eqb (lower (strip (LLMService._fallback_response p))))
          LLMService.valid_intents = false.
Proof. by vm_compute. Qed.

Lemma classify_on_failure (ic : IntentClassifier.t) (m : string) (w : World)
      (c : LLMService.Client) :
  LLMService.client (IntentClassifier.llm_service ic) = Some c ->
  (forall s, c (classification_request m) <> Ok (Some s)) ->
  IntentClassifier.classify ic m w
  = (Ok "general", logged w [ChatCompletion (classification_request m)]).
Proof.
  intros Hc Hfail.
  unfold IntentClassifier.classify, LLMService.classify_intent,
    LLMService.generate_response.
  rewrite Hc.
  change (String.eqb LLMService.classifier_system_message "") with false.
  cbv iota. unfold try_except, bind, LLMService.create_and_strip, bind, log_call, lift.
  fold (classification_request m). 
  change ([mkMessage "system" (VStr LLMService.classifier_system_message)] ++
          [mkMessage "user" (VStr m)]) with (req_messages (classification_request m)).
  change (mkRequest (req_messages (classification_request m)) 50)
    with (classification_request m).
  destruct (c (classification_request m)) as [[s|]|e] eqn:Hreq.
  - by destruct (Hfail s).
  - unfold raise, ret. by rewrite fallback_is_no_intent.
  - unfold ret. by rewrite fallback_is_no_intent.
Qed.

Lemma classify_never_raises (ic : IntentClassifier.t) (m : string) :
  never_raises (IntentClassifier.classify ic m).
Proof.
  intros w. unfold IntentClassifier.classify, LLMService.classify_intent.
  destruct (LLMService.client _); [|by eexists].
  unfold try_except, bind.
  destruct (LLMService.generate_response _ _ _ _ _ w) as [[r|e] w']; [|by eexists].
  destruct (existsb _ _); by eexists.
Qed.

Lemma generate_with_history_returns (svc : LLMService.t) (ms : list Message)
      (mt : Z) (w : World) :
  exists s cs,
    LLMService.generate_with_history svc ms mt w
    = (Ok s, logged w (GenerateWithHistory ms :: cs)).
Proof.
  unfold LLMService.generate_with_history, bind, log_call, logged.
  destruct (LLMService.client svc) as [c|]; [|by eexists _, []].
  unfold try_except, LLMService.create_and_strip, bind, log_call, lift. simpl.
  destruct (c _) as [[s|]|e]; eexists _, [_]; simpl; by rewrite <- app_assoc.
Qed.

Lemma process_message_ok (ag : t) (m sid : string) (w w2 : World)
      (i : string) (d : Bag) (txt : PyVal) :
  answer_turn ag m sid (snd (_add_to_history ag sid "user" (VStr m) w))
  = (Ok (i, d, txt), w2) ->
  process_message ag m sid w
  = (Ok (answered txt i d), snd (_add_to_history ag sid "assistant" txt w2)).
Proof.
  intros Hturn. unfold process_message, try_except, bind.
  change (_add_to_history ag sid "user" (VStr m) w)
    with (Ok tt, snd (_add_to_history ag sid "user" (VStr m) w)).
  cbv beta iota. rewrite Hturn. cbv beta iota.
  change (_add_to_history ag sid "assistant" txt w2)
    with (Ok tt, snd (_add_to_history ag sid "assistant" txt w2)).
  cbv beta iota. unfold lift, answered.
  by destruct (new_ChatResponse txt i _ _) as [r|e].
Qed.

(** A list of strings passes the schema unchanged. *)
Lemma validate_strs_strings (vs : list PyVal) :
  Forall (fun v => exists s, v = VStr s) vs -> validate_strs vs = Ok vs.
Proof.
  induction 1 as [|v vs [s ->] _ IH]; [done|]. simpl. by rewrite IH.
Qed.

(** A string reply with no sources and a dict of metadata validates. *)
Lemma answered_plain (s i : string) (d : Bag) (meta : list (string * PyVal)) :
  default (VList []) (d !! "sources") = VList [] ->
  default (VDict []) (d !! "metadata") = VDict meta ->
  answered (VStr s) i d = mkChatResponse (VStr s) i (VList []) (VDict meta).
Proof. intros Hs Hm. unfold answered. by rewrite Hs, Hm. Qed.

Lemma generate_message_verbatim (ag : t) (i m : string) (d : Bag) (sid : string)
      (w : World) (s : string) :
  d !! "message" = Some (VStr s) ->
  _generate_response ag i m d sid w = (Ok (VStr s), w).
Proof. intros Hm. unfold _generate_response. by rewrite Hm. Qed.

Lemma clarification_message (what : string) :
  clarification what !! "message"
  = Some (VStr ("Please provide your order ID (format: ORD-XXXX) " +:+ what)).
Proof.
  unfold clarification, dict. simpl list_to_map.
  rewrite lookup_insert_ne by done. by rewrite lookup_insert_eq.
Qed.

Lemma order_not_found (oid : string) (w : World) :
  DataStore.get_order (data_store w) oid = None ->
  Tools.get_order_status oid w = (Ok (not_found_bag oid), w).
Proof.
  intros Hnone. unfold Tools.get_order_status, bind, get_data_store.
  by rewrite Hnone.
Qed.

Lemma not_found_bag_keys (oid : string) :
  not_found_bag oid !! "success" = Some (VBool false)
  /\ not_found_bag oid !! "message"
     = Some (VStr ("Order " +:+ oid +:+ " not found. Please check the order ID."))
  /\ not_found_bag oid !! "sources" = None
  /\ not_found_bag oid !! "metadata" = None.
Proof.
  unfold not_found_bag, dict. simpl list_to_map.
  split; [by rewrite lookup_insert_eq|].
  split; [rewrite lookup_insert_ne by done; by rewrite lookup_insert_eq|].
  split; by rewrite !lookup_insert_ne, lookup_empty by done.
Qed.

(** C4.  A result bag whose [message] is a string is answered with that
    string, and the world is left as it was: no call to the model is made.
    The clarification bags and the not-found bag of the order lookup
    ([success] false) carry such a message.  For "Where is my order
    ORD-1234?" with no matching order and the message classified as
    order_status (as the keyword fallback does), the response is the
    lookup's not-found message, the intent is order_status, and the calls
    on record are those made up to classification. *)
Theorem message_bag_used_verbatim (ag : t) :
  (forall i m (d : Bag) sid w s,
      d !! "message" = Some (VStr s) ->
      _generate_response ag i m d sid w = (Ok (VStr s), w))
  /\ (forall what,
        clarification what !! "message"
        = Some (VStr ("Please provide your order ID (format: ORD-XXXX) " +:+ what)))
  /\ (forall oid w,
        DataStore.get_order (data_store w) oid = None ->
        Tools.get_order_status oid w = (Ok (not_found_bag oid), w)
        /\ not_found_bag oid !! "success" = Some (VBool false)
        /\ not_found_bag oid !! "message"
           = Some (VStr ("Order " +:+ oid
                         +:+ " not found. Please check the order ID.")))
  /\ (forall sid w w2,
        DataStore.get_order (data_store w) "ORD-1234" = None ->
        IntentClassifier.classify (intent_classifier ag) where_is_my_order
          (snd (_add_to_history ag sid "user" (VStr where_is_my_order) w))
        = (Ok "order_status", w2) ->
        let not_found := VStr "Order ORD-1234 not found. Please check the order ID." in
        process_message ag where_is_my_order sid w
        = (Ok (mkChatResponse not_found "order_status" (VList []) (VDict [])),
           snd (_add_to_history ag sid "assistant" not_found w2))
        /\ calls (snd (_add_to_history ag sid "assistant" not_found w2)) = calls w2)
  /\ (LLMService.client (IntentClassifier.llm_service (intent_classifier ag)) = None ->
      forall w, IntentClassifier.classify (intent_classifier ag) where_is_my_order w
                = (Ok "order_status", w)).
Proof.
  split; [intros; by apply generate_message_verbatim|].
  split; [apply clarification_message|].
  split.
  { intros oid w Hnone. split; [by apply order_not_found|].
    split; apply not_found_bag_keys. }
  split.
  - intros sid w w2 Hnone Hcls not_found. split; [|done].
    pose proof (classify_only_calls (intent_classifier ag) where_is_my_order
                  (snd (_add_to_history ag sid "user" (VStr where_is_my_order) w)))
      as (_ & Hds & _).
    rewrite Hcls in Hds. simpl in Hds.
    destruct (not_found_bag_keys "ORD-1234") as (_ & Hmsg & Hsrc & Hmeta).
    rewrite (process_message_ok ag where_is_my_order sid w w2 "order_status"
               (not_found_bag "ORD-1234") not_found).
    + unfold answered. rewrite Hsrc, Hmeta. reflexivity.
    + unfold answer_turn, bind. rewrite Hcls.
      unfold route_and_compose, bind.
      change (_route_to_handler ag "order_status" where_is_my_order sid)
        with (Tools.get_order_status "ORD-1234").
      rewrite order_not_found by (by rewrite Hds).
      by rewrite (generate_message_verbatim _ _ _ _ _ _ _ Hmsg).
  - intros Hc w. by rewrite classify_offline.
Qed.

Lemma handle_general_ok (ag : t) (m : string) (w w3 : World)
      (rs : list VectorStore.Result) :
  RAGPipeline.retrieve (rag_pipeline ag) m (Some 2) w = (Ok rs, w3) ->
  _handle_general ag m w = (Ok (general_bag rs), w3).
Proof.
  intros Hr. unfold _handle_general, bind. by rewrite Hr.
Qed.

Lemma general_bag_keys (rs : list VectorStore.Result) :
  general_bag rs !! "message" = None
  /\ general_bag rs !! "comparison" = None
  /\ general_bag rs !! "success" = None
  /\ general_bag rs !! "metadata" = Some (VDict []).
Proof.
  unfold general_bag, dict. simpl list_to_map.
  repeat split; by rewrite !lookup_insert_ne, ?lookup_empty, ?lookup_insert_eq by done.
Qed.

(** A bag with no message, no comparison and no failure flag goes to the
    model: composition is invoked and returns a text. *)
Lemma generate_composes (ag : t) (i m : string) (d : Bag) (sid : string) (w : World) :
  d !! "message" = None -> d !! "comparison" = None -> d !! "success" = None ->
  exists txt ms cs,
    _generate_response ag i m d sid w
    = (Ok (VStr txt), logged w (GenerateWithHistory ms :: cs)).
Proof.
  intros Hm Hc Hs. unfold _generate_response. rewrite Hm, Hc, Hs.
  unfold bind at 1. unfold ret at 1. cbv beta iota zeta.
  unfold bind at 1. unfold _get_recent_history at 1. cbv beta iota.
  unfold bind.
  match goal with
  | |- context [LLMService.generate_with_history ?svc ?ms ?mt ?w0] =>
      destruct (generate_with_history_returns svc ms mt w0) as (txt & cs & ->);
      by exists txt, ms, cs
  end.
Qed.

(** C3.  When the classifier has a model client and its request for this
    message fails (it raises, or comes back without content), the
    classification step still returns, with intent general; the turn goes
    on with routing and composition for that intent, which is the general
    handler; and when that handler's retrieval succeeds, a response is
    composed, the composition call is on record, and the assistant turn
    is appended.  [process_message] then returns the composed response
    with intent general and the retrieved titles as they come out of the
    schema's validation; titles the schema refuses (a null title) end
    the turn in the apology instead, with the same log. *)
Theorem classifier_failure_defaults_to_general (ag : t) (m sid : string)
        (w : World) (c : LLMService.Client) :
  LLMService.client (IntentClassifier.llm_service (intent_classifier ag)) = Some c ->
  (forall s, c (classification_request m) <> Ok (Some s)) ->
  let w1 := snd (_add_to_history ag sid "user" (VStr m) w) in
  let w2 := logged w1 [ChatCompletion (classification_request m)] in
  IntentClassifier.classify (intent_classifier ag) m w1 = (Ok "general", w2)
  /\ answer_turn ag m sid w1 = route_and_compose ag "general" m sid w2
  /\ _route_to_handler ag "general" m sid = _handle_general ag m
  /\ (forall rs w3,
        RAGPipeline.retrieve (rag_pipeline ag) m (Some 2) w2 = (Ok rs, w3) ->
        exists txt ms cs,
          let w4 := snd (_add_to_history ag sid "assistant" (VStr txt)
                           (logged w3 (GenerateWithHistory ms :: cs))) in
          let titles := default (VList []) (general_bag rs !! "sources") in
          (forall checked,
              validate_sources titles = Ok checked ->
              process_message ag m sid w
              = (Ok (mkChatResponse (VStr txt) "general" checked (VDict [])), w4))
          /\ (forall e,
                validate_sources titles = Raise e ->
                process_message ag m sid w = (Ok (apology_response e), w4))).
Proof.
  intros Hc Hfail w1 w2.
  assert (Hcls : IntentClassifier.classify (intent_classifier ag) m w1
                 = (Ok "general", w2)) by (by apply (classify_on_failure _ _ _ c)).
  split; [done|].
  split; [unfold answer_turn, bind; by rewrite Hcls|].
  split; [done|].
  intros rs w3 Hr.
  destruct (general_bag_keys rs) as (Hm & Hcmp & Hs & Hmeta).
  destruct (generate_composes ag "general" m (general_bag rs) sid w3 Hm Hcmp Hs)
    as (txt & ms & cs & Hgen).
  exists txt, ms, cs. intros w4 titles.
  assert (Hpm : process_message ag m sid w
                = (Ok (answered (VStr txt) "general" (general_bag rs)), w4)).
  { apply process_message_ok.
    fold w1. unfold answer_turn, bind. rewrite Hcls.
    unfold route_and_compose, bind.
    change (_route_to_handler ag "general" m sid) with (_handle_general ag m).
    rewrite (handle_general_ok _ _ _ _ _ Hr). by rewrite Hgen. }
  rewrite Hpm. unfold answered, new_ChatResponse. fold titles.
  rewrite Hmeta. cbn [validate_str res_bind default validate_metadata].
  split.
  - intros checked ->. reflexivity.
  - intros e ->. reflexivity.
Qed.

Lemma clarification_keys (what : string) :
  clarification what !! "sources" = None
  /\ clarification what !! "metadata" = None.
Proof.
  unfold clarification, dict. simpl list_to_map.
  split; by rewrite !lookup_insert_ne, lookup_empty by done.
Qed.

Lemma lowercase_identifier_clarifies (ag : t) (m sid : string) (w : World) :
  LLMService.client (IntentClassifier.llm_service (intent_classifier ag)) = None ->
  IntentClassifier.extract_order_id m = "" ->
  contains "ord-" (lower m) = true ->
  process_message ag m sid w
  = (Ok (mkChatResponse ask_for_order_id "order_status" (VList []) (VDict [])),
     snd (_add_to_history ag sid "assistant" ask_for_order_id
            (snd (_add_to_history ag sid "user" (VStr m) w)))).
Proof.
  intros Hc Hnone Hord.
  assert (Hint : LLMService._simple_intent_classification m = "order_status").
  { unfold LLMService._simple_intent_classification.
    replace (any_in LLMService.order_words (lower m)) with true; [done|].
    unfold any_in, LLMService.order_words. cbn [existsb]. rewrite Hord.
    by rewrite !orb_true_r. }
  destruct (clarification_keys "to check status.") as (Hsrc & Hmeta).
  rewrite (process_message_ok ag m sid w
             (snd (_add_to_history ag sid "user" (VStr m) w)) "order_status"
             (clarification "to check status.") ask_for_order_id).
  - unfold answered. rewrite Hsrc, Hmeta. reflexivity.
  - unfold answer_turn, bind. rewrite classify_offline by done. rewrite Hint.
    unfold route_and_compose, bind.
    change (_route_to_handler ag "order_status" m sid)
      with (_handle_order_status ag m).
    unfold _handle_order_status. rewrite Hnone.
    change (String.eqb "" "") with true. cbv iota. unfold ret at 1.
    by rewrite (generate_message_verbatim _ _ _ _ _ _ _
                  (clarification_message "to check status.")).
Qed.
(** The extractor's test on eight characters is the pattern of the
    property: [ORD-] and four decimal digits. *)
Lemma is_digit_decimal (c : ascii) :
  IntentClassifier.is_digit c = true <-> decimal_digit c.
Proof.
  unfold decimal_digit. split.
  - destruct c as [[] [] [] [] [] [] [] []]; intros Hd; vm_compute in Hd;
      first [discriminate Hd | apply list_elem_of_In; simpl; tauto].
  - intros Hin. apply list_elem_of_In in Hin. simpl in Hin.
    repeat (destruct Hin as [<-|Hin]; [reflexivity|]). destruct Hin.
Qed.

Lemma prefix_cons (a b : ascii) (u v : string) :
  String.prefix (String a u) (String b v) = true
  <-> a = b /\ String.prefix u v = true.
Proof.
  simpl. destruct (ascii_dec a b) as [->|Hne]; [tauto|].
  split; [discriminate|]. by intros [? _].
Qed.

Lemma is_order_id_spec (r : string) : is_order_id r = true <-> order_identifier r.
Proof.
  unfold is_order_id, IntentClassifier.order_at, IntentClassifier.digits4,
    order_identifier.
  split.
  - intros [[Hp [_ Hd]%andb_prop]%andb_prop Hlen%Nat.eqb_eq]%andb_prop.
    destruct r as [|c1 [|c2 [|c3 [|c4 [|c5 [|c6 [|c7 [|c8 [|c9 r]]]]]]]]];
      try discriminate Hlen.
    apply prefix_cons in Hp as [<- Hp]. apply prefix_cons in Hp as [<- Hp].
    apply prefix_cons in Hp as [<- Hp]. apply prefix_cons in Hp as [<- _].
    simpl in Hd.
    apply andb_prop in Hd as [H5 Hd]. apply andb_prop in Hd as [H6 Hd].
    apply andb_prop in Hd as [H7 Hd]. apply andb_prop in Hd as [H8 _].
    exists c5, c6, c7, c8. by rewrite <- !is_digit_decimal.
  - intros (d1 & d2 & d3 & d4 & H1%is_digit_decimal & H2%is_digit_decimal
            & H3%is_digit_decimal & H4%is_digit_decimal & ->).
    cbn. by rewrite H1, H2, H3, H4.
Qed.

Lemma order_identifier_length (r : string) :
  order_identifier r -> String.length r = 8%nat.
Proof. by intros (d1 & d2 & d3 & d4 & _ & _ & _ & _ & ->). Qed.

Lemma app_same_length (a a' u u' : string) :
  a +:+ u = a' +:+ u' -> String.length a = String.length a' -> a = a' /\ u = u'.
Proof.
  revert a'. induction a as [|c a IH]; intros [|c' a'] Heq Hlen;
    try discriminate Hlen; [done|].
  rewrite !str_app_cons in Heq. injection Heq as -> Heq.
  destruct (IH a' Heq) as [-> ->]; [by injection Hlen|done].
Qed.

(** C10.  [extract_order_id] returns the empty string exactly when no
    substring of the message is an order identifier, that is the four
    characters [ORD-] in upper case followed by four decimal digits;
    otherwise it returns such a substring, and no other one starts
    further left: the leftmost identifier of a message is what is
    returned.  "Where is my order ORD-1234?" gives "ORD-1234", and of two
    identifiers the first is taken.  The match is case-sensitive:
    "ord-1234" yields the empty string, while the keyword fallback still
    classifies it as order_status.  So, with no model client configured,
    a message that contains "ord-" in lower case and no upper-case
    identifier is answered with the request for the order identifier. *)
Theorem extract_order_id_leftmost (ag : t) (m sid : string) (w : World) :
  (IntentClassifier.extract_order_id m = ""
   <-> forall a r b, m = a +:+ r +:+ b -> ~ order_identifier r)
  /\ (IntentClassifier.extract_order_id m <> "" ->
      order_identifier (IntentClassifier.extract_order_id m)
      /\ exists a b,
           m = a +:+ IntentClassifier.extract_order_id m +:+ b
           /\ forall a' r' b', m = a' +:+ r' +:+ b' -> order_identifier r' ->
                               (String.length a <= String.length a')%nat)
  /\ (forall a r b,
        m = a +:+ r +:+ b -> order_identifier r ->
        (forall a' r' b', m = a' +:+ r' +:+ b' -> order_identifier r' ->
                          (String.length a <= String.length a')%nat) ->
        IntentClassifier.extract_order_id m = r)
  /\ IntentClassifier.extract_order_id where_is_my_order = "ORD-1234"
  /\ IntentClassifier.extract_order_id "ORD-5678 came before ORD-1234" = "ORD-5678"
  /\ IntentClassifier.extract_order_id "ord-1234" = ""
  /\ LLMService._simple_intent_classification "ord-1234" = "order_status"
  /\ (LLMService.client (IntentClassifier.llm_service (intent_classifier ag)) = None ->
      IntentClassifier.extract_order_id m = "" ->
      contains "ord-" (lower m) = true ->
      process_message ag m sid w
      = (Ok (mkChatResponse ask_for_order_id "order_status" (VList []) (VDict [])),
         snd (_add_to_history ag sid "assistant" ask_for_order_id
                (snd (_add_to_history ag sid "user" (VStr m) w))))).
Proof.
  assert (Hempty : IntentClassifier.extract_order_id m = ""
                   <-> forall a r b, m = a +:+ r +:+ b -> ~ order_identifier r).
  { pose proof (findall_order_head m) as Hhead.
    unfold IntentClassifier.extract_order_id.
    destruct (IntentClassifier.findall_order 0 m) as [|r0 rest].
    - split; [|done]. intros _ a r b Hm Hr%is_order_id_spec.
      apply (order_at_app r b) in Hr. by rewrite (Hhead a (r +:+ b) Hm) in Hr.
    - destruct Hhead as (a & u & Hm & Hu & -> & _). split.
      + intros Hnil. apply length_order_match in Hu. by rewrite Hnil in Hu.
      + intros Hno. apply order_at_split in Hu as (b & Hb & Hid).
        rewrite Hb in Hm. apply is_order_id_spec in Hid.
        by destruct (Hno _ _ _ Hm). }
  assert (Hleft : IntentClassifier.extract_order_id m <> "" ->
                  order_identifier (IntentClassifier.extract_order_id m)
                  /\ exists a b,
                       m = a +:+ IntentClassifier.extract_order_id m +:+ b
                       /\ forall a' r' b',
                            m = a' +:+ r' +:+ b' -> order_identifier r' ->
                            (String.length a <= String.length a')%nat).
  { pose proof (findall_order_head m) as Hhead.
    unfold IntentClassifier.extract_order_id.
    destruct (IntentClassifier.findall_order 0 m) as [|r0 rest]; [done|].
    intros _. destruct Hhead as (a & u & Hm & Hu & -> & Hmin).
    apply order_at_split in Hu as Hu'. destruct Hu' as (b & Hb & Hid).
    split; [by apply is_order_id_spec|]. exists a, b. split; [by rewrite <- Hb|].
    intros a' r' b' Hm' Hr'%is_order_id_spec. apply (Hmin a' (r' +:+ b') Hm').
    by apply order_at_app. }
  split; [exact Hempty|]. split; [exact Hleft|].
  split; [|split; [done|split; [done|split; [done|split; [done|]]]]].
  - intros a r b Hm Hr Hfirst.
    destruct Hleft as (Hid & a0 & b0 & Hm0 & Hmin).
    { intros Hnil. destruct Hempty as [Hnone _]. by destruct (Hnone Hnil a r b). }
    pose proof (Hmin a r b Hm Hr) as Hle.
    pose proof (Hfirst a0 _ b0 Hm0 Hid) as Hge.
    rewrite Hm in Hm0 at 1.
    destruct (app_same_length a a0 _ _ Hm0) as [_ Hrest]; [lia|].
    apply app_same_length in Hrest as [Heq _]; [done|].
    by rewrite (order_identifier_length _ Hr), (order_identifier_length _ Hid).
  - intros Hc Hnone Hord. by apply lowercase_identifier_clarifies.
Qed.

End TurnFacts.

(** The model fails on every request; retrieval works. *)
Lemma classifier_failure_defaults_to_general_witness :
  IntentClassifier.classify (Orchestrator.intent_classifier (flaky_agent working_rag))
    "hello there"
    (snd (Orchestrator._add_to_history (flaky_agent working_rag) "s1" "user"
            (VStr "hello there") fresh_world))
  = (Ok "general",
     logged (snd (Orchestrator._add_to_history (flaky_agent working_rag) "s1" "user"
                    (VStr "hello there") fresh_world))
            [ChatCompletion (classification_request "hello there")])
  /\ exists txt w',
       Orchestrator.process_message (flaky_agent working_rag) "hello there" "s1"
                                    fresh_world
       = (Ok (mkChatResponse (VStr txt) "general"
                             (VList [VStr "Near"; VStr "Far"]) (VDict [])), w').
Proof.
  destruct (classifier_failure_defaults_to_general (flaky_agent working_rag)
              "hello there" "s1" fresh_world failing_client)
    as (Hcls & _ & _ & Hgo).
  - reflexivity.
  - intros s. discriminate.
  - split; [exact Hcls|].
    edestruct Hgo as (txt & ms & cs & Hpm & _); [vm_compute; reflexivity|].
    exists txt. eexists. apply Hpm. reflexivity.
Defined.

(** No API key, no orders on file. *)
Lemma message_bag_used_verbatim_witness :
  Orchestrator.process_message (offline_agent working_rag) where_is_my_order "s1"
                               fresh_world
  = (Ok (mkChatResponse
           (VStr "Order ORD-1234 not found. Please check the order ID.")
           "order_status" (VList []) (VDict [])),
     mkWorld {[ "s1" := [mkMessage "user" (VStr where_is_my_order);
                         mkMessage "assistant"
                           (VStr "Order ORD-1234 not found. Please check the order ID.")] ]}
             empty_store []).
Proof.
  destruct (message_bag_used_verbatim (offline_agent working_rag))
    as (_ & _ & _ & Hscenario & Hoffline).
  destruct (Hscenario "s1" fresh_world
              (snd (Orchestrator._add_to_history (offline_agent working_rag) "s1"
                      "user" (VStr where_is_my_order) fresh_world)))
    as (Hpm & _).
  - reflexivity.
  - apply Hoffline. reflexivity.
  - rewrite Hpm. vm_compute. reflexivity.
Defined.

(** No API key: "ord-1234" is asked for its identifier, and the
    upper-case identifier of a message is found behind what precedes
    it. *)
Lemma extract_order_id_leftmost_witness :
  Orchestrator.process_message (offline_agent working_rag) "ord-1234" "s1" fresh_world
  = (Ok (mkChatResponse ask_for_order_id "order_status" (VList []) (VDict [])),
     mkWorld {[ "s1" := [mkMessage "user" (VStr "ord-1234");
                         mkMessage "assistant" ask_for_order_id] ]}
             empty_store [])
  /\ order_identifier (IntentClassifier.extract_order_id "Track ORD-0042 please")
  /\ IntentClassifier.extract_order_id where_is_my_order = "ORD-1234".
Proof.
  split; [|split].
  - destruct (extract_order_id_leftmost (offline_agent working_rag) "ord-1234" "s1"
                fresh_world) as (_ & _ & _ & _ & _ & _ & _ & Hclar).
    rewrite Hclar; [vm_compute; reflexivity | reflexivity | reflexivity | reflexivity].
  - destruct (extract_order_id_leftmost (offline_agent working_rag)
                "Track ORD-0042 please" "s1" fresh_world) as (_ & Hfound & _).
    apply Hfound. vm_compute. discriminate.
  - destruct (extract_order_id_leftmost (offline_agent working_rag) where_is_my_order
                "s1" fresh_world) as (_ & _ & _ & Hhere & _).
    exact Hhere.
Defined.

(* ===================================================================== *)
(** * More on chunking: coverage, counts, degenerate settings             *)
(* ===================================================================== *)

Lemma substring_past_end (s : string) : forall i n,
  (String.length s <= i)%nat -> substring i n s = "".
Proof.
  induction s as [|c s IH]; intros [|i] n Hi; simpl in *; try lia; try done.
  - by destruct n.
  - apply IH. lia.
Qed.

Lemma substring_clip (s : string) : forall i n,
  (String.length s - i <= n)%nat ->
  substring i n s = substring i (String.length s - i) s.
Proof.
  induction s as [|c s IH]; intros [|i] [|n] Hn; simpl in *; try lia; try done.
  - f_equal. rewrite (IH 0%nat n) by lia. by rewrite Nat.sub_0_r.
  - by apply IH.
  - by apply IH.
Qed.

Lemma substring_app_next (s : string) : forall i a b,
  substring i a s +:+ substring (i + a) b s = substring i (a + b) s.
Proof.
  induction s as [|c s IH]; intros [|i] [|a] [|b]; simpl;
    rewrite ?str_app_cons, ?str_app_nil;
    first [ done | f_equal; apply (IH 0%nat) | apply IH ].
Qed.

Lemma substring_of_substring (s : string) : forall i n a,
  substring 0 a (substring i n s) = substring i (Nat.min a n) s.
Proof.
  induction s as [|c s IH]; intros [|i] [|n] [|a]; simpl;
    first [ done | f_equal; apply (IH 0%nat) | apply IH ].
Qed.

Lemma range_up_bounds fuel : forall i stop step,
  0 < step -> Forall (fun x => i <= x < stop) (range_up fuel i stop step).
Proof.
  induction fuel as [|fuel IH]; intros i stop step Hs; simpl; [constructor|].
  destruct (Z.ltb_spec i stop); [|constructor].
  constructor; [lia|]. eapply Forall_impl; [apply IH; lia|]. simpl. lia.
Qed.

(** Steps of width [step] from [i] on tile the rest of the text. *)
Lemma windows_tile (t : string) (step : Z) (fuel : nat) : forall i,
  0 < step -> 0 <= i ->
  (Z.to_nat (Z.of_nat (String.length t) - i) <= fuel)%nat ->
  concat_strings (map (fun j => substring (Z.to_nat j) (Z.to_nat step) t)
                      (range_up fuel i (Z.of_nat (String.length t)) step))
  = substring (Z.to_nat i) (String.length t - Z.to_nat i) t.
Proof.
  intros i Hs. revert i. induction fuel as [|fuel IH]; intros i Hi Hf; simpl.
  - symmetry. apply substring_past_end. lia.
  - destruct (Z.ltb_spec i (Z.of_nat (String.length t))) as [Hlt|Hge].
    + simpl. rewrite IH by lia.
      replace (Z.to_nat (i + step)) with (Z.to_nat i + Z.to_nat step)%nat by lia.
      rewrite substring_app_next.
      destruct (decide (Z.to_nat step <= String.length t - Z.to_nat i)%nat).
      * f_equal. lia.
      * rewrite substring_clip by lia. done.
    + simpl. symmetry. apply substring_past_end. lia.
Qed.

Lemma substring_0_whole (s : string) : substring 0 (String.length s - 0) s = s.
Proof. rewrite Nat.sub_0_r. induction s as [|c s IH]; simpl; [done|]. by rewrite IH. Qed.

Section ChunkingMore.
Import Pipeline.
Variable str_of_doc : Document -> string.

(** The first [W - O] characters of a window are the step it covers. *)
Lemma window_head (t : string) (W O j : Z) :
  0 <= O < W -> 0 <= j < Z.of_nat (String.length t) ->
  substring 0 (Z.to_nat (W - O)) (str_slice t j (j + W))
  = substring (Z.to_nat j) (Z.to_nat (W - O)) t.
Proof.
  intros HO Hj. rewrite str_slice_window by lia. unfold char_range.
  rewrite substring_of_substring.
  destruct (decide (Z.to_nat (W - O)
                    <= Z.to_nat (Z.min (j + W) (Z.of_nat (String.length t)))
                       - Z.to_nat j)%nat).
  - f_equal. lia.
  - rewrite Nat.min_r by lia.
    rewrite (substring_clip t (Z.to_nat j) (Z.to_nat (W - O))) by lia.
    rewrite (substring_clip t (Z.to_nat j) (_ - _)) by lia. done.
Qed.

(** X1.  With an overlap that is not negative and smaller than the
    window, the chunks of a document lose nothing of its text: the first
    [chunk_size - overlap] characters of every chunk, put one after the
    other in chunk order, are the text itself. *)
Theorem chunks_rebuild_text (doc : Document) (W O : Z) :
  0 <= O < W ->
  exists cs,
    _chunk_documents str_of_doc [doc] W O = Ok cs
    /\ concat_strings (map (fun c => substring 0 (Z.to_nat (W - O)) (Pipeline.text c)) cs)
       = doc_text str_of_doc doc.
Proof.
  intros HO. eexists. split.
  { simpl. rewrite chunks_of_doc_ok by done. simpl. by rewrite app_nil_r. }
  set (t := doc_text str_of_doc doc).
  rewrite map_map. simpl.
  rewrite (map_ext_Forall _ (fun j => substring (Z.to_nat j) (Z.to_nat (W - O)) t)).
  - rewrite windows_tile by lia. apply substring_0_whole.
  - eapply Forall_impl; [apply range_up_bounds; lia|].
    intros j Hj. simpl in Hj. apply window_head; lia.
Qed.

Lemma chunks_of_doc_sizes (doc : Document) (W O : Z) :
  0 <= O < W ->
  exists cs,
    chunks_of_doc str_of_doc doc W O = Ok cs
    /\ Z.of_nat (length cs)
       = ceil_div (Z.of_nat (String.length (doc_text str_of_doc doc))) (W - O)
    /\ Forall (fun c => 0 < Z.of_nat (String.length (Pipeline.text c)) <= W) cs.
Proof.
  intros HO. rewrite chunks_of_doc_ok by done. eexists. split; [done|].
  set (t := doc_text str_of_doc doc). split.
  - rewrite length_map, range_up_length by lia. rewrite Z.sub_0_r.
    assert (0 <= ceil_div (Z.of_nat (String.length t)) (W - O)); [|lia].
    unfold ceil_div. apply Z.div_pos; lia.
  - apply Forall_map. eapply Forall_impl; [apply range_up_bounds; lia|].
    intros j Hj. simpl in *. rewrite str_slice_window by lia.
    unfold char_range. rewrite length_substring. lia.
Qed.

(** X2.  With an overlap that is not negative and smaller than the
    window, chunking any list of documents returns; the number of chunks
    is the sum over the documents of the ceiling of
    [len(text) / (chunk_size - overlap)], and every chunk holds at least
    one and at most [chunk_size] characters. *)
Theorem chunk_documents_sizes (documents : list Document) (W O : Z) :
  0 <= O < W ->
  exists cs,
    _chunk_documents str_of_doc documents W O = Ok cs
    /\ Z.of_nat (length cs)
       = total_windows
           (map (fun d => Z.of_nat (String.length (doc_text str_of_doc d))) documents)
           (W - O)
    /\ Forall (fun c => 0 < Z.of_nat (String.length (Pipeline.text c)) <= W) cs.
Proof.
  intros HO. induction documents as [|doc rest (more & Hmore & Hlen & Hall)].
  - exists []. by repeat split.
  - destruct (chunks_of_doc_sizes doc W O HO) as (cs & Hcs & Hn & Hsz).
    exists (cs ++ more). simpl. rewrite Hcs, Hmore. simpl.
    split; [done|]. split.
    + rewrite length_app. lia.
    + by apply Forall_app.
Qed.

(** X3.  The two degenerate settings.  An overlap equal to the window
    makes the step of [range] zero: with at least one document the call
    raises [ValueError].  An overlap larger than the window makes the
    step negative: the loop body never runs and the result is the empty
    list, whatever the documents hold. *)
Theorem degenerate_window_settings (documents : list Document) (W O : Z) :
  (W = O -> documents <> [] ->
   _chunk_documents str_of_doc documents W O = Raise ValueError)
  /\ (W < O -> _chunk_documents str_of_doc documents W O = Ok []).
Proof.
  split.
  - intros -> Hne. destruct documents as [|doc rest]; [done|].
    simpl. unfold chunks_of_doc, range. by rewrite Z.sub_diag.
  - intros Hlt. induction documents as [|doc rest IH]; [done|].
    simpl. rewrite IH. unfold chunks_of_doc, range.
    destruct (Z.eqb_spec (W - O) 0); [lia|].
    destruct (Z.ltb_spec 0 (W - O)); [lia|].
    replace (Z.to_nat (0 - _)) with 0%nat by lia. done.
Qed.

End ChunkingMore.

(** An eleven-character text in windows of four with overlap one. *)
Lemma chunks_rebuild_text_witness :
  exists cs,
    Pipeline._chunk_documents (fun _ => "") [doc_of_text "hello world"] 4 1 = Ok cs
    /\ concat_strings
         (map (fun c => substring 0 (Z.to_nat (4 - 1)) (Pipeline.text c)) cs)
       = Pipeline.doc_text (fun _ => "") (doc_of_text "hello world").
Proof.
  apply (chunks_rebuild_text (fun _ => "") (doc_of_text "hello world") 4 1). lia.
Defined.

(** Two texts of eleven and three characters: four windows and one. *)
Lemma chunk_documents_sizes_witness :
  exists cs,
    Pipeline._chunk_documents (fun _ => "")
      [doc_of_text "hello world"; doc_of_text "abc"] 4 1 = Ok cs
    /\ Z.of_nat (length cs) = 5.
Proof.
  destruct (chunk_documents_sizes (fun _ => "")
              [doc_of_text "hello world"; doc_of_text "abc"] 4 1)
    as (cs & Hcs & Hlen & _); [lia|].
  exists cs. split; [exact Hcs|]. rewrite Hlen. reflexivity.
Defined.

(** Window and overlap both fifty, and a window below the overlap. *)
Lemma degenerate_window_settings_witness :
  Pipeline._chunk_documents (fun _ => "") [doc_of_text "hello world"] 50 50
  = Raise ValueError
  /\ Pipeline._chunk_documents (fun _ => "") [doc_of_text "hello world"] 50 60
     = Ok [].
Proof.
  split.
  - apply (degenerate_window_settings (fun _ => "") [doc_of_text "hello world"] 50 50);
      [reflexivity|discriminate].
  - apply (degenerate_window_settings (fun _ => "") [doc_of_text "hello world"] 50 60).
    lia.
Defined.

(* ===================================================================== *)
(** * More on the vector index: invariants, failures, nearest rows        *)
(* ===================================================================== *)

Section StoreMore.
Context `{Scalar}.
Import VectorStore.

Lemma np_array_rows (rows : list (list F32)) (x : Z * list (list F32)) :
  Faiss.np_array rows = Ok x ->
  snd x = rows /\ Forall (fun r => Z.of_nat (length r) = fst x) rows.
Proof.
  unfold Faiss.np_array. destruct rows as [|r rows]; [by intros [= <-]|].
  destruct (forallb _ _) eqn:Hall; [|done]. intros [= <-]. split; [done|].
  apply Forall_forall. intros r' Hr'%list_elem_of_In.
  rewrite forallb_forall in Hall. apply Hall, Nat.eqb_eq in Hr'. simpl. lia.
Qed.

Lemma add_documents_invariants (st : t) (embeddings : list (list F32))
        (docs : list string) (meta : list Metadata) :
  rows_fit st -> well_formed st ->
  length embeddings = length docs -> length docs = length meta ->
  let st' := snd (add_documents st embeddings docs meta) in
  rows_fit st' /\ well_formed st'
  /\ Faiss.d (index st') = Faiss.d (index st)
  /\ (fst (add_documents st embeddings docs meta) = Ok tt ->
      Faiss.ntotal (index st')
      = Faiss.ntotal (index st) + Z.of_nat (length embeddings)
      /\ documents st' = documents st ++ docs
      /\ metadata st' = metadata st ++ meta).
Proof.
  intros Hfit [Hd Hm] He Hdm. unfold add_documents.
  destruct embeddings as [|r rows].
  { destruct docs; [|done]. destruct meta; [|done]. simpl.
    rewrite !app_nil_r. repeat split; try done. lia. }
  destruct docs as [|x xs]; [done|].
  destruct (Faiss.np_array (r :: rows)) as [arr|e] eqn:Harr;
    [|simpl; repeat split; done].
  apply np_array_rows in Harr as [Hsnd Hw].
  unfold Faiss.add. destruct (Z.eqb_spec (fst arr) (Faiss.d (index st))) as [Heq|Hne];
    [|simpl; repeat split; done].
  cbn [snd fst]. rewrite Hsnd. split; [|split; [|split; [done|]]].
  - unfold rows_fit. simpl. apply Forall_app. split; [done|].
    eapply Forall_impl; [exact Hw|]. simpl. lia.
  - unfold well_formed. simpl. rewrite !length_app. simpl in *. lia.
  - intros _. unfold Faiss.ntotal. cbn [index Faiss.xb documents metadata].
    rewrite length_app. split; [|done].
    change (length (r :: rows)) with (S (length rows)). lia.
Qed.

Lemma add_documents_succeeds (st : t) (embeddings : list (list F32))
      (docs : list string) (meta : list Metadata) :
  Forall (fun row => Z.of_nat (length row) = Faiss.d (index st)) embeddings ->
  fst (add_documents st embeddings docs meta) = Ok tt.
Proof.
  intros Hrows. unfold add_documents.
  destruct embeddings as [|r rows]; [done|]. destruct docs as [|x xs]; [done|].
  apply Forall_cons in Hrows as Hrows'. destruct Hrows' as [Hr _].
  unfold Faiss.np_array.
  assert (Hall : forallb (fun r' => Nat.eqb (length r') (length r)) (r :: rows) = true).
  { apply forallb_forall. intros r' Hr'%list_elem_of_In.
    rewrite Forall_forall in Hrows. apply Hrows in Hr'.
    apply Nat.eqb_eq. lia. }
  rewrite Hall. unfold Faiss.add. cbn [fst snd].
  by destruct (Z.eqb_spec (Z.of_nat (length r)) (Faiss.d (index st))).
Qed.

(** X4.  [add_documents] keeps a sound store sound.  When every row of
    the index has the index's width, the three sequences have one length
    and the three arguments have one length, the store after the call
    (returned or raised) has the same two properties and the same width;
    and when the call returns, the index holds [len(embeddings)] rows
    more and the texts and metadata were appended in the order given. *)
Theorem add_documents_keeps_invariants (st : t) (embeddings : list (list F32))
        (docs : list string) (meta : list Metadata) :
  rows_fit st -> well_formed st ->
  length embeddings = length docs -> length docs = length meta ->
  let st' := snd (add_documents st embeddings docs meta) in
  rows_fit st' /\ well_formed st'
  /\ Faiss.d (index st') = Faiss.d (index st)
  /\ (fst (add_documents st embeddings docs meta) = Ok tt ->
      Faiss.ntotal (index st')
      = Faiss.ntotal (index st) + Z.of_nat (length embeddings)
      /\ documents st' = documents st ++ docs
      /\ metadata st' = metadata st ++ meta).
Proof.
  intros Hfit Hwf He Hdm st'.
  destruct (add_documents_invariants st embeddings docs meta Hfit Hwf He Hdm)
    as (Hfit' & Hwf' & Hd' & Hok).
  split; [exact Hfit'|]. split; [exact Hwf'|]. split; [exact Hd'|exact Hok].
Qed.

(** X5.  Rows of the wrong width are refused before anything is stored:
    with non-empty embeddings and documents, when some embedding has
    another length than the index's width, [add_documents] raises
    ([ValueError] from the array conversion on ragged rows,
    [AssertionError] from the index otherwise) and the store is exactly
    what it was. *)
Theorem add_documents_wrong_width_fails (st : t) (embeddings : list (list F32))
        (docs : list string) (meta : list Metadata) :
  embeddings <> [] -> docs <> [] ->
  ~ Forall (fun row => Z.of_nat (length row) = Faiss.d (index st)) embeddings ->
  exists e, add_documents st embeddings docs meta = (Raise e, st)
            /\ (e = ValueError \/ e = AssertionError).
Proof.
  intros He Hd Hbad. unfold add_documents.
  destruct embeddings as [|r rows]; [done|]. destruct docs as [|x xs]; [done|].
  destruct (Faiss.np_array (r :: rows)) as [arr|e] eqn:Harr.
  - apply np_array_rows in Harr as [Hsnd Hw].
    unfold Faiss.add.
    destruct (Z.eqb_spec (fst arr) (Faiss.d (index st))) as [Heq|Hne].
    + destruct Hbad. eapply Forall_impl; [exact Hw|]. simpl. lia.
    + exists AssertionError. auto.
  - exists e. split; [done|]. left.
    unfold Faiss.np_array in Harr. destruct (forallb _ _); [done|]. by injection Harr.
Qed.

Lemma collect_entries (st : t) (hits : list (F32 * Z)) :
  Forall (fun h => 0 <= snd h < Z.of_nat (length (documents st))
                   /\ snd h < Z.of_nat (length (metadata st))) hits ->
  exists rs, collect st hits = Ok rs /\ Forall2 (entry_of st) hits rs.
Proof.
  induction 1 as [|[dist idx] hits [Hd Hm] _ (more & Hmore & Hall)]; simpl in *.
  - exists []. split; [done|constructor].
  - destruct (Z.ltb_spec idx (Z.of_nat (length (documents st)))); [|lia].
    unfold getitem. destruct (Z.ltb_spec idx 0); [lia|].
    destruct (lookup_lt_is_Some_2 (documents st) (Z.to_nat idx)) as [doc Hdoc]; [lia|].
    destruct (lookup_lt_is_Some_2 (metadata st) (Z.to_nat idx)) as [meta Hmeta]; [lia|].
    rewrite Hdoc, Hmeta. simpl. rewrite Hmore. simpl.
    destruct (Z.ltb_spec idx 0); [lia|]. simpl.
    eexists. split; [done|]. constructor; [|done].
    exists (Z.to_nat idx). simpl. repeat split; [lia|done|done].
Qed.

Lemma load_after_save (st st0 : t) (disk : gmap string File) :
  store_path st0 = store_path st -> load st0 (save st disk) = (true, st).
Proof.
  intros Hp. unfold load, save.
  replace (index_path st0) with (index_path st) by (unfold index_path; by rewrite Hp).
  replace (data_path st0) with (data_path st) by (unfold data_path; by rewrite Hp).
  rewrite lookup_insert_ne by (apply not_eq_sym, index_data_paths_differ).
  rewrite !lookup_insert_eq. rewrite Hp. by destruct st.
Qed.

Lemma load_missing_file (st : t) (disk : gmap string File) :
  disk !! index_path st = None \/ disk !! data_path st = None ->
  load st disk = (false, st).
Proof.
  unfold load. intros [-> | Hd]; [done|]. rewrite Hd.
  by destruct (disk !! index_path st).
Qed.

(** X6.  [clear] empties the store and nothing else: every search on the
    cleared store returns the empty list, its three sequences have one
    length, [get_stats] reports no documents and an index of size zero
    with the dimension kept, and the snapshot an earlier [save] wrote is
    still there: [load] on the cleared store brings the saved store
    back. *)
Theorem clear_then_restore (st : t) (disk : gmap string File) :
  (forall q k, search (clear st) q k = Ok [])
  /\ well_formed (clear st)
  /\ get_stats (clear st) !! "total_documents" = Some (VInt 0)
  /\ get_stats (clear st) !! "index_size" = Some (VInt 0)
  /\ get_stats (clear st) !! "dimension" = Some (VInt (dimension st))
  /\ load (clear st) (save st disk) = (true, st).
Proof.
  split; [done|]. split; [done|].
  unfold get_stats. simpl list_to_map.
  split; [by rewrite lookup_insert_eq|].
  split; [by rewrite lookup_insert_ne, lookup_insert_eq by done|].
  split; [by rewrite !lookup_insert_ne, lookup_insert_eq by done|].
  by apply load_after_save.
Qed.

(** X7.  What [load] can do.  It never changes the path.  With either
    file missing it returns [False] and the store is what it was.  With
    an index file that parses and a data file that does not, it returns
    [False] and the store has the index of the file beside the texts and
    metadata it had.  And when it returns [True], the two files hold
    exactly the index, texts, metadata and dimension the store has
    afterwards. *)
Theorem load_outcomes (st : t) (disk : gmap string File) :
  store_path (snd (load st disk)) = store_path st
  /\ (disk !! index_path st = None \/ disk !! data_path st = None ->
      load st disk = (false, st))
  /\ (forall ix other,
        disk !! index_path st = Some (IndexFile ix) ->
        disk !! data_path st = Some (IndexFile other) ->
        load st disk
        = (false, mkStore (dimension st) ix (documents st) (metadata st)
                          (store_path st)))
  /\ (forall st',
        load st disk = (true, st') ->
        disk !! index_path st = Some (IndexFile (index st'))
        /\ disk !! data_path st
           = Some (PickleFile (documents st') (metadata st') (dimension st'))).
Proof.
  split; [|split; [apply load_missing_file|split]].
  - unfold load. destruct (disk !! index_path st) as [[ix|]|];
      destruct (disk !! data_path st) as [[|]|]; done.
  - intros ix other Hi Hd. unfold load. by rewrite Hi, Hd.
  - intros st'. unfold load.
    destruct (disk !! index_path st) as [[ix|]|]; [| |done];
      destruct (disk !! data_path st) as [[|ds ms dm]|]; try done.
    by intros [= <-].
Qed.

Context `{!ScalarOrder}.
#[local] Existing Instances closer_total closer_trans.

(** X8.  [search] returns the nearest rows.  On a store whose three
    sequences have one length, for a query of the index's width and a
    positive [top_k], the scored rows split into the hits and the rest:
    there are [min(top_k, ntotal)] hits, the results are the hits in
    order, each with the text and metadata stored at the hit's position
    and the hit's distance, and no hit is farther from the query than a
    row that was left out. *)
Theorem search_returns_nearest (st : t) (q : list F32) (k : Z) :
  well_formed st -> Z.of_nat (length q) = Faiss.d (index st) -> 0 < k ->
  exists hits rest rs,
    hits ++ rest ≡ₚ Faiss.scored (index st) q
    /\ search st q k = Ok rs
    /\ Forall2 (entry_of st) hits rs
    /\ Z.of_nat (length hits) = Z.min k (Faiss.ntotal (index st))
    /\ (forall h r, h ∈ hits -> r ∈ rest -> f32_le (fst h) (fst r) = true).
Proof.
  intros [Hdocs Hmeta] Hq Hk. unfold search.
  destruct (Z.eqb_spec (Faiss.ntotal (index st)) 0) as [Hn|Hn].
  { exists [], [], []. unfold Faiss.scored, Faiss.ntotal in *.
    destruct (Faiss.xb (index st)); [|simpl in Hn; lia].
    split; [done|]. split; [done|]. split; [constructor|]. split; [simpl; lia|].
    intros h r Hh. by apply elem_of_nil in Hh. }
  unfold Faiss.search.
  destruct (Z.eqb_spec (Z.of_nat (length q)) (Faiss.d (index st))); [|done].
  destruct (Z.ltb_spec 0 (Z.min k (Faiss.ntotal (index st))));
    [|unfold Faiss.ntotal in *; lia].
  simpl. rewrite zip_fst_snd.
  set (sorted := merge_sort Faiss.closer (Faiss.scored (index st) q)).
  set (n := Z.to_nat (Z.min k (Faiss.ntotal (index st)))).
  destruct (collect_entries st (take n sorted)) as (rs & Hrs & Hall).
  { eapply Forall_of_sublist; [apply sublist_take|]. unfold sorted.
    rewrite merge_sort_Permutation.
    eapply Forall_impl; [apply scored_labels|].
    intros h Hh. simpl in Hh. unfold Faiss.ntotal in Hh. lia. }
  exists (take n sorted), (drop n sorted), rs.
  split; [rewrite take_drop; apply merge_sort_Permutation|].
  split; [done|]. split; [done|]. split.
  - unfold sorted, n. rewrite best_length. unfold Faiss.ntotal in *. lia.
  - intros h r Hh Hr.
    apply (StronglySorted_app_1_elem_of Faiss.closer (take n sorted) (drop n sorted));
      [|done|done].
    rewrite take_drop. apply StronglySorted_merge_sort; apply _.
Qed.

End StoreMore.

(** One more row of width one added to the two-row index. *)
Lemma add_documents_keeps_invariants_witness :
  well_formed (snd (VectorStore.add_documents small_index [[7]] ["new"] [∅]))
  /\ Faiss.ntotal
       (VectorStore.index (snd (VectorStore.add_documents small_index [[7]] ["new"] [∅])))
     = 3.
Proof.
  destruct (add_documents_keeps_invariants small_index [[7]] ["new"] [∅])
    as (_ & Hwf & _ & Hok).
  - repeat constructor.
  - split; reflexivity.
  - reflexivity.
  - reflexivity.
  - split; [exact Hwf|]. destruct (Hok eq_refl) as (Hn & _). rewrite Hn. reflexivity.
Defined.

(** A row of width two offered to the index of width one. *)
Lemma add_documents_wrong_width_fails_witness :
  exists e, VectorStore.add_documents small_index [[1; 2]] ["wide"] [∅]
            = (Raise e, small_index).
Proof.
  destruct (add_documents_wrong_width_fails small_index [[1; 2]] ["wide"] [∅])
    as (e & He & _).
  - discriminate.
  - discriminate.
  - intros Hall. apply Forall_cons in Hall as [Hhead _]. vm_compute in Hhead.
    discriminate Hhead.
  - exists e. exact He.
Defined.

(** The nearest of the two rows to the query [[3]]. *)
Lemma search_returns_nearest_witness :
  exists hits rs,
    VectorStore.search small_index [3] 1 = Ok rs
    /\ Forall2 (entry_of small_index) hits rs
    /\ Z.of_nat (length hits) = 1.
Proof.
  destruct (search_returns_nearest small_index [3] 1)
    as (hits & rest & rs & _ & Hrs & Hall & Hlen & _).
  - split; reflexivity.
  - reflexivity.
  - lia.
  - exists hits, rs. split; [exact Hrs|]. split; [exact Hall|].
    rewrite Hlen. reflexivity.
Defined.

(* ===================================================================== *)
(** * Building the index                                                  *)
(* ===================================================================== *)

Section BuildFacts.
Context `{Scalar}.
Variable str_of_doc : Pipeline.Document -> string.
Variable embed_batch : list string -> Res (list (list F32)).

(** X9.  A build indexes every chunk.  With at least one document, on a
    sound store, when chunking with the default window returns [chunks]
    and the embedding service returns one vector of the index's width
    per chunk text: the build returns, the texts and metadata of the
    chunks are appended to the store in chunk order, the index grows by
    the number of chunks, the store stays sound, the embedding service
    was asked once, for all chunk texts in order, and the saved snapshot
    loads back as the store the build left. *)
Theorem build_indexes_every_chunk (documents : list Pipeline.Document)
        (st : VectorStore.t) (disk : gmap string VectorStore.File)
        (chunks : list Pipeline.Chunk) (embeddings : list (list F32)) :
  documents <> [] -> rows_fit st -> well_formed st ->
  Pipeline._chunk_documents str_of_doc documents 500 50 = Ok chunks ->
  embed_batch (map Pipeline.text chunks) = Ok embeddings ->
  length embeddings = length chunks ->
  Forall (fun row => Z.of_nat (length row) = Faiss.d (VectorStore.index st))
         embeddings ->
  let out := Build._build_vector_store str_of_doc embed_batch documents st disk in
  Build.outcome out = Ok tt
  /\ VectorStore.documents (Build.store_after out)
     = VectorStore.documents st ++ map Pipeline.text chunks
  /\ VectorStore.metadata (Build.store_after out)
     = VectorStore.metadata st ++ map Pipeline.metadata chunks
  /\ Faiss.ntotal (VectorStore.index (Build.store_after out))
     = Faiss.ntotal (VectorStore.index st) + Z.of_nat (length chunks)
  /\ well_formed (Build.store_after out) /\ rows_fit (Build.store_after out)
  /\ Build.batches out = [map Pipeline.text chunks]
  /\ forall dim,
       VectorStore.load (VectorStore.init dim (VectorStore.store_path st))
                        (Build.disk_after out)
       = (true, Build.store_after out).
Proof.
  intros Hne Hfit Hwf Hchunks Hembed Hlen Hwidth out.
  pose proof (add_documents_invariants st embeddings (map Pipeline.text chunks)
                (map Pipeline.metadata chunks) Hfit Hwf) as Hinv.
  rewrite !length_map in Hinv. specialize (Hinv Hlen eq_refl).
  destruct Hinv as (Hfit' & Hwf' & _ & Hok).
  pose proof (add_documents_succeeds st embeddings (map Pipeline.text chunks)
                (map Pipeline.metadata chunks) Hwidth) as Hadd.
  destruct (Hok Hadd) as (Hn & Hdocs & Hmeta).
  assert (Hout : out = Build.mkOutcome (Ok tt)
                   (snd (VectorStore.add_documents st embeddings
                           (map Pipeline.text chunks) (map Pipeline.metadata chunks)))
                   (VectorStore.save
                      (snd (VectorStore.add_documents st embeddings
                              (map Pipeline.text chunks)
                              (map Pipeline.metadata chunks))) disk)
                   [map Pipeline.text chunks]).
  { unfold out, Build._build_vector_store.
    destruct documents as [|d ds]; [done|].
    unfold Pipeline.default_chunk_size, Pipeline.default_overlap.
    rewrite Hchunks. cbv zeta. rewrite Hembed.
    destruct (VectorStore.add_documents _ _ _ _) as [[[]|e] st']; [done|done]. }
  rewrite Hout. cbn [Build.outcome Build.store_after Build.disk_after Build.batches].
  split; [done|]. split; [done|]. split; [done|].
  split; [rewrite Hn; lia|]. split; [done|]. split; [done|]. split; [done|].
  intros dim. apply load_after_save. cbn [VectorStore.store_path VectorStore.init].
  unfold VectorStore.add_documents.
  destruct embeddings, (map Pipeline.text chunks); try done.
  destruct (Faiss.np_array _); [|done]. by destruct (Faiss.add _ _).
Qed.

(** X10.  [initialize] prefers the snapshot.  When the disk holds what a
    store with the configured path saved, [initialize] ends with exactly
    that store, asks nothing of the embedding service and leaves the
    disk as it is, whatever the documents are.  When the index file is
    missing, it is the build on a new empty store; and with no documents
    either, that build does nothing: the store is empty and nothing is
    written. *)
Theorem initialize_prefers_snapshot (dim : Z) (path : string)
        (documents : list Pipeline.Document)
        (disk : gmap string VectorStore.File) (saved : VectorStore.t) :
  (VectorStore.store_path saved = path ->
   let out := Build.initialize str_of_doc embed_batch dim path documents
                (VectorStore.save saved disk) in
   Build.outcome out = Ok tt /\ Build.store_after out = saved
   /\ Build.batches out = [] /\ Build.disk_after out = VectorStore.save saved disk)
  /\ (disk !! VectorStore.index_path (VectorStore.init dim path) = None ->
      Build.initialize str_of_doc embed_batch dim path documents disk
      = Build._build_vector_store str_of_doc embed_batch documents
          (VectorStore.init dim path) disk)
  /\ (disk !! VectorStore.index_path (VectorStore.init dim path) = None ->
      documents = [] ->
      Build.initialize str_of_doc embed_batch dim path documents disk
      = Build.mkOutcome (Ok tt) (VectorStore.init dim path) disk []).
Proof.
  split; [|split].
  - intros Hp out. unfold out, Build.initialize.
    rewrite load_after_save by (by rewrite Hp). done.
  - intros Hnone. unfold Build.initialize.
    rewrite load_missing_file by (by left). done.
  - intros Hnone ->. unfold Build.initialize.
    rewrite load_missing_file by (by left). done.
Qed.
End BuildFacts.

(** One short document built into an empty store of width one. *)
Lemma build_indexes_every_chunk_witness :
  let out := Build._build_vector_store (fun _ => "") unit_embedder
               [doc_of_text "hello"] (VectorStore.init 1 "store") ∅ in
  Build.outcome out = Ok tt
  /\ VectorStore.documents (Build.store_after out) = ["hello"]
  /\ Build.batches out = [["hello"]].
Proof.
  destruct (build_indexes_every_chunk (fun _ => "") unit_embedder
              [doc_of_text "hello"] (VectorStore.init 1 "store") ∅
              (match Pipeline._chunk_documents (fun _ => "")
                       [doc_of_text "hello"] 500 50 with
               | Ok cs => cs
               | Raise _ => []
               end)
              [[1]])
    as (Hout & Hdocs & _ & _ & _ & _ & Hbatches & _).
  - discriminate.
  - constructor.
  - split; reflexivity.
  - vm_compute. reflexivity.
  - vm_compute. reflexivity.
  - vm_compute. reflexivity.
  - repeat constructor.
  - split; [exact Hout|]. split; [exact Hdocs|exact Hbatches].
Defined.

(** The snapshot of the two-row index wins over any documents. *)
Lemma initialize_prefers_snapshot_witness :
  Build.store_after
    (Build.initialize (fun _ => "") unit_embedder 1 "./data/vector_store"
       [doc_of_text "hello"] (VectorStore.save small_index ∅))
  = small_index.
Proof.
  destruct (initialize_prefers_snapshot (fun _ => "") unit_embedder 1
              "./data/vector_store" [doc_of_text "hello"] ∅ small_index)
    as (Hsnap & _).
  destruct (Hsnap eq_refl) as (_ & Hstore & _). exact Hstore.
Defined.

(* ===================================================================== *)
(** * Order intents are answered without the model                        *)
(* ===================================================================== *)

Ltac bag_message :=
  unfold dict; cbn [list_to_map foldr fst snd];
  repeat (rewrite lookup_insert_ne by done);
  rewrite lookup_insert_eq; reflexivity.

Ltac bag_lookup :=
  unfold dict; cbn [list_to_map foldr fst snd];
  repeat first [ rewrite lookup_insert_eq | rewrite lookup_insert_ne by done ];
  first [ reflexivity | apply lookup_empty ].

Ltac direct_leaf :=
  eexists _, _, _; split; [reflexivity|]; split; [bag_message|]; split; reflexivity.

Section Direct.
Context `{Scalar} `{PyRuntime}.
Import Orchestrator.

Lemma get_order_status_direct oid : answers_directly (Tools.get_order_status oid).
Proof.
  intros w. unfold Tools.get_order_status, bind, get_data_store, ret.
  destruct (DataStore.get_order _ _) as [o|]; [|direct_leaf].
  destruct (given (DataStore.expected_delivery o)),
           (given (DataStore.tracking_number o)); direct_leaf.
Qed.

Lemma create_complaint_direct clk oid i d :
  answers_directly (Tools.create_complaint clk oid i d).
Proof.
  intros w. unfold Tools.create_complaint, Tools.store_create_complaint,
    bind, get_data_store, set_data_store, ret.
  destruct (DataStore.get_order _ _) as [o|]; direct_leaf.
Qed.

Lemma get_refund_status_direct oid : answers_directly (Tools.get_refund_status oid).
Proof.
  intros w. unfold Tools.get_refund_status, bind, get_data_store, ret.
  destruct (DataStore.get_refund _ _) as [r|].
  - direct_leaf.
  - destruct (DataStore.get_order _ _); direct_leaf.
Qed.

Lemma initiate_refund_direct clk oid why :
  answers_directly (Tools.initiate_refund clk oid why).
Proof.
  intros w. unfold Tools.initiate_refund, Tools.store_create_refund,
    bind, get_data_store, set_data_store, ret.
  destruct (DataStore.get_order _ _) as [o|]; [|direct_leaf].
  destruct (DataStore.get_refund _ _); direct_leaf.
Qed.

Lemma get_delivery_status_direct oid :
  answers_directly (Tools.get_delivery_status oid).
Proof.
  intros w. unfold Tools.get_delivery_status, bind, get_data_store, ret.
  destruct (DataStore.get_delivery_status _ _) as [dl|]; [direct_leaf|].
  destruct (DataStore.get_order _ _); direct_leaf.
Qed.

Lemma clarification_direct what : answers_directly (ret (clarification what)).
Proof. intros w. unfold ret, clarification. direct_leaf. Qed.

Lemma route_direct (ag : t) (i m sid : string) :
  i ∈ ["order_status"; "complaint"; "refund"; "delivery"] ->
  answers_directly (_route_to_handler ag i m sid).
Proof.
  intros Hi. apply list_elem_of_In in Hi. simpl in Hi.
  destruct Hi as [<-|[<-|[<-|[<-|[]]]]];
    [ change (answers_directly (_handle_order_status ag m))
    | change (answers_directly (_handle_complaint ag m))
    | change (answers_directly (_handle_refund ag m))
    | change (answers_directly (_handle_delivery ag m)) ].
  - unfold _handle_order_status.
    destruct (String.eqb _ ""); [apply clarification_direct|].
    apply get_order_status_direct.
  - unfold _handle_complaint.
    destruct (String.eqb _ ""); [apply clarification_direct|].
    apply create_complaint_direct.
  - unfold _handle_refund.
    destruct (String.eqb _ ""); [apply clarification_direct|].
    destruct (any_in _ _); [apply initiate_refund_direct|].
    apply get_refund_status_direct.
  - unfold _handle_delivery.
    destruct (String.eqb _ ""); [apply clarification_direct|].
    apply get_delivery_status_direct.
Qed.

(** X14.  The four order intents never reach a model or the index.  For
    an intent among order_status, complaint, refund and delivery,
    routing and composition return, the handler's bag carries a string
    message and that string is the response, nothing was asked of the
    language model, the embedding service or the graph store, and no
    session log changed: whatever the message, the store and the
    services are. *)
Theorem order_intents_answer_directly (ag : t) (i m sid : string) (w : World) :
  i ∈ ["order_status"; "complaint"; "refund"; "delivery"] ->
  exists d s w',
    route_and_compose ag i m sid w = (Ok (i, d, VStr s), w')
    /\ d !! "message" = Some (VStr s)
    /\ calls w' = calls w
    /\ conversations w' = conversations w.
Proof.
  intros Hi.
  destruct (route_direct ag i m sid Hi w) as (d & s & w' & Hroute & Hmsg & Hc & Hl).
  exists d, s, w'. split; [|done].
  unfold route_and_compose, bind. rewrite Hroute.
  by rewrite (generate_message_verbatim _ _ _ _ _ _ _ Hmsg).
Qed.
End Direct.

(** A refund request against the empty store. *)
Lemma order_intents_answer_directly_witness :
  exists d s w',
    Orchestrator.route_and_compose (offline_agent working_rag) "refund"
      "I want a refund for ORD-1234" "s1" fresh_world
    = (Ok ("refund", d, VStr s), w')
    /\ calls w' = [].
Proof.
  destruct (order_intents_answer_directly (offline_agent working_rag) "refund"
              "I want a refund for ORD-1234" "s1" fresh_world)
    as (d & s & w' & Hrun & _ & Hcalls & _).
  - apply list_elem_of_In. simpl. tauto.
  - exists d, s, w'. split; [exact Hrun|exact Hcalls].
Defined.

(* ===================================================================== *)
(** * More on one turn: sessions, intents, the record of the turn         *)
(* ===================================================================== *)

Lemma same_log_of_refl sid w : same_log_of sid w w.
Proof. done. Qed.

Lemma same_log_of_trans sid w1 w2 w3 :
  same_log_of sid w1 w2 -> same_log_of sid w2 w3 -> same_log_of sid w1 w3.
Proof. unfold same_log_of. congruence. Qed.

Lemma same_logs_same_log_of {A} sid (m : M A) :
  preserves same_logs m -> preserves (same_log_of sid) m.
Proof. intros Hm w. unfold same_log_of. by rewrite (Hm w). Qed.

Section TurnMore.
Context `{Scalar} `{PyRuntime}.
Import Orchestrator.

Lemma add_to_history_other ag sid sid' r c :
  sid' <> sid -> preserves (same_log_of sid') (_add_to_history ag sid r c).
Proof. intros Hne w. unfold same_log_of. simpl. by rewrite lookup_insert_ne. Qed.

(** X11.  Sessions do not leak into each other: whatever a turn of one
    session does, and whether it ends well or in the apology, the log of
    every other session is exactly what it was. *)
Theorem other_sessions_untouched (ag : t) (m sid sid' : string) (w : World) :
  sid' <> sid ->
  conversations (snd (process_message ag m sid w)) !! sid'
  = conversations w !! sid'.
Proof.
  intros Hne. revert w.
  change (preserves (same_log_of sid') (process_message ag m sid)).
  unfold process_message.
  apply (preserves_try _ (same_log_of_trans sid')).
  - apply (preserves_bind _ (same_log_of_trans sid'));
      [by apply add_to_history_other|intros _].
    apply (preserves_bind _ (same_log_of_trans sid'));
      [apply same_logs_same_log_of, answer_turn_same_logs|intros [[i d] txt]].
    apply (preserves_bind _ (same_log_of_trans sid'));
      [by apply add_to_history_other|intros _].
    apply (preserves_lift _ (same_log_of_refl sid')).
  - intros e. apply (preserves_lift _ (same_log_of_refl sid')).
Qed.

Lemma classify_valid (ic : IntentClassifier.t) (m : string) (w : World) :
  exists i w', IntentClassifier.classify ic m w = (Ok i, w')
               /\ i ∈ LLMService.valid_intents.
Proof.
  unfold IntentClassifier.classify, LLMService.classify_intent.
  assert (Hsimple : LLMService._simple_intent_classification m
                    ∈ LLMService.valid_intents).
  { unfold LLMService._simple_intent_classification, LLMService.valid_intents.
    repeat (destruct (any_in _ (lower m));
            [apply list_elem_of_In; simpl; tauto|]).
    apply list_elem_of_In; simpl; tauto. }
  destruct (LLMService.client _); [|by eexists _, _].
  unfold try_except, bind.
  destruct (LLMService.generate_response _ _ _ _ _ w) as [[r|e] w'];
    [|by eexists _, _].
  destruct (existsb _ _) eqn:Hex.
  - eexists _, _. split; [done|].
    apply existsb_exists in Hex as (x & Hx%list_elem_of_In & Heq%String.eqb_eq).
    by rewrite Heq.
  - eexists _, _. split; [done|]. apply list_elem_of_In. simpl. tauto.
Qed.

Lemma route_and_compose_intent ag i m sid w i' d txt w' :
  route_and_compose ag i m sid w = (Ok (i', d, txt), w') -> i' = i.
Proof.
  unfold route_and_compose, bind, ret.
  destruct (_route_to_handler ag i m sid w) as [[d0|e] w1]; [|done].
  destruct (_generate_response ag i m d0 sid w1) as [[t0|e] w2]; [|done].
  by intros [= <- _ _ _].
Qed.

(** The bags of the retrieval handlers carry no message. *)
Lemma handle_product_info_message ag m w d w' :
  _handle_product_info ag m w = (Ok d, w') -> d !! "message" = None.
Proof.
  unfold _handle_product_info, bind, ret.
  destruct (RAGPipeline.retrieve _ _ _ w) as [[rs|e] w1]; [|done].
  intros [= <- _]. bag_lookup.
Qed.

Lemma handle_general_message ag m w d w' :
  _handle_general ag m w = (Ok d, w') -> d !! "message" = None.
Proof.
  unfold _handle_general, bind, ret.
  destruct (RAGPipeline.retrieve _ _ _ w) as [[rs|e] w1]; [|done].
  intros [= <- _]. bag_lookup.
Qed.

Lemma handle_comparison_message ag m w d w' :
  _handle_comparison ag m w = (Ok d, w') -> d !! "message" = None.
Proof.
  unfold _handle_comparison.
  destruct (_ <? 2); [apply handle_product_info_message|].
  unfold bind, log_call, lift, ret.
  destruct (compare_products ag _) as [comp|e]; [|done].
  intros [= <- _]. bag_lookup.
Qed.

(** Whatever the handler, the message of its bag is a string when there
    is one. *)
Lemma route_message ag i m sid w d w' :
  _route_to_handler ag i m sid w = (Ok d, w') ->
  d !! "message" = None \/ exists s, d !! "message" = Some (VStr s).
Proof.
  intros Hroute.
  destruct (decide (i ∈ ["order_status"; "complaint"; "refund"; "delivery"]))
    as [Hi|Hi].
  { destruct (route_direct ag i m sid Hi w) as (bag & s & w0 & Hrun & Hmsg & _).
    rewrite Hroute in Hrun. injection Hrun as <- _. right. by exists s. }
  left. unfold _route_to_handler in Hroute.
  destruct (String.eqb_spec i "product_info");
    [by apply handle_product_info_message in Hroute|].
  destruct (String.eqb_spec i "order_status") as [->|_];
    [destruct Hi; apply list_elem_of_In; simpl; tauto|].
  destruct (String.eqb_spec i "complaint") as [->|_];
    [destruct Hi; apply list_elem_of_In; simpl; tauto|].
  destruct (String.eqb_spec i "refund") as [->|_];
    [destruct Hi; apply list_elem_of_In; simpl; tauto|].
  destruct (String.eqb_spec i "delivery") as [->|_];
    [destruct Hi; apply list_elem_of_In; simpl; tauto|].
  destruct (String.eqb_spec i "comparison");
    [by apply handle_comparison_message in Hroute
    |by apply handle_general_message in Hroute].
Qed.

(** With such a bag the composed reply is a string. *)
Lemma generate_text ag i m (d : Bag) sid w txt w' :
  d !! "message" = None \/ (exists s, d !! "message" = Some (VStr s)) ->
  _generate_response ag i m d sid w = (Ok txt, w') -> exists s, txt = VStr s.
Proof.
  intros [Hm | [s Hm]]; unfold _generate_response; rewrite Hm;
    [|intros [= <- _]; by eexists].
  unfold bind at 1.
  match goal with
  | |- context [match ?step w with _ => _ end] =>
      destruct (step w) as [[parts|e] w1]; [|done]
  end.
  destruct (d !! "success") as [[| [|] | | | | |]|];
    try (unfold ret; intros [= <- _]; by eexists);
    (unfold bind at 1; unfold _get_recent_history at 1; cbv beta iota zeta;
     unfold bind;
     match goal with
     | |- context [LLMService.generate_with_history ?svc ?ms ?mt ?w0] =>
         destruct (generate_with_history_returns svc ms mt w0) as (r & cs & ->)
     end;
     unfold ret; intros [= <- _]; by eexists).
Qed.

Lemma answer_turn_text ag m sid w i d txt w2 :
  answer_turn ag m sid w = (Ok (i, d, txt), w2) -> exists s, txt = VStr s.
Proof.
  unfold answer_turn, route_and_compose, bind, ret.
  destruct (IntentClassifier.classify _ _ w) as [[i0|e] w0]; [|done].
  destruct (_route_to_handler ag i0 m sid w0) as [[d0|e] w1] eqn:Hroute; [|done].
  destruct (_generate_response ag i0 m d0 sid w1) as [[t0|e] w3] eqn:Hgen; [|done].
  intros [= _ _ <- _]. eapply generate_text; [|exact Hgen].
  by eapply route_message.
Qed.

(** The outcome of a turn, by the outcome of what lies between the two
    appends. *)
Lemma process_message_cases (ag : t) (m sid : string) (w : World) :
  let w1 := snd (_add_to_history ag sid "user" (VStr m) w) in
  (exists i d s w2,
      answer_turn ag m sid w1 = (Ok (i, d, VStr s), w2)
      /\ i ∈ LLMService.valid_intents
      /\ process_message ag m sid w
         = (Ok (answered (VStr s) i d),
            snd (_add_to_history ag sid "assistant" (VStr s) w2)))
  \/ (exists e w2,
        answer_turn ag m sid w1 = (Raise e, w2)
        /\ process_message ag m sid w = (Ok (apology_response e), w2)).
Proof.
  intros w1.
  destruct (answer_turn ag m sid w1) as [[[[i d] txt]|e] w2] eqn:Hturn.
  - left. destruct (answer_turn_text _ _ _ _ _ _ _ _ Hturn) as [s ->].
    exists i, d, s, w2. split; [done|]. split.
    + unfold answer_turn, bind in Hturn.
      destruct (classify_valid (intent_classifier ag) m w1) as (i0 & w0 & Hc & Hv).
      rewrite Hc in Hturn. apply route_and_compose_intent in Hturn. by subst.
    + by apply process_message_ok.
  - right. exists e, w2. split; [done|].
    unfold process_message, try_except, bind.
    change (_add_to_history ag sid "user" (VStr m) w) with (Ok tt, w1).
    cbv beta iota. by rewrite Hturn.
Qed.

(** The response object of a string reply: the reply with the intent
    given, or the apology when the sources or the metadata are refused. *)
Lemma answered_cases (s i : string) (d : Bag) :
  (exists srcs meta,
      new_ChatResponse (VStr s) i (default (VList []) (d !! "sources"))
                       (default (VDict []) (d !! "metadata"))
      = Ok (mkChatResponse (VStr s) i srcs meta)
      /\ answered (VStr s) i d = mkChatResponse (VStr s) i srcs meta)
  \/ (exists e,
        new_ChatResponse (VStr s) i (default (VList []) (d !! "sources"))
                         (default (VDict []) (d !! "metadata"))
        = Raise e
        /\ answered (VStr s) i d = apology_response e).
Proof.
  unfold answered, new_ChatResponse. cbn [validate_str res_bind].
  destruct (validate_sources _) as [srcs|e]; [|right; by exists e].
  cbn [res_bind].
  destruct (validate_metadata _) as [meta|e]; [|right; by exists e].
  left. by exists srcs, meta.
Qed.

Lemma error_is_no_intent : "error" ∉ LLMService.valid_intents.
Proof.
  intros Hin. apply list_elem_of_In in Hin. simpl in Hin.
  repeat (destruct Hin as [Hin|Hin]; [discriminate|]). done.
Qed.

(** X12.  [process_message] never raises, and the intent it reports is
    one of eight names: "error" or one of the seven intents of the
    classifier, whatever the remote model answered.  With "error" the
    response is the apology. *)
Theorem reported_intent_is_closed (ag : t) (m sid : string) (w : World) :
  exists resp w',
    process_message ag m sid w = (Ok resp, w')
    /\ (intent resp = "error" \/ intent resp ∈ LLMService.valid_intents)
    /\ (intent resp = "error" -> response resp = VStr apology).
Proof.
  destruct (process_message_cases ag m sid w)
    as [(i & d & s & w2 & _ & Hv & ->) | (e & w2 & _ & ->)].
  - eexists _, _. split; [done|].
    destruct (answered_cases s i d) as [(srcs & meta & _ & ->) | (e & _ & ->)].
    + split; [by right|]. simpl. intros ->. by destruct error_is_no_intent.
    + split; [by left|done].
  - eexists _, _. split; [done|]. split; [by left|done].
Qed.

Lemma length_keep_last {A} (n : nat) (l : list A) : (length (keep_last n l) <= n)%nat.
Proof. unfold keep_last. rewrite length_drop. lia. Qed.

Lemma history_after_turn (ag : t) (m sid : string) (w w2 : World) r :
  answer_turn ag m sid (snd (_add_to_history ag sid "user" (VStr m) w)) = (r, w2) ->
  history_of w2 sid
  = appended (max_history ag) (history_of w sid) (mkMessage "user" (VStr m)).
Proof.
  intros Hturn.
  pose proof (answer_turn_same_logs ag m sid
                (snd (_add_to_history ag sid "user" (VStr m) w))) as Hs.
  rewrite Hturn in Hs. unfold same_logs in Hs. simpl in Hs.
  unfold history_of at 1. rewrite Hs. by rewrite lookup_insert_eq.
Qed.

(** X13.  What a turn leaves in the session log.  With a [max_history]
    of at least one, after [process_message] the log of the session
    holds at most [2 * max_history] entries; and unless the turn ended
    in the apology, its last two entries are the user's message and the
    assistant's reply that was returned, in this order. *)
Theorem turn_is_recorded (ag : t) (m sid : string) (w w' : World)
        (resp : ChatResponse) :
  1 <= max_history ag ->
  process_message ag m sid w = (Ok resp, w') ->
  Z.of_nat (length (history_of w' sid)) <= 2 * max_history ag
  /\ (intent resp <> "error" ->
      exists older,
        history_of w' sid
        = older ++ [mkMessage "user" (VStr m);
                    mkMessage "assistant" (response resp)]).
Proof.
  intros Hmax Hpm.
  destruct (process_message_cases ag m sid w)
    as [(i & d & s & w2 & Hturn & Hv & Heq) | (e & w2 & Hturn & Heq)];
    rewrite Heq in Hpm;
    (assert (Hw : w' = snd (process_message ag m sid w)) by (by rewrite Heq, Hpm));
    (assert (Hr : Ok resp = fst (process_message ag m sid w)) by (by rewrite Heq, Hpm));
    rewrite Heq in Hw, Hr; cbn [fst snd] in Hw, Hr; injection Hr as Hr; subst resp w'.
  - apply history_after_turn in Hturn.
    assert (Hlog : history_of (snd (_add_to_history ag sid "assistant" (VStr s) w2)) sid
                   = keep_last (Z.to_nat (2 * max_history ag))
                       (history_of w sid
                        ++ [mkMessage "user" (VStr m); mkMessage "assistant" (VStr s)])).
    { rewrite history_after_add, Hturn.
      rewrite !appended_keep_last by lia. rewrite keep_last_snoc by lia.
      by rewrite <- app_assoc. }
    rewrite Hlog. split.
    + pose proof (length_keep_last (Z.to_nat (2 * max_history ag))
                    (history_of w sid ++ [mkMessage "user" (VStr m);
                                          mkMessage "assistant" (VStr s)])). lia.
    + destruct (answered_cases s i d) as [(srcs & meta & _ & ->) | (e & _ & ->)];
        [|done].
      intros _. cbn [response]. unfold keep_last. rewrite length_app. simpl length.
      rewrite drop_app_le by lia. by eexists.
  - split; [|done]. apply history_after_turn in Hturn. rewrite Hturn.
    rewrite appended_keep_last by lia.
    pose proof (length_keep_last (Z.to_nat (2 * max_history ag))
                  (history_of w sid ++ [mkMessage "user" (VStr m)])). lia.
Qed.

(** C9.  With a [max_history] that is not negative.  When classification,
    routing or composition raises after the user turn was recorded,
    [process_message] returns the apology with intent "error" and the
    detail in the metadata, no assistant turn is appended, every session
    log is what it was right after the user turn was appended, and this
    session's log ends with that user message.  One step comes later:
    the response object is built after the assistant turn was appended,
    and when its validation raises, the apology is returned all the same
    while the session's log keeps the assistant turn as its last entry.
    These are the only two ways to a response with intent "error". *)
Theorem failed_turn_leaves_user_last (ag : t) (message session_id : string)
        (w : World) :
  0 <= max_history ag ->
  let w1 := snd (_add_to_history ag session_id "user" (VStr message) w) in
  (forall e w2,
      answer_turn ag message session_id w1 = (Raise e, w2) ->
      process_message ag message session_id w = (Ok (apology_response e), w2)
      /\ conversations w2 = conversations w1
      /\ history_of w2 session_id
         = appended (max_history ag) (history_of w session_id)
                    (mkMessage "user" (VStr message))
      /\ last (history_of w2 session_id) = Some (mkMessage "user" (VStr message)))
  /\ (forall i d txt w2 e,
        answer_turn ag message session_id w1 = (Ok (i, d, txt), w2) ->
        new_ChatResponse txt i (default (VList []) (d !! "sources"))
                         (default (VDict []) (d !! "metadata")) = Raise e ->
        let w3 := snd (_add_to_history ag session_id "assistant" txt w2) in
        process_message ag message session_id w = (Ok (apology_response e), w3)
        /\ last (history_of w3 session_id) = Some (mkMessage "assistant" txt))
  /\ (forall resp w',
        process_message ag message session_id w = (Ok resp, w') ->
        intent resp = "error" ->
        (exists e,
            answer_turn ag message session_id w1 = (Raise e, w')
            /\ resp = apology_response e)
        \/ (exists i d txt w2 e,
              answer_turn ag message session_id w1 = (Ok (i, d, txt), w2)
              /\ new_ChatResponse txt i (default (VList []) (d !! "sources"))
                                  (default (VDict []) (d !! "metadata")) = Raise e
              /\ resp = apology_response e
              /\ w' = snd (_add_to_history ag session_id "assistant" txt w2))).
Proof.
  intros Hmax w1. split; [|split].
  - intros e w2 Hturn.
    assert (Hhist : history_of w2 session_id
                    = appended (max_history ag) (history_of w session_id)
                               (mkMessage "user" (VStr message)))
      by (by eapply history_after_turn).
    split; [|split; [|split; [done|]]].
    + destruct (process_message_cases ag message session_id w)
        as [(i & d & s & w0 & Hok & _) | (e' & w0 & Hraise & Heq)].
      * fold w1 in Hok. congruence.
      * fold w1 in Hraise. rewrite Hturn in Hraise. by injection Hraise as <- <-.
    + pose proof (answer_turn_same_logs ag message session_id w1) as Hs.
      by rewrite Hturn in Hs.
    + rewrite Hhist. by apply last_appended.
  - intros i d txt w2 e Hturn Hbad w3. split.
    + rewrite (process_message_ok _ _ _ _ _ _ _ _ Hturn).
      unfold answered. by rewrite Hbad.
    + unfold w3. rewrite history_after_add. by apply last_appended.
  - intros resp w' Hpm Herr.
    destruct (process_message_cases ag message session_id w)
      as [(i & d & s & w2 & Hturn & Hv & Heq) | (e & w2 & Hturn & Heq)];
      rewrite Heq in Hpm; injection Hpm as <- <-.
    + destruct (answered_cases s i d) as [(srcs & meta & _ & Hans) | (e & Hbad & Hans)].
      * rewrite Hans in Herr. simpl in Herr. subst i. by destruct error_is_no_intent.
      * right. by exists i, d, (VStr s), w2, e.
    + left. by exists e.
Qed.

End TurnMore.

(** A turn of session [s1] seen from session [s2]. *)
Lemma other_sessions_untouched_witness :
  conversations
    (snd (Orchestrator.process_message (offline_agent working_rag) "hello there"
            "s1" fresh_world)) !! "s2"
  = conversations fresh_world !! "s2".
Proof.
  apply (other_sessions_untouched (offline_agent working_rag) "hello there" "s1" "s2"
           fresh_world).
  discriminate.
Defined.

(** The first turn of a session with the offline agent. *)
Lemma turn_is_recorded_witness :
  Z.of_nat
    (length (Orchestrator.history_of
               (snd (Orchestrator.process_message (offline_agent working_rag)
                       where_is_my_order "s1" fresh_world)) "s1"))
  <= 2 * 10.
Proof.
  destruct (turn_is_recorded (offline_agent working_rag) where_is_my_order "s1"
              fresh_world
              (snd (Orchestrator.process_message (offline_agent working_rag)
                      where_is_my_order "s1" fresh_world))
              (match fst (Orchestrator.process_message (offline_agent working_rag)
                            where_is_my_order "s1" fresh_world) with
               | Ok r => r
               | Raise _ => mkChatResponse VNone "" VNone VNone
               end))
    as (Hlen & _).
  - simpl. lia.
  - vm_compute. reflexivity.
  - exact Hlen.
Defined.

(** The model fails on every request and so does the embedding service:
    the turn is classified as general, retrieval raises, and the log
    keeps the user message alone. *)
Lemma failed_turn_leaves_user_last_witness :
  Orchestrator.process_message (flaky_agent broken_rag) "hello there" "s1" fresh_world
  = (Ok (apology_response (ExternalError "embedding failed")),
     mkWorld {[ "s1" := [mkMessage "user" (VStr "hello there")] ]} empty_store
             [ChatCompletion (classification_request "hello there");
              EmbedText "hello there"])
  /\ last (Orchestrator.history_of
             (mkWorld {[ "s1" := [mkMessage "user" (VStr "hello there")] ]}
                      empty_store
                      [ChatCompletion (classification_request "hello there");
                       EmbedText "hello there"]) "s1")
     = Some (mkMessage "user" (VStr "hello there")).
Proof.
  destruct (failed_turn_leaves_user_last (flaky_agent broken_rag) "hello there" "s1"
              fresh_world) as (Hraised & _); [simpl; lia|].
  destruct (Hraised (ExternalError "embedding failed")
              (mkWorld {[ "s1" := [mkMessage "user" (VStr "hello there")] ]}
                       empty_store
                       [ChatCompletion (classification_request "hello there");
                        EmbedText "hello there"]))
    as (Hresp & _ & _ & Hlast); [vm_compute; reflexivity|].
  split; [exact Hresp|exact Hlast].
Defined.

(** Not every failing step leaves the user message last.  With no model
    client and an index entry whose title is null, the turn is composed
    and the assistant turn appended; the response object is then refused
    for its sources, the apology is returned with intent "error", and the
    log of the session ends with the assistant turn. *)
Lemma failed_validation_keeps_assistant_turn :
  fst (Orchestrator.process_message (offline_agent untitled_rag) "hello there" "s1"
         fresh_world)
  = Ok (apology_response ValidationError)
  /\ Orchestrator.history_of
       (snd (Orchestrator.process_message (offline_agent untitled_rag) "hello there"
               "s1" fresh_world)) "s1"
     = [mkMessage "user" (VStr "hello there");
        mkMessage "assistant"
          (VStr (LLMService._fallback_response (VStr "hello there")))]
  /\ last (Orchestrator.history_of
             (snd (Orchestrator.process_message (offline_agent untitled_rag)
                     "hello there" "s1" fresh_world)) "s1")
     <> Some (mkMessage "user" (VStr "hello there")).
Proof.
  split; [vm_compute; reflexivity|]. split; [vm_compute; reflexivity|].
  vm_compute. discriminate.
Qed.

(* ===================================================================== *)
(** * The data store only grows                                           *)
(* ===================================================================== *)

Lemma store_grows_refl w : store_grows w w.
Proof. unfold store_grows. repeat split; try done; lia. Qed.

Lemma store_grows_trans w1 w2 w3 :
  store_grows w1 w2 -> store_grows w2 w3 -> store_grows w1 w3.
Proof.
  intros (Ho & Hd & Hc & Hr & Hcc & Hrc) (Ho' & Hd' & Hc' & Hr' & Hcc' & Hrc').
  unfold store_grows.
  split; [congruence|]. split; [congruence|].
  split; [by etrans|]. split; [by etrans|]. lia.
Qed.

Lemma only_calls_store_grows {A} (m : M A) :
  preserves only_calls m -> preserves store_grows m.
Proof.
  intros Hm w. destruct (Hm w) as (_ & Hds & _). unfold store_grows.
  rewrite Hds. repeat split; try done; lia.
Qed.

Ltac frame_store := cbv zeta; repeat frame_step store_grows_refl store_grows_trans.

Section StoreGrowth.
Context `{Scalar} `{PyRuntime}.
Import Orchestrator.

Lemma add_to_history_store_grows ag sid r c :
  preserves store_grows (_add_to_history ag sid r c).
Proof. intros w. unfold store_grows. simpl. repeat split; try done; lia. Qed.

Lemma store_create_complaint_grows clk oid i d :
  preserves store_grows (Tools.store_create_complaint clk oid i d).
Proof.
  intros w. unfold store_grows. simpl.
  repeat split; try done; try lia. by apply prefix_app_r.
Qed.

Lemma store_create_refund_grows clk oid amt why :
  preserves store_grows (Tools.store_create_refund clk oid amt why).
Proof.
  intros w. unfold store_grows. simpl.
  repeat split; try done; try lia. by apply prefix_app_r.
Qed.

Lemma generate_only_calls ag i m d sid :
  preserves only_calls (_generate_response ag i m d sid).
Proof.
  unfold _generate_response. frame_calls;
    first [ apply get_recent_history_only_calls
          | apply generate_with_history_only_calls ].
Qed.

Lemma route_store_grows ag i m sid : preserves store_grows (_route_to_handler ag i m sid).
Proof.
  unfold _route_to_handler, _handle_order_status, _handle_complaint,
    _handle_refund, _handle_delivery, _handle_comparison, _handle_general,
    _handle_product_info, Tools.get_order_status, Tools.create_complaint,
    Tools.get_refund_status, Tools.initiate_refund, Tools.get_delivery_status.
  cbv zeta;
    repeat first [ apply only_calls_store_grows, retrieve_only_calls
                 | apply only_calls_store_grows, log_call_only_calls
                 | apply store_create_complaint_grows
                 | apply store_create_refund_grows
                 | frame_step store_grows_refl store_grows_trans ].
Qed.

(** X15.  A turn never loses or rewrites a record.  After
    [process_message], whatever the message and however the turn ends,
    the orders and deliveries of the data store are what they were, the
    complaints and refunds that were there are still there, unchanged
    and in front, and neither counter went down. *)
Theorem records_are_only_added (ag : t) (m sid : string) (w : World) :
  store_grows w (snd (process_message ag m sid w)).
Proof.
  revert w. change (preserves store_grows (process_message ag m sid)).
  unfold process_message, answer_turn, route_and_compose.
  frame_store;
    first [ apply add_to_history_store_grows
          | apply only_calls_store_grows, classify_only_calls
          | apply route_store_grows
          | apply only_calls_store_grows, generate_only_calls ].
Qed.
End StoreGrowth.

(* ===================================================================== *)
(** * Complaints, refunds and the tools that read them                    *)
(* ===================================================================== *)

Lemma find_snoc_none {A} (f : A -> bool) (l : list A) (x : A) :
  find f l = None -> find f (l ++ [x]) = if f x then Some x else None.
Proof.
  induction l as [|y l IH]; simpl; [done|]. destruct (f y); [done|]. exact IH.
Qed.

Lemma find_snoc_some {A} (f : A -> bool) (l : list A) (x y : A) :
  find f l = Some y -> find f (l ++ [x]) = Some y.
Proof.
  induction l as [|z l IH]; simpl; [done|]. destruct (f z); [done|]. exact IH.
Qed.

Lemma to_int_not_nil (n : Z) :
  Z.to_int n <> Decimal.Pos Decimal.Nil /\ Z.to_int n <> Decimal.Neg Decimal.Nil.
Proof.
  destruct n as [|p|p]; simpl; split; try discriminate;
    intros [= Hp]; by apply DecimalPos.Unsigned.to_uint_nonnil in Hp.
Qed.

(** [f"{n}"] tells integers apart. *)
Lemma string_of_Z_inj (a b : Z) : string_of_Z a = string_of_Z b -> a = b.
Proof.
  unfold string_of_Z. intros Heq. apply DecimalZ.to_int_inj.
  destruct (to_int_not_nil a) as [Ha1 Ha2], (to_int_not_nil b) as [Hb1 Hb2].
  pose proof (DecimalString.NilZero.isi _ Ha1 Ha2) as Ha.
  pose proof (DecimalString.NilZero.isi _ Hb1 Hb2) as Hb.
  rewrite Heq in Ha. congruence.
Qed.

Section ToolFacts.
Context `{Scalar} `{PyRuntime}.
Import DataStore.

(** X16.  A complaint can be read back.  For an order the store knows,
    [create_complaint] returns success with the identifier [CMP-n] where
    [n] is the counter plus one, appends exactly one record (that order,
    issue and description, status open, stamped with the clock) and
    moves the counter to [n]; the two stamps are the two readings of the
    clock, in this order.  When no earlier complaint has that
    identifier, [get_complaint_status] of it then returns this record
    and reports it open; an earlier complaint with the same identifier
    stays the one that is found.  The listing of the order's complaints
    counts one more, and the listing of any other order is what it
    was. *)
Theorem complaint_round_trip (clk : Clock) (oid issue description : string)
        (w : World) (o : Order) :
  get_order (data_store w) oid = Some o ->
  let cid := "CMP-" +:+ string_of_Z (complaint_counter (data_store w) + 1) in
  let c := mkComplaint cid oid issue description "open"
                       (now_datetime clk) (now_datetime_again clk) in
  exists bag w',
    Tools.create_complaint clk oid issue description w = (Ok bag, w')
    /\ bag !! "success" = Some (VBool true)
    /\ bag !! "complaint_id" = Some (VStr cid)
    /\ complaints (data_store w') = complaints (data_store w) ++ [c]
    /\ complaint_counter (data_store w') = complaint_counter (data_store w) + 1
    /\ (get_complaint (data_store w) cid = None ->
        exists status_bag,
          Tools.get_complaint_status cid w' = (Ok status_bag, w')
          /\ status_bag !! "success" = Some (VBool true)
          /\ status_bag !! "complaint" = Some (Tools.complaint_to_py c)
          /\ status_bag !! "message"
             = Some (VStr ("Complaint " +:+ cid +:+ " is currently "
                           +:+ "open" +:+ ".")))
    /\ (forall old,
          get_complaint (data_store w) cid = Some old ->
          get_complaint (data_store w') cid = Some old)
    /\ (exists listed listed' n,
          Tools.list_order_complaints oid w = (Ok listed, w)
          /\ Tools.list_order_complaints oid w' = (Ok listed', w')
          /\ listed !! "count" = Some (VInt n)
          /\ listed' !! "count" = Some (VInt (n + 1)))
    /\ (forall other,
          other <> oid ->
          fst (Tools.list_order_complaints other w')
          = fst (Tools.list_order_complaints other w)).
Proof.
  intros Horder cid c.
  unfold Tools.create_complaint, Tools.store_create_complaint, bind,
    get_data_store, set_data_store, ret.
  rewrite Horder. cbn [data_store]. fold cid. fold c.
  eexists _, _. split; [reflexivity|].
  split; [bag_lookup|]. split; [bag_lookup|].
  cbn [data_store complaints complaint_counter].
  split; [done|]. split; [done|]. split; [|split; [|split]].
  - intros Hnew. unfold Tools.get_complaint_status, bind, get_data_store, ret.
    cbn [data_store]. unfold get_complaint in *. cbn [complaints].
    rewrite (find_snoc_none _ _ _ Hnew). cbn [complaint_id c].
    rewrite String.eqb_refl.
    eexists. split; [reflexivity|]. split; [bag_lookup|]. split; bag_lookup.
  - intros old Hold. unfold get_complaint in *. cbn [complaints].
    by apply find_snoc_some.
  - unfold Tools.list_order_complaints, bind, get_data_store, ret.
    cbn [data_store complaints].
    eexists _, _, _. split; [reflexivity|]. split; [reflexivity|].
    split; [bag_lookup|].
    unfold dict; cbn [list_to_map foldr fst snd].
    rewrite !lookup_insert_ne by done. rewrite lookup_insert_eq.
    rewrite filter_app, length_app, filter_cons_True by done.
    do 2 f_equal. simpl. lia.
  - intros other Hne. unfold Tools.list_order_complaints, bind, get_data_store, ret.
    cbn [data_store complaints fst].
    rewrite filter_app, filter_cons_False by (simpl; congruence).
    by rewrite filter_nil, app_nil_r.
Qed.

(** X17.  One refund per order.  For an order the store knows and that
    has no refund yet, [initiate_refund] returns success with the
    identifier [REF-n] ([n] the counter plus one) and the order's total
    as the amount, and appends exactly one record: pending, requested
    today, expected in seven days.  From then on the record is the
    order's refund: a second [initiate_refund] for the order is refused
    with "already exists" and changes nothing, and [get_refund_status]
    returns the record. *)
Theorem refund_request_is_single (clk clk' : Clock) (oid why why' : string)
        (w : World) (o : Order) :
  get_order (data_store w) oid = Some o ->
  get_refund (data_store w) oid = None ->
  let r := mkRefund ("REF-" +:+ string_of_Z (refund_counter (data_store w) + 1))
                    oid (total o) "pending" why (now_date clk)
                    (Some (date_in_7_days clk)) in
  exists bag w',
    Tools.initiate_refund clk oid why w = (Ok bag, w')
    /\ bag !! "success" = Some (VBool true)
    /\ bag !! "refund_id" = Some (VStr (refund_id r))
    /\ bag !! "amount" = Some (VFloat (total o))
    /\ refunds (data_store w') = refunds (data_store w) ++ [r]
    /\ refund_counter (data_store w') = refund_counter (data_store w) + 1
    /\ get_refund (data_store w') oid = Some r
    /\ (exists again,
          Tools.initiate_refund clk' oid why' w' = (Ok again, w')
          /\ again !! "success" = Some (VBool false)
          /\ again !! "message"
             = Some (VStr ("A refund request already exists for order " +:+ oid
                           +:+ " (Status: " +:+ "pending" +:+ ")")))
    /\ (exists status_bag,
          Tools.get_refund_status oid w' = (Ok status_bag, w')
          /\ status_bag !! "has_refund" = Some (VBool true)
          /\ status_bag !! "refund" = Some (Tools.refund_to_py r)).
Proof.
  intros Horder Hnone r.
  assert (Hfound : forall w0,
             get_refund (mkStore (orders (data_store w))
                                 (complaints (data_store w))
                                 (refunds (data_store w) ++ [r])
                                 (deliveries (data_store w)) w0
                                 (refund_counter (data_store w) + 1)) oid
             = Some r).
  { intros w0. unfold get_refund in *. cbn [refunds].
    rewrite (find_snoc_none _ _ _ Hnone). cbn [r_order_id r].
    by rewrite String.eqb_refl. }
  unfold Tools.initiate_refund at 1, Tools.store_create_refund, bind,
    get_data_store, set_data_store, ret.
  rewrite Horder, Hnone. cbn [data_store]. fold r.
  eexists _, _. split; [reflexivity|].
  split; [bag_lookup|]. split; [bag_lookup|]. split; [bag_lookup|].
  cbn [data_store refunds refund_counter].
  split; [done|]. split; [done|]. split; [apply Hfound|]. split.
  - unfold Tools.initiate_refund, bind, get_data_store, ret. cbn [data_store].
    rewrite Hfound. unfold get_order in *. cbn [orders]. rewrite Horder.
    eexists. split; [reflexivity|]. split; bag_lookup.
  - unfold Tools.get_refund_status, bind, get_data_store, ret. cbn [data_store].
    rewrite Hfound.
    eexists. split; [reflexivity|]. split; bag_lookup.
Qed.

(** X18.  Identifiers that are issued differ.  Creating a complaint
    moves the complaint counter up by one and leaves the refund counter
    alone, and creating a refund does the reverse.  Two complaints
    created one after the other by one store get different identifiers,
    and so do two refunds.  More generally, two creations of one kind
    that start from different values of that kind's counter give
    different identifiers, whatever else the two stores hold. *)
Theorem issued_ids_are_distinct (clk clk' : Clock) (oid oid' i i' d d' : string)
        (amt amt' : PrimFloat.float) (w w' : World) :
  (exists c c' w1 w2,
      Tools.store_create_complaint clk oid i d w = (Ok c, w1)
      /\ Tools.store_create_complaint clk' oid' i' d' w1 = (Ok c', w2)
      /\ complaint_id c <> complaint_id c'
      /\ complaint_counter (data_store w1) = complaint_counter (data_store w) + 1
      /\ refund_counter (data_store w1) = refund_counter (data_store w))
  /\ (exists r r' w1 w2,
         Tools.store_create_refund clk oid amt i w = (Ok r, w1)
         /\ Tools.store_create_refund clk' oid' amt' i' w1 = (Ok r', w2)
         /\ refund_id r <> refund_id r'
         /\ refund_counter (data_store w1) = refund_counter (data_store w) + 1
         /\ complaint_counter (data_store w1) = complaint_counter (data_store w))
  /\ (complaint_counter (data_store w) <> complaint_counter (data_store w') ->
      exists c c' w1 w1',
        Tools.store_create_complaint clk oid i d w = (Ok c, w1)
        /\ Tools.store_create_complaint clk' oid' i' d' w' = (Ok c', w1')
        /\ complaint_id c <> complaint_id c')
  /\ (refund_counter (data_store w) <> refund_counter (data_store w') ->
      exists r r' w1 w1',
        Tools.store_create_refund clk oid amt i w = (Ok r, w1)
        /\ Tools.store_create_refund clk' oid' amt' i' w' = (Ok r', w1')
        /\ refund_id r <> refund_id r').
Proof.
  unfold Tools.store_create_complaint, Tools.store_create_refund, bind,
    get_data_store, set_data_store, ret.
  cbn [data_store complaint_counter refund_counter].
  split; [|split; [|split]].
  - eexists _, _, _, _. split; [reflexivity|]. split; [reflexivity|].
    split; [|done]. cbn [complaint_id].
    intros Heq%string_app_inj_l%string_of_Z_inj.
    cbn [data_store complaint_counter] in Heq. lia.
  - eexists _, _, _, _. split; [reflexivity|]. split; [reflexivity|].
    split; [|done]. cbn [refund_id].
    intros Heq%string_app_inj_l%string_of_Z_inj.
    cbn [data_store refund_counter] in Heq. lia.
  - intros Hc. eexists _, _, _, _. split; [reflexivity|]. split; [reflexivity|].
    cbn [complaint_id]. intros Heq%string_app_inj_l%string_of_Z_inj. lia.
  - intros Hr. eexists _, _, _, _. split; [reflexivity|]. split; [reflexivity|].
    cbn [refund_id]. intros Heq%string_app_inj_l%string_of_Z_inj. lia.
Qed.

(** X19.  An unknown order changes nothing.  When the store has no order
    with the identifier, looking up its status, filing a complaint,
    asking for a refund and asking for a delivery estimate all return a
    bag with [success] false and leave the whole world as it was; so do
    the refund status when the store has no refund for the identifier,
    and the delivery status when it has no delivery for it. *)
Theorem unknown_order_changes_nothing (clk : Clock)
        (oid issue description why : string) (w : World) :
  get_order (data_store w) oid = None ->
  Forall (fun tool : M Bag =>
            exists bag, tool w = (Ok bag, w) /\ bag !! "success" = Some (VBool false))
         [Tools.get_order_status oid;
          Tools.create_complaint clk oid issue description;
          Tools.initiate_refund clk oid why;
          Tools.estimate_delivery oid]
  /\ (get_refund (data_store w) oid = None ->
      exists bag, Tools.get_refund_status oid w = (Ok bag, w)
                  /\ bag !! "success" = Some (VBool false))
  /\ (DataStore.get_delivery_status (data_store w) oid = None ->
      exists bag, Tools.get_delivery_status oid w = (Ok bag, w)
                  /\ bag !! "success" = Some (VBool false)).
Proof.
  intros Horder. split; [|split].
  - repeat constructor;
      unfold Tools.get_order_status, Tools.create_complaint, Tools.initiate_refund,
        Tools.estimate_delivery, bind, get_data_store, ret;
      rewrite Horder; (eexists; split; [reflexivity|bag_lookup]).
  - intros Hrefund. unfold Tools.get_refund_status, bind, get_data_store, ret.
    rewrite Hrefund, Horder. eexists; split; [reflexivity|bag_lookup].
  - intros Hdelivery. unfold Tools.get_delivery_status, bind, get_data_store, ret.
    rewrite Hdelivery, Horder. eexists; split; [reflexivity|bag_lookup].
Qed.

(** X20.  The delivery estimate and the order status tell the same
    story: both only read, both succeed on exactly the orders the store
    knows, and the estimate carries a date exactly when the order status
    does, and then the same one. *)
Theorem estimate_matches_order_status (oid : string) (w : World) :
  exists status estimate,
    Tools.get_order_status oid w = (Ok status, w)
    /\ Tools.estimate_delivery oid w = (Ok estimate, w)
    /\ estimate !! "success" = status !! "success"
    /\ estimate !! "estimated_delivery" = status !! "expected_delivery".
Proof.
  unfold Tools.get_order_status, Tools.estimate_delivery, bind, get_data_store, ret.
  destruct (get_order (data_store w) oid) as [o|].
  - cbv zeta.
    destruct (given (expected_delivery o)), (given (tracking_number o));
      (eexists _, _; split; [reflexivity|]; split; [reflexivity|];
       split; bag_lookup).
  - eexists _, _. split; [reflexivity|]. split; [reflexivity|]. split; bag_lookup.
Qed.

End ToolFacts.

(** The first complaint against the one order of the store. *)
Lemma complaint_round_trip_witness :
  exists bag w',
    Tools.create_complaint sample_clock "ORD-1234" "Product issue" "It is broken"
      one_order_world = (Ok bag, w')
    /\ bag !! "complaint_id" = Some (VStr "CMP-101")
    /\ exists status_bag,
         Tools.get_complaint_status "CMP-101" w' = (Ok status_bag, w')
         /\ status_bag !! "success" = Some (VBool true).
Proof.
  destruct (complaint_round_trip sample_clock "ORD-1234" "Product issue"
              "It is broken" one_order_world sample_order)
    as (bag & w' & Hrun & _ & Hid & _ & _ & Hread & _).
  - reflexivity.
  - exists bag, w'. split; [exact Hrun|]. split; [exact Hid|].
    destruct Hread as (status_bag & Hstatus & Hok & _); [reflexivity|].
    exists status_bag. split; [exact Hstatus|exact Hok].
Defined.

(** The first refund for the one order of the store, and a second try. *)
Lemma refund_request_is_single_witness :
  exists bag w' again,
    Tools.initiate_refund sample_clock "ORD-1234" "Customer request" one_order_world
    = (Ok bag, w')
    /\ bag !! "refund_id" = Some (VStr "REF-101")
    /\ Tools.initiate_refund sample_clock "ORD-1234" "Customer request" w'
       = (Ok again, w')
    /\ again !! "success" = Some (VBool false).
Proof.
  destruct (refund_request_is_single sample_clock sample_clock "ORD-1234"
              "Customer request" "Customer request" one_order_world sample_order)
    as (bag & w' & Hrun & _ & Hid & _ & _ & _ & _ & (again & Hagain & Hno & _) & _).
  - reflexivity.
  - reflexivity.
  - exists bag, w', again. split; [exact Hrun|]. split; [exact Hid|].
    split; [exact Hagain|exact Hno].
Defined.

(** Two complaints in a row on the empty store, and one on a store whose
    counter is further on. *)
Lemma issued_ids_are_distinct_witness :
  (exists c c' w1 w2,
      Tools.store_create_complaint sample_clock "ORD-1234" "Product issue" "first"
        fresh_world = (Ok c, w1)
      /\ Tools.store_create_complaint sample_clock "ORD-1234" "Product issue" "second"
           w1 = (Ok c', w2)
      /\ DataStore.complaint_id c <> DataStore.complaint_id c')
  /\ (exists c c' w1 w1',
         Tools.store_create_complaint sample_clock "ORD-1234" "Product issue" "first"
           fresh_world = (Ok c, w1)
         /\ Tools.store_create_complaint sample_clock "ORD-1234" "Product issue"
              "second" later_world = (Ok c', w1')
         /\ DataStore.complaint_id c <> DataStore.complaint_id c').
Proof.
  destruct (issued_ids_are_distinct sample_clock sample_clock "ORD-1234" "ORD-1234"
              "Product issue" "Product issue" "first" "second"
              PrimFloat.one PrimFloat.one fresh_world later_world)
    as ((c & c' & w1 & w2 & Hc & Hc' & Hne & _) & _ & Hother & _).
  split.
  - exists c, c', w1, w2. split; [exact Hc|]. split; [exact Hc'|exact Hne].
  - apply Hother. simpl. lia.
Defined.

(** An identifier the empty store does not know. *)
Lemma unknown_order_changes_nothing_witness :
  exists bag,
    Tools.get_refund_status "ORD-9999" fresh_world = (Ok bag, fresh_world)
    /\ bag !! "success" = Some (VBool false).
Proof.
  destruct (unknown_order_changes_nothing sample_clock "ORD-9999" "Product issue"
              "It is broken" "Customer request" fresh_world)
    as (_ & Hrefund & _).
  - reflexivity.
  - apply Hrefund. reflexivity.
Defined.

(* ===================================================================== *)
(** * What a turn asks of its collaborators                               *)
(* ===================================================================== *)

Lemma asks_only_refl m sid w : asks_only m sid w w.
Proof. split; [done|]. exists []. split; [by rewrite app_nil_r|constructor]. Qed.

Lemma asks_only_trans m sid w1 w2 w3 :
  asks_only m sid w1 w2 -> asks_only m sid w2 w3 -> asks_only m sid w1 w3.
Proof.
  intros (Hc1 & cs1 & Hcs1 & Hall1) (Hc2 & cs2 & Hcs2 & Hall2).
  split; [congruence|]. exists (cs1 ++ cs2).
  split; [rewrite Hcs2, Hcs1; by rewrite app_assoc|].
  apply Forall_app. split; [done|].
  unfold Orchestrator.history_of in *. by rewrite <- Hc1.
Qed.

Lemma logged_asks_only m sid w cs :
  Forall (turn_call m (Orchestrator.history_of w sid)) cs ->
  asks_only m sid w (logged w cs).
Proof. intros Hall. split; [done|]. by exists cs. Qed.

Lemma log_call_asks m sid c :
  (forall log, turn_call m log c) -> preserves (asks_only m sid) (log_call c).
Proof. intros Hc w. apply logged_asks_only. by repeat constructor. Qed.

Lemma set_data_store_asks m sid ds : preserves (asks_only m sid) (set_data_store ds).
Proof. intros w. split; [done|]. exists []. split; [by rewrite app_nil_r|constructor]. Qed.

Lemma last_keep_last {A} (n : nat) (l : list A) (x : A) :
  (0 < n)%nat -> last l = Some x -> last (keep_last n l) = Some x.
Proof.
  intros Hn [l' ->]%last_Some. unfold keep_last. apply last_drop_snoc.
  rewrite length_app. simpl. lia.
Qed.

Lemma classify_asks (ic : IntentClassifier.t) (m sid : string) :
  preserves (asks_only m sid) (IntentClassifier.classify ic m).
Proof.
  intros w. unfold IntentClassifier.classify, LLMService.classify_intent,
    LLMService.generate_response.
  destruct (LLMService.client _) as [c|]; [|apply asks_only_refl].
  change (String.eqb LLMService.classifier_system_message "") with false.
  cbv iota. unfold try_except, bind, LLMService.create_and_strip, bind, log_call, lift.
  change ([mkMessage "system" (VStr LLMService.classifier_system_message)] ++
          [mkMessage "user" (VStr m)]) with (req_messages (classification_request m)).
  change (mkRequest (req_messages (classification_request m)) 50)
    with (classification_request m).
  assert (Hone : forall log,
             Forall (turn_call m log) [ChatCompletion (classification_request m)]).
  { intros log. repeat constructor. }
  destruct (c (classification_request m)) as [[s|]|e];
    unfold ret, raise; cbn [fst snd];
    repeat match goal with |- context [if ?b then _ else _] => destruct b end;
    apply (logged_asks_only m sid w), Hone.
Qed.

Lemma generate_with_history_calls (svc : LLMService.t) (ms : list Message)
      (mt : Z) (w : World) :
  exists s cs,
    LLMService.generate_with_history svc ms mt w = (Ok s, logged w cs)
    /\ Forall (fun c => c = GenerateWithHistory ms
                        \/ c = ChatCompletion (mkRequest ms mt)) cs.
Proof.
  unfold LLMService.generate_with_history, bind, log_call, logged.
  destruct (LLMService.client svc) as [c|].
  { unfold try_except, LLMService.create_and_strip, bind, log_call, lift. simpl.
    destruct (c _) as [[s|]|e];
      (eexists _, [_; _]; split; [simpl; by rewrite <- app_assoc|];
       repeat first [apply List.Forall_nil | apply List.Forall_cons]; auto). }
  eexists _, [_]. split; [done|].
  repeat first [apply List.Forall_nil | apply List.Forall_cons]; auto.
Qed.

Section CallFacts.
Context `{Scalar} `{PyRuntime}.
Import Orchestrator.

Lemma recent_keep_last (sid : string) (w : World) :
  fst (_get_recent_history sid 6 w) = Ok (keep_last 6 (history_of w sid)).
Proof.
  unfold _get_recent_history, keep_last, list_slice_from, norm_index. cbn [fst].
  destruct (Z.ltb_spec 6 (Z.of_nat (length (history_of w sid)))) as [Hlt|Hge].
  - destruct (Z.ltb_spec (- (6)) 0); [|lia]. do 2 f_equal. lia.
  - replace (length (history_of w sid) - 6)%nat with 0%nat by lia. done.
Qed.

Lemma recent_then_generate_asks (svc : LLMService.t) (m sid : string)
      (build : list Message -> list Message) :
  (forall log, prompt_of m log (build (keep_last 6 log))) ->
  preserves (asks_only m sid)
    (let* history := _get_recent_history sid 6 in
     let* response := LLMService.generate_with_history svc (build history) 500 in
     ret (VStr response)).
Proof.
  intros Hbuild w. unfold bind at 1.
  pose proof (recent_keep_last sid w) as Hrecent.
  destruct (_get_recent_history sid 6 w) as [r w0] eqn:Hrun.
  assert (w0 = w) as -> by (unfold _get_recent_history in Hrun; congruence).
  cbn [fst] in Hrecent. subst r. unfold bind.
  destruct (generate_with_history_calls svc (build (keep_last 6 (history_of w sid)))
              500 w) as (s & cs & -> & Hcs).
  unfold ret. cbn [snd]. apply logged_asks_only.
  eapply Forall_impl; [exact Hcs|]. intros c [-> | ->]; simpl.
  - apply Hbuild.
  - right. eexists. split; [reflexivity|apply Hbuild].
Qed.

Lemma retrieve_asks (p : RAGPipeline.t) (m sid : string) (k : option Z) :
  preserves (asks_only m sid) (RAGPipeline.retrieve p m k).
Proof.
  unfold RAGPipeline.retrieve. cbv zeta.
  repeat first [ apply log_call_asks; intros ?; reflexivity
               | frame_step (asks_only_refl m sid) (asks_only_trans m sid) ].
Qed.

Lemma handle_product_info_asks (ag : t) (m sid : string) :
  preserves (asks_only m sid) (_handle_product_info ag m).
Proof.
  unfold _handle_product_info. cbv zeta.
  repeat first [ apply retrieve_asks
               | frame_step (asks_only_refl m sid) (asks_only_trans m sid) ].
Qed.

Lemma handle_comparison_asks (ag : t) (m sid : string) :
  preserves (asks_only m sid) (_handle_comparison ag m).
Proof.
  unfold _handle_comparison. cbv zeta.
  destruct (Z.ltb_spec (Z.of_nat (length (IntentClassifier.extract_product_ids m))) 2)
    as [Hlt|Hge]; [apply handle_product_info_asks|].
  apply (preserves_bind _ (asks_only_trans m sid)).
  - apply log_call_asks. intros log. split; [done|]. split; [lia|].
    unfold IntentClassifier.extract_product_ids.
    apply Forall_forall. by intros n [Hn _]%list_elem_of_filter.
  - intros _.
    repeat frame_step (asks_only_refl m sid) (asks_only_trans m sid).
Qed.

Lemma route_asks (ag : t) (i m sid : string) :
  preserves (asks_only m sid) (_route_to_handler ag i m sid).
Proof.
  unfold _route_to_handler, _handle_order_status, _handle_complaint,
    _handle_refund, _handle_delivery, _handle_general,
    Tools.get_order_status, Tools.create_complaint, Tools.store_create_complaint,
    Tools.get_refund_status, Tools.initiate_refund, Tools.store_create_refund,
    Tools.get_delivery_status.
  cbv zeta;
    repeat first [ apply handle_product_info_asks
                 | apply handle_comparison_asks
                 | apply retrieve_asks
                 | apply set_data_store_asks
                 | frame_step (asks_only_refl m sid) (asks_only_trans m sid) ].
Qed.

Lemma generate_asks (ag : t) (i m : string) (d : Bag) (sid : string) :
  preserves (asks_only m sid) (_generate_response ag i m d sid).
Proof.
  unfold _generate_response. cbv zeta.
  repeat first
    [ apply recent_then_generate_asks;
      intros log;
      match goal with
      | |- context [if ?b then _ else _] => destruct b
      end;
      [ eexists [_]; split; [simpl; by rewrite <- app_assoc|right; by eexists]
      | exists []; split; [done|by left] ]
    | frame_step (asks_only_refl m sid) (asks_only_trans m sid) ].
Qed.

Lemma answer_turn_asks (ag : t) (m sid : string) :
  preserves (asks_only m sid) (answer_turn ag m sid).
Proof.
  unfold answer_turn, route_and_compose.
  apply (preserves_bind _ (asks_only_trans m sid)); [apply classify_asks|intros i].
  apply (preserves_bind _ (asks_only_trans m sid)); [apply route_asks|intros d].
  apply (preserves_bind _ (asks_only_trans m sid)); [apply generate_asks|intros txt].
  apply (preserves_ret _ (asks_only_refl m sid)).
Qed.

(** X21.  What a turn asks of its collaborators.  With a [max_history]
    that is not negative, every call [process_message] adds to the record
    is about the message of the turn: the embedding service is asked for
    the message itself; the graph store is asked to compare exactly the
    numbers between 1 and 100 that the message holds, and only when
    there are at least two; a request to the remote model is either the
    classification of the message or the composition prompt with a limit
    of 500 tokens; and the composition prompt is the persona, the last
    six entries of the session log as it is after the user's entry, at
    most one context message, and the message.  Those six entries end
    with the message, so the prompt carries it twice. *)
Theorem turn_asks_about_the_message (ag : t) (m sid : string) (w : World) :
  0 <= max_history ag ->
  let log := appended (max_history ag) (history_of w sid)
                      (mkMessage "user" (VStr m)) in
  (exists cs,
      calls (snd (process_message ag m sid w)) = calls w ++ cs
      /\ Forall (turn_call m log) cs)
  /\ last (keep_last 6 log) = Some (mkMessage "user" (VStr m)).
Proof.
  intros Hmax log. split.
  - pose proof (answer_turn_asks ag m sid
                  (snd (_add_to_history ag sid "user" (VStr m) w)))
      as (_ & cs & Hcs & Hall).
    rewrite history_after_add in Hall. fold log in Hall.
    change (calls (snd (_add_to_history ag sid "user" (VStr m) w)))
      with (calls w) in Hcs.
    exists cs. split; [|exact Hall].
    destruct (process_message_cases ag m sid w)
      as [(i & d & s & w2 & Hturn & _ & ->) | (e & w2 & Hturn & ->)];
      rewrite Hturn in Hcs; exact Hcs.
  - apply last_keep_last; [lia|]. by apply last_appended.
Qed.

End CallFacts.

(** The offline agent asked to compare products 3 and 7. *)
Lemma turn_asks_about_the_message_witness :
  exists cs,
    calls (snd (Orchestrator.process_message (offline_agent working_rag)
                  "compare 3 vs 7" "s1" fresh_world)) = cs
    /\ Forall (turn_call "compare 3 vs 7" [mkMessage "user" (VStr "compare 3 vs 7")]) cs.
Proof.
  destruct (turn_asks_about_the_message (offline_agent working_rag)
              "compare 3 vs 7" "s1" fresh_world)
    as ((cs & Hcs & Hall) & _).
  - simpl. lia.
  - exists cs. split; [exact Hcs|exact Hall].
Defined.
